(** * Invent.py: an in-memory inventory tracker with CSV persistence

    A shallow embedding of [src/Invent.py] and the properties its
    specification states about it.

    Conventions of the embedding.
    - A Python [str] is a [list ascii] ([pystr]); literals are written
      [py "..."].  Characters outside ASCII are carried as their UTF-8
      bytes and [lower] leaves them alone.
    - A Python [int] is a [Z].
    - A Python [float] is a binary64 value, [spec_float] of the Standard
      Library.  Its conversion to and from decimal text ([repr] and
      [float]) belongs to the Python runtime and is taken as a parameter
      ([FloatText]).
    - A [dict] is an association list that keeps insertion order, as
      Python's does: the order is what [save_inventory] and the reports
      iterate in.
    - A function that only prints returns the printed lines next to its
      result; code that also reads input, touches files or raises runs
      in the state-and-exception monad [IO].
    - The interpreter modelled is CPython 3.11 with its default
      settings; its configurable limits (the csv field size limit, the
      limit on the digits of an [int] converted to or from text) are
      left out.
    - The console stays open: [print] does not fail, and [input] fails
      at the end of the input only.  A file is known by the text of its
      name: that a name cannot be opened for writing, or that two names
      lead to one file, is not modelled, and a property that would rest
      on it asks for what it needs. *)

From Stdlib Require Import ZArith Ascii String List Bool Lia.
From Stdlib Require Import Decimal DecimalPos.
From Stdlib Require Import Floats.SpecFloat.
From stdpp Require Import base option list gmap.

Open Scope Z_scope.

(** ** Python strings *)

Abbreviation pystr := (list ascii).

Definition py (s : string) : pystr := list_ascii_of_string s.

Definition pystr_eqb (a b : pystr) : bool := bool_decide (a = b).

Definition TAB : ascii := ascii_of_nat 9.
Definition LF : ascii := ascii_of_nat 10.
Definition CR : ascii := ascii_of_nat 13.
Definition DQUOTE : ascii := ascii_of_nat 34.
Definition COMMA : ascii := ","%char.

(** [c.lower()] on one character: 'A'..'Z' move to 'a'..'z'. *)
Definition lower_char (c : ascii) : ascii :=
  let n := nat_of_ascii c in
  if ((65 <=? n) && (n <=? 90))%nat then ascii_of_nat (n + 32) else c.

(** [s.lower()] *)
Definition lower (s : pystr) : pystr := map lower_char s.

(** [s.startswith(pre)] *)
Fixpoint startswith (pre s : pystr) : bool :=
  match pre, s with
  | [], _ => true
  | _ :: _, [] => false
  | a :: pre', b :: s' => Ascii.eqb a b && startswith pre' s'
  end.

(** [needle in hay] on two strings: [needle] occurs at some offset. *)
Fixpoint str_in (needle hay : pystr) : bool :=
  startswith needle hay ||
  match hay with
  | [] => false
  | _ :: hay' => str_in needle hay'
  end.

(** [str(n)] for an [int]: the decimal digits, most significant first. *)
Fixpoint uint_chars (d : uint) : pystr :=
  match d with
  | Nil => []
  | D0 d => "0"%char :: uint_chars d
  | D1 d => "1"%char :: uint_chars d
  | D2 d => "2"%char :: uint_chars d
  | D3 d => "3"%char :: uint_chars d
  | D4 d => "4"%char :: uint_chars d
  | D5 d => "5"%char :: uint_chars d
  | D6 d => "6"%char :: uint_chars d
  | D7 d => "7"%char :: uint_chars d
  | D8 d => "8"%char :: uint_chars d
  | D9 d => "9"%char :: uint_chars d
  end.

Definition str_of_int (n : Z) : pystr :=
  match Z.to_int n with
  | Pos d => uint_chars d
  | Neg d => "-"%char :: uint_chars d
  end.

(** The ASCII characters [int()] strips from both ends: tab, line feed,
    vertical tab, form feed, carriage return and space. *)
Definition is_space (c : ascii) : bool :=
  let n := nat_of_ascii c in
  (((9 <=? n) && (n <=? 13)) || (n =? 32))%nat.

Fixpoint lstrip (s : pystr) : pystr :=
  match s with
  | c :: s' => if is_space c then lstrip s' else s
  | [] => []
  end.

Definition strip (s : pystr) : pystr := rev (lstrip (rev (lstrip s))).

Definition digit_val (c : ascii) : option Z :=
  let n := nat_of_ascii c in
  if ((48 <=? n) && (n <=? 57))%nat then Some (Z.of_nat n - 48) else None.

(** Decimal digits, single underscores allowed between two digits.
    [after_digit] tells whether the previous character was a digit. *)
Fixpoint parse_digits (acc : Z) (after_digit : bool) (s : pystr) : option Z :=
  match s with
  | [] => if after_digit then Some acc else None
  | c :: s' =>
      match digit_val c with
      | Some d => parse_digits (10 * acc + d) true s'
      | None =>
          if Ascii.eqb c "_" && after_digit then parse_digits acc false s'
          else None
      end
  end.

(** [int(s)] for a string; [None] stands for its [ValueError]. *)
Definition int_of_str (s : pystr) : option Z :=
  match strip s with
  | "+"%char :: r => parse_digits 0 false r
  | "-"%char :: r => Z.opp <$> parse_digits 0 false r
  | r => parse_digits 0 false r
  end.

(** [sep.join(parts)] *)
Fixpoint join (sep : pystr) (parts : list pystr) : pystr :=
  match parts with
  | [] => []
  | [s] => s
  | s :: parts' => s ++ sep ++ join sep parts'
  end.

(** ** Python floats

    A [float] is a binary64 value.  What the runtime does between floats
    and decimal text is a parameter of the development. *)

Abbreviation pyfloat := spec_float.

Class FloatText := {
  (** [repr(x)], which is also [str(x)] and what an f-string shows *)
  float_repr : pyfloat -> pystr;
  (** [float(s)] for a string; [None] stands for its [ValueError] *)
  float_of_str : pystr -> option pyfloat
}.

Definition SF64add := SFadd 53 1024.
Definition SF64mul := SFmul 53 1024.

(** ** Exceptions and results *)

(** The last one is not an exception of Python.  The embedding gives
    [name] and [category] the type of strings, which the program does
    not check; [IllTyped] marks the one place where a run can leave
    these types ([FileManager.make_product]). *)
Inductive exn :=
  | ValueError | TypeError | KeyError | OverflowError
  | EOFError | FileNotFoundError | CsvError
  | IllTyped.

Inductive result (A : Type) :=
  | Ok (a : A)
  | Raise (e : exn).
Arguments Ok {A} a.
Arguments Raise {A} e.

(** [float(n)] for an [int]: rounded to nearest even, [OverflowError]
    when the rounded value is not finite. *)
Definition float_of_int (n : Z) : result pyfloat :=
  match binary_normalize 53 1024 n 0 false with
  | S754_infinity _ => Raise OverflowError
  | x => Ok x
  end.

(** ** Python dictionaries with integer keys

    Insertion ordered: assigning to a key that is present keeps its
    position, a new key goes to the end. *)

Abbreviation pydict V := (list (Z * V)).

(** [d.get(k)] *)
Fixpoint dict_get {V} (k : Z) (d : pydict V) : option V :=
  match d with
  | [] => None
  | (k', v) :: d' => if k =? k' then Some v else dict_get k d'
  end.

(** [d[k] = v] *)
Fixpoint dict_set {V} (k : Z) (v : V) (d : pydict V) : pydict V :=
  match d with
  | [] => [(k, v)]
  | (k', v') :: d' =>
      if k =? k' then (k, v) :: d' else (k', v') :: dict_set k v d'
  end.

(** [d.pop(k, None)], the popped value dropped *)
Fixpoint dict_pop {V} (k : Z) (d : pydict V) : pydict V :=
  match d with
  | [] => []
  | (k', v') :: d' =>
      if k =? k' then dict_pop k d' else (k', v') :: dict_pop k d'
  end.

(** [d.values()], [d.keys()] *)
Definition dict_values {V} (d : pydict V) : list V := map snd d.
Definition dict_keys {V} (d : pydict V) : list Z := map fst d.

(** What every dictionary satisfies: a key occurs once. *)
Definition dict_wf {V} (d : pydict V) : Prop := NoDup (dict_keys d).

(** ** class Product *)

Module Product.

Record t := {
  product_id : Z;
  name : pystr;
  category : pystr;
  price : pyfloat;
  quantity : Z;
  reorder_level : Z
}.

(** [self.quantity += amount] *)
Definition update_quantity (self : t) (amount : Z) : t :=
  {| product_id := product_id self;
     name := name self;
     category := category self;
     price := price self;
     quantity := quantity self + amount;
     reorder_level := reorder_level self |}.

Definition is_low_stock (self : t) : bool :=
  quantity self <=? reorder_level self.

End Product.

(** ** class Inventory

    [self.products], a dictionary from product id to [Product]. *)

Module Inventory.

Abbreviation t := (pydict Product.t).

Definition empty : t := [].

Definition check_low_stock (product : Product.t) : list pystr :=
  if Product.is_low_stock product then
    [py "⚠️ LOW STOCK ALERT: " ++ Product.name product ++ py " ("
       ++ str_of_int (Product.quantity product) ++ py " left)"]
  else [].

Definition add_product (self : t) (product : Product.t) : t * list pystr :=
  (dict_set (Product.product_id product) product self,
   check_low_stock product).

Definition remove_product (self : t) (product_id : Z) : t :=
  dict_pop product_id self.

Definition get_product (self : t) (product_id : Z) : option Product.t :=
  dict_get product_id self.

Definition search_by_name (self : t) (name : pystr) : list Product.t :=
  List.filter (fun p => str_in (lower name) (lower (Product.name p)))
    (dict_values self).

Definition search_by_category (self : t) (category : pystr) : list Product.t :=
  List.filter
    (fun p => pystr_eqb (lower (Product.category p)) (lower category))
    (dict_values self).

Definition product_line {FT : FloatText} (p : Product.t) : pystr :=
  str_of_int (Product.product_id p) ++ py " | " ++ Product.name p
  ++ py " | " ++ Product.category p ++ py " | "
  ++ float_repr (Product.price p) ++ py " | "
  ++ str_of_int (Product.quantity p) ++ py " | "
  ++ str_of_int (Product.reorder_level p)
  ++ (if Product.is_low_stock p then py " ⚠️" else []).

Definition list_products {FT : FloatText} (self : t) : list pystr :=
  [py "***********************************************************************";
   [TAB] ++ py " " ++ [TAB] ++ py " " ++ [TAB] ++ py " INVENTORY STOCK";
   py "***********************************************************************";
   [LF] ++ py "ID | Name | Category | Price | Qty | Reorder"]
  ++ map product_line (dict_values self).

End Inventory.

(** ** The world of the program: console, files, clock *)

(** What the program shows: a [print] call (its text, without the final
    newline), the prompt of an [input] call, a chart handed to
    matplotlib. *)
Inductive event :=
  | Print (line : pystr)
  | Prompt (text : pystr)
  | Chart (names : list pystr) (quantities : list Z).

Record World := {
  stdin : list pystr;             (* the lines still to be typed *)
  stdout : list event;            (* what was shown, oldest first *)
  files : pystr -> option pystr;  (* file name to content *)
  clock : Z                       (* what datetime.now() reads *)
}.

(** Code with effects: it reads and changes a state [S] and returns or
    raises; the state it leaves is kept when it raises. *)
Definition ST (S A : Type) : Type := S -> result A * S.

Definition ret {S A} (a : A) : ST S A := fun w => (Ok a, w).

Definition raise {S A} (e : exn) : ST S A := fun w => (Raise e, w).

Definition bind {S A B} (m : ST S A) (k : A -> ST S B) : ST S B :=
  fun w =>
    match m w with
    | (Ok a, w') => k a w'
    | (Raise e, w') => (Raise e, w')
    end.

Notation "'let*' x := m 'in' k" := (bind m (fun x => k))
  (at level 10, x name, m at level 100, k at level 200, only parsing).
Notation "m >> k" := (bind m (fun _ => k))
  (at level 100, k at level 200, right associativity, only parsing).

Definition of_result {S A} (r : result A) : ST S A := fun w => (r, w).

Abbreviation IO := (ST World).

Definition emit (e : event) : IO unit :=
  fun w => (Ok tt, {| stdin := stdin w; stdout := stdout w ++ [e];
                      files := files w; clock := clock w |}).

(** [print(line)] *)
Definition print (line : pystr) : IO unit := emit (Print line).

Fixpoint print_lines (lines : list pystr) : IO unit :=
  match lines with
  | [] => ret tt
  | l :: lines' => print l >> print_lines lines'
  end.

(** Runs a function that returns its printed lines. *)
Definition printing {A} (r : A * list pystr) : IO A :=
  print_lines (snd r) >> ret (fst r).

(** [input(prompt)]: shows the prompt, takes the next line typed,
    [EOFError] when there is none. *)
Definition input (prompt : pystr) : IO pystr :=
  emit (Prompt prompt) >>
  fun w =>
    match stdin w with
    | [] => (Raise EOFError, w)
    | l :: rest =>
        (Ok l, {| stdin := rest; stdout := stdout w;
                  files := files w; clock := clock w |})
    end.

(** [datetime.now()] *)
Definition datetime_now : IO Z := fun w => (Ok (clock w), w).

(** Text read with [newline=None], the default of [open]: [CR LF] and a
    lone [CR] both arrive as [LF].  [after_cr] tells whether the
    previous character was a [CR]. *)
Fixpoint universal_newlines (after_cr : bool) (s : pystr) : pystr :=
  match s with
  | [] => []
  | c :: s' =>
      if Ascii.eqb c CR then LF :: universal_newlines true s'
      else if Ascii.eqb c LF && after_cr then universal_newlines false s'
      else c :: universal_newlines false s'
  end.

(** Iterating over a text file: the lines, each with its [LF]; the last
    one may lack it.  [cur] is the line being collected. *)
Fixpoint readlines (cur s : pystr) : list pystr :=
  match s with
  | [] => match cur with [] => [] | _ => [cur] end
  | c :: s' =>
      if Ascii.eqb c LF then (cur ++ [LF]) :: readlines [] s'
      else readlines (cur ++ [c]) s'
  end.

(** [open(name, "r", encoding="utf-8")] iterated to its end. *)
Definition open_read_lines (name : pystr) : IO (list pystr) :=
  fun w =>
    match files w name with
    | None => (Raise FileNotFoundError, w)
    | Some content => (Ok (readlines [] (universal_newlines false content)), w)
    end.

(** [open(name, "w", newline="", encoding="utf-8")] with [content]
    written and the file closed: nothing is translated. *)
Definition open_write (name content : pystr) : IO unit :=
  fun w =>
    (Ok tt, {| stdin := stdin w; stdout := stdout w;
               files := fun n => if pystr_eqb n name then Some content
                                 else files w n;
               clock := clock w |}).

(** ** The csv module, default dialect

    Delimiter comma, quote character the double quote, line terminator
    [CR LF], quotes doubled, minimal quoting, no escape character, not
    strict. *)

Module csv.

(** A character that makes the writer quote its field. *)
Definition special (c : ascii) : bool :=
  Ascii.eqb c COMMA || Ascii.eqb c DQUOTE || Ascii.eqb c CR || Ascii.eqb c LF.

Fixpoint double_quotes (s : pystr) : pystr :=
  match s with
  | [] => []
  | c :: s' =>
      if Ascii.eqb c DQUOTE then DQUOTE :: DQUOTE :: double_quotes s'
      else c :: double_quotes s'
  end.

Definition write_field (s : pystr) : pystr :=
  if existsb special s then DQUOTE :: double_quotes s ++ [DQUOTE] else s.

(** The fields of a row joined; a row of one empty field is written as
    two quotes. *)
Definition join_fields (fields : list pystr) : pystr :=
  match fields with
  | [[]] => [DQUOTE; DQUOTE]
  | _ => join [COMMA] (map write_field fields)
  end.

Definition writerow_with (lineterminator : pystr) (fields : list pystr)
  : pystr :=
  join_fields fields ++ lineterminator.

(** [writer.writerow(fields)], the fields already strings: the text
    written. *)
Definition writerow (fields : list pystr) : pystr :=
  writerow_with [CR; LF] fields.

(** The states of the reader that the default dialect reaches (those
    for an escape character are left out). *)
Inductive state :=
  | START_RECORD | START_FIELD | IN_FIELD
  | IN_QUOTED_FIELD | QUOTE_IN_QUOTED_FIELD | EAT_CRNL.

Record parser := {
  st : state;
  field : pystr;           (* the field being collected *)
  fields : list pystr      (* the fields of the record so far *)
}.

Definition parse_reset : parser :=
  {| st := START_RECORD; field := []; fields := [] |}.

Definition set_state (s : state) (r : parser) : parser :=
  {| st := s; field := field r; fields := fields r |}.

Definition parse_save_field (r : parser) : parser :=
  {| st := st r; field := []; fields := fields r ++ [field r] |}.

Definition parse_add_char (c : ascii) (r : parser) : parser :=
  {| st := st r; field := field r ++ [c]; fields := fields r |}.

Definition is_newline (c : ascii) : bool := Ascii.eqb c LF || Ascii.eqb c CR.

(** The case [START_FIELD] of [parse_process_char], which the case
    [START_RECORD] falls into.  [None] is the end-of-line mark the
    reader feeds after the characters of each line. *)
Definition start_field (r : parser) (c : option ascii) : result parser :=
  match c with
  | None => Ok (set_state START_RECORD (parse_save_field r))
  | Some ch =>
      if is_newline ch then Ok (set_state EAT_CRNL (parse_save_field r))
      else if Ascii.eqb ch DQUOTE then Ok (set_state IN_QUOTED_FIELD r)
      else if Ascii.eqb ch COMMA then
        Ok (set_state START_FIELD (parse_save_field r))
      else Ok (set_state IN_FIELD (parse_add_char ch r))
  end.

Definition parse_process_char (r : parser) (c : option ascii) : result parser :=
  match st r with
  | START_RECORD =>
      match c with
      | None => Ok r
      | Some ch =>
          if is_newline ch then Ok (set_state EAT_CRNL r)
          else start_field r c
      end
  | START_FIELD => start_field r c
  | IN_FIELD =>
      match c with
      | None => Ok (set_state START_RECORD (parse_save_field r))
      | Some ch =>
          if is_newline ch then Ok (set_state EAT_CRNL (parse_save_field r))
          else if Ascii.eqb ch COMMA then
            Ok (set_state START_FIELD (parse_save_field r))
          else Ok (parse_add_char ch r)
      end
  | IN_QUOTED_FIELD =>
      match c with
      | None => Ok r
      | Some ch =>
          if Ascii.eqb ch DQUOTE then Ok (set_state QUOTE_IN_QUOTED_FIELD r)
          else Ok (parse_add_char ch r)
      end
  | QUOTE_IN_QUOTED_FIELD =>
      match c with
      | None => Ok (set_state START_RECORD (parse_save_field r))
      | Some ch =>
          if Ascii.eqb ch DQUOTE then
            Ok (set_state IN_QUOTED_FIELD (parse_add_char ch r))
          else if Ascii.eqb ch COMMA then
            Ok (set_state START_FIELD (parse_save_field r))
          else if is_newline ch then
            Ok (set_state EAT_CRNL (parse_save_field r))
          else Ok (set_state IN_FIELD (parse_add_char ch r))
      end
  | EAT_CRNL =>
      match c with
      | None => Ok (set_state START_RECORD r)
      | Some ch => if is_newline ch then Ok r else Raise CsvError
      end
  end.

(** One line fed to the parser: its characters, then the end-of-line
    mark. *)
Fixpoint parse_line (r : parser) (line : pystr) : result parser :=
  match line with
  | [] => parse_process_char r None
  | c :: line' =>
      match parse_process_char r (Some c) with
      | Ok r' => parse_line r' line'
      | Raise e => Raise e
      end
  end.

Definition is_START_RECORD (s : state) : bool :=
  match s with START_RECORD => true | _ => false end.

Definition is_IN_QUOTED_FIELD (s : state) : bool :=
  match s with IN_QUOTED_FIELD => true | _ => false end.

(** What iterating over [csv.reader(lines)] yields: the records, in
    order, and the exception that ends the iteration if one does.  A
    record is complete when a line leaves the parser in [START_RECORD];
    input that ends inside a record yields what was collected. *)
Fixpoint reader_from (r : parser) (lines : list pystr)
  : list (list pystr) * option exn :=
  match lines with
  | [] =>
      match field r with
      | [] =>
          if is_IN_QUOTED_FIELD (st r)
          then ([fields (parse_save_field r)], None) else ([], None)
      | _ :: _ => ([fields (parse_save_field r)], None)
      end
  | line :: lines' =>
      match parse_line r line with
      | Raise e => ([], Some e)
      | Ok r' =>
          if is_START_RECORD (st r') then
            let (records, e) := reader_from parse_reset lines' in
            (fields r' :: records, e)
          else reader_from r' lines'
      end
  end.

Definition reader (lines : list pystr) : list (list pystr) * option exn :=
  reader_from parse_reset lines.

(** A row of [DictReader]: the values by column name, [None] for a
    column the record was too short for ([restval]); the fields beyond
    the last column, kept under the key [None] ([restkey]). *)
Record row := {
  named : list (pystr * option pystr);
  rest : option (list pystr)
}.

Fixpoint zip_row (fieldnames record : list pystr)
  : list (pystr * option pystr) :=
  match fieldnames, record with
  | [], _ => []
  | k :: ks, [] => (k, None) :: zip_row ks []
  | k :: ks, v :: vs => (k, Some v) :: zip_row ks vs
  end.

Definition make_row (fieldnames record : list pystr) : row :=
  {| named := zip_row fieldnames record;
     rest := if (length fieldnames <? length record)%nat
             then Some (drop (length fieldnames) record) else None |}.

(** The last binding of a key is the one the dictionary holds. *)
Fixpoint lookup_last (key : pystr) (d : list (pystr * option pystr))
  : option (option pystr) :=
  match d with
  | [] => None
  | (k, v) :: d' =>
      match lookup_last key d' with
      | Some v' => Some v'
      | None => if pystr_eqb k key then Some v else None
      end
  end.

(** [row[key]] for a string key: [KeyError] when there is no such
    column. *)
Definition getitem (r : row) (key : pystr) : result (option pystr) :=
  match lookup_last key (named r) with
  | Some v => Ok v
  | None => Raise KeyError
  end.

Definition nonblank (record : list pystr) : bool :=
  match record with [] => false | _ => true end.

(** What iterating over [csv.DictReader(lines)] yields: the first record
    gives the column names, blank records after it are skipped. *)
Definition DictReader (lines : list pystr) : list row * option exn :=
  match reader lines with
  | ([], e) => ([], e)
  | (fieldnames :: records, e) =>
      (map (make_row fieldnames) (List.filter nonblank records), e)
  end.

End csv.

(** ** class FileManager *)

Module FileManager.

Section Conversions.
Context {FT : FloatText}.

Definition header : list pystr :=
  [py "product_id"; py "name"; py "category";
   py "price"; py "quantity"; py "reorder_level"].

(** The row written for a product: the writer applies [str] to what is
    not a string. *)
Definition product_record (p : Product.t) : list pystr :=
  [str_of_int (Product.product_id p); Product.name p; Product.category p;
   float_repr (Product.price p); str_of_int (Product.quantity p);
   str_of_int (Product.reorder_level p)].

(** The text [save_inventory] writes. *)
Definition inventory_text (inventory : Inventory.t) : pystr :=
  csv.writerow header
  ++ concat (map (fun p => csv.writerow (product_record p))
               (dict_values inventory)).

Definition save_inventory (inventory : Inventory.t)
    (inventory_products : pystr) : IO unit :=
  open_write inventory_products (inventory_text inventory).

(** [int(v)] and [float(v)] for a value of a row: [None] is not a
    string. *)
Definition to_int (v : option pystr) : result Z :=
  match v with
  | None => Raise TypeError
  | Some s =>
      match int_of_str s with Some n => Ok n | None => Raise ValueError end
  end.

Definition to_float (v : option pystr) : result pyfloat :=
  match v with
  | None => Raise TypeError
  | Some s =>
      match float_of_str s with Some x => Ok x | None => Raise ValueError end
  end.

(** A value of a row used as [name] or [category].  Python stores a
    [None] there as it is; the embedding has no such product and stops. *)
Definition to_text (v : option pystr) : result pystr :=
  match v with
  | None => Raise IllTyped
  | Some s => Ok s
  end.

Definition rbind {A B} (r : result A) (k : A -> result B) : result B :=
  match r with
  | Ok a => k a
  | Raise e => Raise e
  end.

(** [Product(int(row["product_id"]), row["name"], row["category"],
    float(row["price"]), int(row["quantity"]),
    int(row["reorder_level"]))], the arguments evaluated in this order. *)
Definition make_product (row : csv.row) : result Product.t :=
  rbind (rbind (csv.getitem row (py "product_id")) to_int) (fun product_id =>
  rbind (rbind (csv.getitem row (py "name")) to_text) (fun name =>
  rbind (rbind (csv.getitem row (py "category")) to_text) (fun category =>
  rbind (rbind (csv.getitem row (py "price")) to_float) (fun price =>
  rbind (rbind (csv.getitem row (py "quantity")) to_int) (fun quantity =>
  rbind (rbind (csv.getitem row (py "reorder_level")) to_int)
    (fun reorder_level =>
  Ok {| Product.product_id := product_id;
        Product.name := name;
        Product.category := category;
        Product.price := price;
        Product.quantity := quantity;
        Product.reorder_level := reorder_level |})))))).

(** The body of [for row in reader], row after row. *)
Fixpoint load_rows (inventory : Inventory.t) (rows : list csv.row)
  : IO Inventory.t :=
  match rows with
  | [] => ret inventory
  | row :: rows' =>
      let* product := of_result (make_product row) in
      let* inventory' := printing (Inventory.add_product inventory product) in
      load_rows inventory' rows'
  end.

Definition load_inventory (inventory_products : pystr) : IO Inventory.t :=
  let* lines := open_read_lines inventory_products in
  let (rows, e) := csv.DictReader lines in
  let* inventory := load_rows Inventory.empty rows in
  match e with
  | Some e => raise e
  | None => ret inventory
  end.

End Conversions.

End FileManager.

(** ** class Transaction, class TransactionLogger *)

Module Transaction.

Record t := {
  transaction_id : Z;
  product_id : Z;
  quantity : Z;
  transaction_type : pystr;
  date : Z
}.

(** [Transaction(transaction_id, product_id, quantity, transaction_type)] *)
Definition new (transaction_id product_id quantity : Z)
    (transaction_type : pystr) : IO t :=
  let* now := datetime_now in
  ret {| transaction_id := transaction_id;
         product_id := product_id;
         quantity := quantity;
         transaction_type := transaction_type;
         date := now |}.

End Transaction.

Module TransactionLogger.

(** [self.transactions] *)
Abbreviation t := (list Transaction.t).

Definition empty : t := [].

Definition log (self : t) (transaction : Transaction.t) : t :=
  self ++ [transaction].

End TransactionLogger.

(** ** class StatisticalReport *)

Module StatisticalReport.

Record t := {
  inventory : Inventory.t;
  logger : TransactionLogger.t
}.

(** A number that is an [int] or a [float]. *)
Inductive number :=
  | Int (n : Z)
  | Float (x : pyfloat).

Definition number_str {FT : FloatText} (v : number) : pystr :=
  match v with
  | Int n => str_of_int n
  | Float x => float_repr x
  end.

(** [p.price * p.quantity] *)
Definition value (p : Product.t) : result pyfloat :=
  match float_of_int (Product.quantity p) with
  | Ok q => Ok (SF64mul (Product.price p) q)
  | Raise e => Raise e
  end.

(** [total + x] for a float [x] *)
Definition add_float (total : number) (x : pyfloat) : result number :=
  match total with
  | Float y => Ok (Float (SF64add y x))
  | Int n =>
      match float_of_int n with
      | Ok y => Ok (Float (SF64add y x))
      | Raise e => Raise e
      end
  end.

(** [sum(p.price * p.quantity for p in ...)], from [total] on *)
Fixpoint sum_values (total : number) (products : list Product.t)
  : result number :=
  match products with
  | [] => Ok total
  | p :: products' =>
      match value p with
      | Raise e => Raise e
      | Ok x =>
          match add_float total x with
          | Raise e => Raise e
          | Ok total' => sum_values total' products'
          end
      end
  end.

Definition total_inventory_value {FT : FloatText} (self : t) : IO number :=
  print (py "***********************************************") >>
  let* total := of_result (sum_values (Int 0) (dict_values (inventory self))) in
  print (py "💰 Total Inventory Value: " ++ number_str total) >>
  print (py "***********************************************" ++ [LF]) >>
  ret total.

(** The first loop of [turnover_report]: the dictionary [turnover]
    after the transactions given. *)
Fixpoint turnover_of (turnover : gmap Z Z) (transactions : list Transaction.t)
  : gmap Z Z :=
  match transactions with
  | [] => turnover
  | t :: transactions' =>
      if pystr_eqb (Transaction.transaction_type t) (py "OUT") then
        turnover_of
          (<[Transaction.product_id t :=
               default 0 (turnover !! Transaction.product_id t)
               + Z.abs (Transaction.quantity t)]> turnover)
          transactions'
      else turnover_of turnover transactions'
  end.

(** What the second loop reports: the product and its units sold. *)
Definition turnover_rows (self : t) : list (Product.t * Z) :=
  let turnover := turnover_of ∅ (logger self) in
  map (fun item : Z * Product.t =>
         (snd item, default 0 (turnover !! fst item)))
    (inventory self).

Definition turnover_line (r : Product.t * Z) : pystr :=
  Product.name (fst r) ++ py ": " ++ str_of_int (snd r) ++ py " units sold".

Definition turnover_report (self : t) : list pystr :=
  [[LF] ++ py "************************************************";
   [TAB] ++ py " 📊 TURNOVER REPORT";
   py "************************************************"]
  ++ map turnover_line (turnover_rows self).

End StatisticalReport.

(** ** class Visualizer *)

Module Visualizer.

(** The chart goes to matplotlib; nothing comes back. *)
Definition plot_inventory (inventory : Inventory.t) : IO unit :=
  let names := map Product.name (dict_values inventory) in
  let quantities := map Product.quantity (dict_values inventory) in
  emit (Chart names quantities).

End Visualizer.

(** ** class Menu

    A method of [Menu] runs on the object ([self.inventory],
    [self.logger]) and the world. *)

Module Menu.

Record t := {
  inventory : Inventory.t;
  logger : TransactionLogger.t
}.

(** [Menu()] *)
Definition init : t :=
  {| inventory := Inventory.empty; logger := TransactionLogger.empty |}.

Abbreviation M := (ST (t * World)).

Definition io {A} (m : IO A) : M A :=
  fun s => let (r, w) := m (snd s) in (r, (fst s, w)).

Definition self_inventory : M Inventory.t :=
  fun s => (Ok (inventory (fst s)), s).

Definition self_logger : M TransactionLogger.t :=
  fun s => (Ok (logger (fst s)), s).

(** [self.inventory = inv] *)
Definition set_inventory (inv : Inventory.t) : M unit :=
  fun s => (Ok tt, ({| inventory := inv; logger := logger (fst s) |}, snd s)).

(** [self.logger.transactions] replaced by [log] *)
Definition set_logger (log : TransactionLogger.t) : M unit :=
  fun s => (Ok tt, ({| inventory := inventory (fst s); logger := log |}, snd s)).

Definition menu_text : pystr := py "
--- INVENTORY MANAGEMENT SYSTEM ---
1. Add product
2. Remove product
3. List products
4. Search by name
5. Search by category
6. Update quantity
7. Show inventory chart
8. Save to CSV
9. Load low stocks from CSV
10. Statistical reports
0. Exit
".

Definition display : M unit := io (print menu_text).

(** [int(input(prompt))], [float(input(prompt))] *)
Definition input_int (prompt : pystr) : IO Z :=
  let* s := input prompt in
  match int_of_str s with
  | Some n => ret n
  | None => raise ValueError
  end.

Definition input_float {FT : FloatText} (prompt : pystr) : IO pyfloat :=
  let* s := input prompt in
  match float_of_str s with
  | Some x => ret x
  | None => raise ValueError
  end.

(** [print(p.name, p.quantity)] *)
Definition name_quantity (p : Product.t) : pystr :=
  Product.name p ++ py " " ++ str_of_int (Product.quantity p).

Section Choices.
Context {FT : FloatText}.

(** choice 1 *)
Definition add_product : M unit :=
  let* product_id := io (input_int (py "ID: ")) in
  let* name := io (input (py "Name: ")) in
  let* category := io (input (py "Category: ")) in
  let* price := io (input_float (py "Price: ")) in
  let* quantity := io (input_int (py "Quantity: ")) in
  let* reorder_level := io (input_int (py "Reorder level: ")) in
  let p := {| Product.product_id := product_id;
              Product.name := name;
              Product.category := category;
              Product.price := price;
              Product.quantity := quantity;
              Product.reorder_level := reorder_level |} in
  let* inv := self_inventory in
  let added := Inventory.add_product inv p in
  set_inventory (fst added) >>
  io (print_lines (snd added)).

(** choice 2 *)
Definition remove_product : M unit :=
  let* product_id := io (input_int (py "Product ID: ")) in
  let* inv := self_inventory in
  set_inventory (Inventory.remove_product inv product_id).

(** choice 3 *)
Definition list_products : M unit :=
  let* inv := self_inventory in
  io (print_lines (Inventory.list_products inv)).

(** choice 4 *)
Definition search_by_name : M unit :=
  let* name := io (input (py "Name: ")) in
  let* inv := self_inventory in
  io (print_lines (map name_quantity (Inventory.search_by_name inv name))).

(** choice 5 *)
Definition search_by_category : M unit :=
  let* category := io (input (py "Category: ")) in
  let* inv := self_inventory in
  io (print_lines
        (map name_quantity (Inventory.search_by_category inv category))).

(** choice 6.  The product found is the object the dictionary holds:
    updating it updates the entry, in place. *)
Definition update_quantity : M unit :=
  let* pid := io (input_int (py "Product ID: ")) in
  let* qty := io (input_int (py "Quantity (+/-): ")) in
  let* inv := self_inventory in
  match Inventory.get_product inv pid with
  | Some product =>
      let product' := Product.update_quantity product qty in
      set_inventory (dict_set pid product' inv) >>
      let ttype := if 0 <? qty then py "IN" else py "OUT" in
      let* log := self_logger in
      let* transaction :=
        io (Transaction.new (Z.of_nat (length log) + 1) pid qty ttype) in
      set_logger (TransactionLogger.log log transaction) >>
      io (print_lines (Inventory.check_low_stock product'))
  | None => ret tt
  end.

(** choice 7 *)
Definition show_chart : M unit :=
  let* inv := self_inventory in
  io (Visualizer.plot_inventory inv).

(** choice 8 *)
Definition save : M unit :=
  let* filename := io (input (py "CSV filename: ")) in
  let* inv := self_inventory in
  io (FileManager.save_inventory inv filename) >>
  io (print (py "Saved successfully.")).

(** choice 9 *)
Definition load : M unit :=
  let* filename := io (input (py "CSV filename: ")) in
  let* inv := io (FileManager.load_inventory filename) in
  set_inventory inv >>
  io (print (py "Loaded successfully.")).

(** choice 10 *)
Definition reports : M unit :=
  let* inv := self_inventory in
  let* log := self_logger in
  let report := {| StatisticalReport.inventory := inv;
                   StatisticalReport.logger := log |} in
  io (StatisticalReport.total_inventory_value report) >>
  io (print_lines (StatisticalReport.turnover_report report)).

(** One turn of the loop of [run]; [true] when the loop is left. *)
Definition turn : M bool :=
  display >>
  let* choice := io (input (py "Choice: ")) in
  if pystr_eqb choice (py "1") then add_product >> ret false
  else if pystr_eqb choice (py "2") then remove_product >> ret false
  else if pystr_eqb choice (py "3") then list_products >> ret false
  else if pystr_eqb choice (py "4") then search_by_name >> ret false
  else if pystr_eqb choice (py "5") then search_by_category >> ret false
  else if pystr_eqb choice (py "6") then update_quantity >> ret false
  else if pystr_eqb choice (py "7") then show_chart >> ret false
  else if pystr_eqb choice (py "8") then save >> ret false
  else if pystr_eqb choice (py "9") then load >> ret false
  else if pystr_eqb choice (py "10") then reports >> ret false
  else if pystr_eqb choice (py "0") then
    io (print (py "Exiting system.")) >> ret true
  else io (print (py "Invalid choice.")) >> ret false.

(** [run], at most [fuel] turns of it: [Some tt] when the loop was left,
    [None] when the turns ran out.  A turn takes a line of input or
    raises, so [run] below has turns enough ([run_ends]). *)
Fixpoint run_turns (fuel : nat) : M (option unit) :=
  match fuel with
  | O => ret None
  | S fuel' =>
      let* left := turn in
      if left then ret (Some tt) else run_turns fuel'
  end.

Definition run : M (option unit) :=
  fun s => run_turns (S (length (stdin (snd s)))) s.

End Choices.

End Menu.

(** ** Sequences of calls on an Inventory *)

Inductive call :=
  | Add (p : Product.t)
  | Remove (product_id : Z).

Definition apply_call (inv : Inventory.t) (c : call) : Inventory.t :=
  match c with
  | Add p => fst (Inventory.add_product inv p)
  | Remove product_id => Inventory.remove_product inv product_id
  end.

Definition apply_calls (inv : Inventory.t) (cs : list call) : Inventory.t :=
  fold_left apply_call cs inv.

(** The product id a call is about. *)
Definition call_id (c : call) : Z :=
  match c with
  | Add p => Product.product_id p
  | Remove product_id => product_id
  end.

(** ** Sample values *)

Definition two_and_a_half : pyfloat := binary_normalize 53 1024 5 (-1) false.

Definition widget : Product.t :=
  {| Product.product_id := 1;
     Product.name := py "Widget";
     Product.category := py "Hardware";
     Product.price := two_and_a_half;
     Product.quantity := 100;
     Product.reorder_level := 10 |}.

Definition gadget : Product.t :=
  {| Product.product_id := 2;
     Product.name := py "Gadget";
     Product.category := py "Toys";
     Product.price := two_and_a_half;
     Product.quantity := 5;
     Product.reorder_level := 10 |}.

Definition ten : pyfloat := binary_normalize 53 1024 10 0 false.

(** The same float, as a datum. *)
Definition float_same (x y : pyfloat) : bool :=
  match x, y with
  | S754_zero a, S754_zero b => Bool.eqb a b
  | S754_infinity a, S754_infinity b => Bool.eqb a b
  | S754_nan, S754_nan => true
  | S754_finite a m e, S754_finite b m' e' =>
      Bool.eqb a b && Pos.eqb m m' && (e =? e')
  | _, _ => false
  end.

(** A stand-in for the float conversions of the runtime: it knows the
    texts of 2.5 and of 10.0, the first of each pair being the one
    [repr] gives. *)
Definition known_floats : list (pystr * pyfloat) :=
  [(py "2.5", two_and_a_half); (py "2.50", two_and_a_half);
   (py "10.0", ten); (py "10.00", ten); (py "10", ten)].

Definition sample_float_text : FloatText :=
  {| float_repr := fun x =>
       match List.find (fun e => float_same (snd e) x) known_floats with
       | Some e => fst e
       | None => py "nan"
       end;
     float_of_str := fun s =>
       match List.find (fun e => pystr_eqb (fst e) s) known_floats with
       | Some e => Some (snd e)
       | None => None
       end |}.

(** ** The turnover report in the words of the specification

    The units sold of a product id: the sum of [abs(quantity)] over the
    transactions of type OUT that carry this id. *)
Fixpoint units_sold_spec (transactions : list Transaction.t) (pid : Z) : Z :=
  match transactions with
  | [] => 0
  | t :: transactions' =>
      (if pystr_eqb (Transaction.transaction_type t) (py "OUT")
          && (Transaction.product_id t =? pid)
       then Z.abs (Transaction.quantity t) else 0)
      + units_sold_spec transactions' pid
  end.

(** One row for each product of the inventory, in its order. *)
Definition turnover_rows_spec (self : StatisticalReport.t)
  : list (Product.t * Z) :=
  map (fun item : Z * Product.t =>
         (snd item,
          units_sold_spec (StatisticalReport.logger self) (fst item)))
    (StatisticalReport.inventory self).

Definition transaction (transaction_id product_id quantity : Z)
    (transaction_type : string) (date : Z) : Transaction.t :=
  {| Transaction.transaction_id := transaction_id;
     Transaction.product_id := product_id;
     Transaction.quantity := quantity;
     Transaction.transaction_type := py transaction_type;
     Transaction.date := date |}.

(** ** Words for what a run shows and for the rows of a file *)

(** The world [w] once [events] were shown and the input is down to
    [rest]. *)
Definition shown (w : World) (events : list event) (rest : list pystr)
  : World :=
  {| stdin := rest; stdout := stdout w ++ events;
     files := files w; clock := clock w |}.

(** The two prompts of choice 6. *)
Definition update_prompts : list event :=
  [Prompt (py "Product ID: "); Prompt (py "Quantity (+/-): ")].

(** The type of a transaction follows the sign of its quantity, zero
    counted with the negative numbers. *)
Definition kind_by_sign (t : Transaction.t) : Prop :=
  (Transaction.transaction_type t = py "IN" <-> Transaction.quantity t > 0)
  /\ (Transaction.transaction_type t = py "OUT"
      <-> Transaction.quantity t <= 0).

(** A run that started in the world [before] reports a failure: it
    raises, or it prints something. *)
Definition reports_failure {A S} (before : World)
    (run : result A * (S * World)) : Prop :=
  (exists e, fst run = Raise e)
  \/ (exists line,
        In (Print line)
           (drop (length (stdout before)) (stdout (snd (snd run))))).

(** A row with a numeric column whose text [int] or [float] rejects. *)
Definition rejected {A} (conv : pystr -> option A) (row : csv.row)
    (column : string) : Prop :=
  exists s, csv.getitem row (py column) = Ok (Some s) /\ conv s = None.

Definition malformed_numeric {FT : FloatText} (row : csv.row) : Prop :=
  rejected int_of_str row "product_id"
  \/ rejected float_of_str row "price"
  \/ rejected int_of_str row "quantity"
  \/ rejected int_of_str row "reorder_level".

(** A row that has a text for each of the six columns. *)
Definition complete (row : csv.row) : Prop :=
  Forall (fun column => exists s, csv.getitem row column = Ok (Some s))
    FileManager.header.

(** The rows [load_inventory] goes through for a file of this content. *)
Definition file_rows (content : pystr) : list csv.row :=
  fst (csv.DictReader (readlines [] (universal_newlines false content))).

(** The prompt of choices 8 and 9. *)
Definition filename_prompt : list event := [Prompt (py "CSV filename: ")].

(** ** The reader seen on the text instead of its lines

    [parse_chars] feeds characters without an end-of-line mark;
    [reader_chars] is [csv.reader] on a text every line of which ends
    in [LF]: the mark follows each [LF]. *)
Fixpoint parse_chars (r : csv.parser) (s : pystr) : result csv.parser :=
  match s with
  | [] => Ok r
  | c :: s' =>
      match csv.parse_process_char r (Some c) with
      | Ok r' => parse_chars r' s'
      | Raise e => Raise e
      end
  end.

Definition with_record (record : list pystr)
    (rs : list (list pystr) * option exn) : list (list pystr) * option exn :=
  (record :: fst rs, snd rs).

Fixpoint reader_chars (r : csv.parser) (s : pystr)
  : list (list pystr) * option exn :=
  match s with
  | [] => csv.reader_from r []
  | c :: s' =>
      match csv.parse_process_char r (Some c) with
      | Raise e => ([], Some e)
      | Ok r1 =>
          if Ascii.eqb c LF then
            match csv.parse_process_char r1 None with
            | Raise e => ([], Some e)
            | Ok r2 =>
                if csv.is_START_RECORD (csv.st r2)
                then with_record (csv.fields r2) (reader_chars csv.parse_reset s')
                else reader_chars r2 s'
            end
          else reader_chars r1 s'
      end
  end.

(** A text that is empty or ends in [LF]. *)
Definition lf_terminated (s : pystr) : Prop :=
  match last s with
  | None => True
  | Some c => c = LF
  end.

(** [nl s]: the string [s] as a text-mode read returns it. *)
Definition nl (s : pystr) : pystr := universal_newlines false s.

(** A product as it comes back from a file. *)
Definition nl_product (p : Product.t) : Product.t :=
  {| Product.product_id := Product.product_id p;
     Product.name := nl (Product.name p);
     Product.category := nl (Product.category p);
     Product.price := Product.price p;
     Product.quantity := Product.quantity p;
     Product.reorder_level := Product.reorder_level p |}.

(** A menu that holds the widget, and a world where [lines] are about
    to be typed and the file [inventory.csv] has the given content. *)
Definition widget_menu : Menu.t :=
  {| Menu.inventory := [(1, widget)]; Menu.logger := [] |}.

Definition typing (lines : list pystr) (content : pystr) : World :=
  {| stdin := lines; stdout := [];
     files := fun name =>
       if pystr_eqb name (py "inventory.csv") then Some content else None;
     clock := 0 |}.

(** A file whose second row has a quantity that is no number. *)
Definition bad_csv : pystr :=
  py "product_id,name,category,price,quantity,reorder_level" ++ [LF]
  ++ py "2,Gadget,Toys,2.5,5,10" ++ [LF]
  ++ py "1,Widget,Hardware,2.5,abc,10" ++ [LF].

(** ** Words for the round trip through a file *)

(** The parser in a given state. *)
Definition parser_at (s : csv.state) (field : pystr) (fields : list pystr)
  : csv.parser :=
  {| csv.st := s; csv.field := field; csv.fields := fields |}.

(** The states a field begins in. *)
Definition starting (s : csv.state) : Prop :=
  s = csv.START_RECORD \/ s = csv.START_FIELD.

(** The parser once it has read a field, begun in state [s0]. *)
Definition field_end (s0 : csv.state) (f : pystr) (fields : list pystr)
  : csv.parser :=
  if existsb csv.special f then parser_at csv.QUOTE_IN_QUOTED_FIELD f fields
  else match f with
       | [] => parser_at s0 [] fields
       | _ :: _ => parser_at csv.IN_FIELD f fields
       end.

(** An inventory as the program builds it: a key occurs once and is the
    id of its product. *)
Definition inventory_wf (inv : Inventory.t) : Prop :=
  dict_wf inv
  /\ Forall (fun item => Product.product_id (snd item) = fst item) inv.

(** A float that its text gives back. *)
Definition float_text_ok {FT : FloatText} (x : pyfloat) : Prop :=
  float_of_str (float_repr x) = Some x /\ ~ In CR (float_repr x).

(** The inventory with each product as a file gives it back. *)
Definition nl_inventory (inv : Inventory.t) : Inventory.t :=
  map (fun item => (fst item, nl_product (snd item))) inv.

(** A product without a carriage return in its texts. *)
Definition has_no_cr (p : Product.t) : Prop :=
  ~ In CR (Product.name p) /\ ~ In CR (Product.category p).

(** The row [load_inventory] gets for a product that was saved. *)
Definition row_of {FT : FloatText} (p : Product.t) : csv.row :=
  csv.make_row FileManager.header (map nl (FileManager.product_record p)).

(** The inventory and the alerts after [add_product] of each product. *)
Definition add_all (inv : Inventory.t) (products : list Product.t)
  : Inventory.t :=
  fold_left (fun i p => fst (Inventory.add_product i p)) products inv.

Definition alerts (products : list Product.t) : list pystr :=
  concat (map Inventory.check_low_stock products).

(** The widget with a carriage return in its name, and what a file
    gives back for it. *)
Definition cr_widget : Product.t :=
  {| Product.product_id := 1;
     Product.name := py "Wid" ++ [CR] ++ py "get";
     Product.category := py "Hardware";
     Product.price := two_and_a_half;
     Product.quantity := 100;
     Product.reorder_level := 10 |}.

Definition lf_widget : Product.t :=
  {| Product.product_id := 1;
     Product.name := py "Wid" ++ [LF] ++ py "get";
     Product.category := py "Hardware";
     Product.price := two_and_a_half;
     Product.quantity := 100;
     Product.reorder_level := 10 |}.

(** ** Words for the end of the loop *)

(** The lines of input still to be typed. *)
Definition pending_lines (w : World) : nat := length (stdin w).

Definition pending (s : Menu.t * World) : nat := pending_lines (snd s).

(** A computation that types nothing back into the input. *)
Definition keeps_input {S A} (len : S -> nat) (m : ST S A) : Prop :=
  forall s, (len (snd (m s)) <= len s)%nat.

(** * More words, for the properties beyond the specification's *)

(** ** What a turn of the menu may change *)

(** The transaction choice 6 logs when the log is [log]. *)
Definition new_transaction (log : TransactionLogger.t) (pid qty date : Z)
  : Transaction.t :=
  {| Transaction.transaction_id := Z.of_nat (length log) + 1;
     Transaction.product_id := pid;
     Transaction.quantity := qty;
     Transaction.transaction_type := if 0 <? qty then py "IN" else py "OUT";
     Transaction.date := date |}.

(** The menu before and after: nothing, an [add_product], a
    [remove_product], a quantity update of a product that is there with
    its transaction logged, an inventory built by [add_product] calls on
    a new one put in the place of the old. *)
Inductive menu_change (m : Menu.t) : Menu.t -> Prop :=
  | change_none : menu_change m m
  | change_add (p : Product.t) :
      menu_change m
        {| Menu.inventory := fst (Inventory.add_product (Menu.inventory m) p);
           Menu.logger := Menu.logger m |}
  | change_remove (id : Z) :
      menu_change m
        {| Menu.inventory := Inventory.remove_product (Menu.inventory m) id;
           Menu.logger := Menu.logger m |}
  | change_update (pid qty date : Z) (product : Product.t) :
      Inventory.get_product (Menu.inventory m) pid = Some product ->
      menu_change m
        {| Menu.inventory :=
             dict_set pid (Product.update_quantity product qty)
               (Menu.inventory m);
           Menu.logger :=
             TransactionLogger.log (Menu.logger m)
               (new_transaction (Menu.logger m) pid qty date) |}
  | change_load (products : list Product.t) :
      menu_change m
        {| Menu.inventory := add_all Inventory.empty products;
           Menu.logger := Menu.logger m |}.

(** A method of the menu that, begun with the menu [m0], ends with a
    menu that one change leads to, and with [m0] itself when it
    raises. *)
Definition changes_from {A} (m0 : Menu.t) (h : Menu.M A) : Prop :=
  forall w,
    match h (m0, w) with
    | (Ok _, s') => menu_change m0 (fst s')
    | (Raise _, s') => fst s' = m0
    end.

(** A log whose transactions are numbered 1, 2, 3, ... in its order. *)
Definition numbered (log : TransactionLogger.t) : Prop :=
  forall (i : nat) (t : Transaction.t),
    log !! i = Some t -> Transaction.transaction_id t = Z.of_nat i + 1.

(** ** Words for single turns *)

(** The choices the menu knows. *)
Definition choices : list pystr :=
  [py "1"; py "2"; py "3"; py "4"; py "5"; py "6"; py "7"; py "8"; py "9";
   py "10"; py "0"].

(** What every turn shows first. *)
Definition turn_prompts : list event :=
  [Print Menu.menu_text; Prompt (py "Choice: ")].

(** The six prompts of choice 1. *)
Definition add_prompts : list event :=
  [Prompt (py "ID: "); Prompt (py "Name: "); Prompt (py "Category: ");
   Prompt (py "Price: "); Prompt (py "Quantity: ");
   Prompt (py "Reorder level: ")].


(** A file without the column of the ids. *)
Definition no_id_csv : pystr :=
  py "name,category,price,quantity,reorder_level" ++ [LF]
  ++ py "Widget,Hardware,2.5,100,10" ++ [LF].

(** The line of stars of the reports, and the three lines shown by
    [total_inventory_value] for a total. *)
Definition banner : pystr := py "***********************************************".

Definition total_lines {FT : FloatText} (total : StatisticalReport.number)
  : list event :=
  [Print banner;
   Print (py "💰 Total Inventory Value: "
          ++ StatisticalReport.number_str total);
   Print (banner ++ [LF])].

(** ** Words for what a run leaves alone *)

(** Every run of [h] takes a state to one that [R] relates to it. *)
Definition preserves {S A} (R : relation S) (h : ST S A) : Prop :=
  forall s, R s (snd (h s)).

(** The files are what they were, and the input left is an end of the
    input there was. *)
Definition reads_only (w w' : World) : Prop :=
  files w' = files w /\ stdin w' `suffix_of` stdin w.

(** The input as above, and the files as they were when no line of
    the input is 8, the choice that saves. *)
Definition writes_on_save (w w' : World) : Prop :=
  stdin w' `suffix_of` stdin w
  /\ (~ In (py "8") (stdin w) -> files w' = files w).

(** A relation on the world, for the menu and the world. *)
Definition in_world (R : relation World) : relation (Menu.t * World) :=
  fun s s' => R (snd s) (snd s').

(** ** Words for the limits of the interpreter

    The embedding leaves two limits of CPython out; the words below
    state them where a property is given within them. *)

(** An [int] that [str] writes and [int] reads back: at most 4300
    decimal digits, the default limit. *)
Definition within_digits (n : Z) : Prop := Z.abs n < 10 ^ 4300.

(** A line typed that is short enough for [int] to take its digits. *)
Definition typed_within (s : pystr) : Prop := Z.of_nat (length s) <= 4300.

(** A text of ASCII characters: on these [lower] is all that
    [str.lower] does. *)
Definition ascii_text (s : pystr) : Prop :=
  Forall (fun c => (nat_of_ascii c < 128)%nat) s.

(** A product that a file takes and gives back: its integers within
    the digits, its texts within the field size of the csv reader. *)
Definition fits_a_file {FT : FloatText} (p : Product.t) : Prop :=
  within_digits (Product.product_id p)
  /\ within_digits (Product.quantity p)
  /\ within_digits (Product.reorder_level p)
  /\ Z.of_nat (length (Product.name p)) <= 131072
  /\ Z.of_nat (length (Product.category p)) <= 131072
  /\ Z.of_nat (length (float_repr (Product.price p))) <= 131072.

(** The line of the alert for a name and a quantity, and the alerts of
    the products that are low on stock, in their order. *)
Definition alert_line (name : pystr) (quantity : Z) : pystr :=
  py "⚠️ LOW STOCK ALERT: " ++ name ++ py " (" ++ str_of_int quantity
  ++ py " left)".

Definition alert_lines (products : list Product.t) : list pystr :=
  map (fun p => alert_line (Product.name p) (Product.quantity p))
    (List.filter
       (fun p => Product.quantity p <=? Product.reorder_level p) products).

(** * Properties *)

(** ** Dictionaries *)

Section DictFacts.
Context {V : Type}.
Implicit Types (d : pydict V) (k : Z) (v : V).

Lemma dict_get_set_eq k v d : dict_get k (dict_set k v d) = Some v.
Proof.
  induction d as [|[k' v'] d IH]; simpl.
  - now rewrite Z.eqb_refl.
  - destruct (k =? k') eqn:E; simpl; rewrite ?E, ?Z.eqb_refl; auto.
Qed.

Lemma dict_get_set_ne k k' v d :
  k <> k' -> dict_get k' (dict_set k v d) = dict_get k' d.
Proof.
  intros Hne. induction d as [|[k0 v0] d IH]; simpl.
  - destruct (k' =? k) eqn:E; auto. apply Z.eqb_eq in E. congruence.
  - destruct (k =? k0) eqn:E; simpl.
    + apply Z.eqb_eq in E. subst k0.
      destruct (k' =? k) eqn:E'; auto. apply Z.eqb_eq in E'. congruence.
    + now rewrite IH.
Qed.

Lemma dict_get_pop_eq k d : dict_get k (dict_pop k d) = None.
Proof.
  induction d as [|[k' v'] d IH]; simpl; auto.
  destruct (k =? k') eqn:E; simpl; rewrite ?E; auto.
Qed.

Lemma dict_get_pop_ne k k' d :
  k <> k' -> dict_get k' (dict_pop k d) = dict_get k' d.
Proof.
  intros Hne. induction d as [|[k0 v0] d IH]; simpl; auto.
  destruct (k =? k0) eqn:E; simpl.
  - apply Z.eqb_eq in E. subst k0.
    destruct (k' =? k) eqn:E'; auto. apply Z.eqb_eq in E'. congruence.
  - now rewrite IH.
Qed.

Lemma dict_pop_absent k d : dict_get k d = None -> dict_pop k d = d.
Proof.
  induction d as [|[k' v'] d IH]; simpl; auto.
  destruct (k =? k'); [discriminate|]. intros H. now rewrite IH.
Qed.

Lemma dict_get_None_keys k d : dict_get k d = None <-> ~ In k (dict_keys d).
Proof.
  induction d as [|[k' v'] d IH]; simpl.
  - tauto.
  - destruct (k =? k') eqn:E.
    + apply Z.eqb_eq in E. subst. split; [discriminate | tauto].
    + apply Z.eqb_neq in E. rewrite IH. intuition congruence.
Qed.

Lemma dict_set_absent k v d :
  dict_get k d = None -> dict_set k v d = d ++ [(k, v)].
Proof.
  induction d as [|[k' v'] d IH]; simpl; auto.
  destruct (k =? k'); [discriminate|]. intros H. now rewrite IH.
Qed.

Lemma dict_keys_set_present k v v0 d :
  dict_get k d = Some v0 -> dict_keys (dict_set k v d) = dict_keys d.
Proof.
  unfold dict_keys.
  induction d as [|[k' v'] d IH]; simpl; [discriminate|].
  destruct (k =? k') eqn:E; simpl.
  - apply Z.eqb_eq in E. now subst.
  - intros H. now rewrite IH.
Qed.

Lemma dict_wf_set k v d : dict_wf d -> dict_wf (dict_set k v d).
Proof.
  unfold dict_wf. destruct (dict_get k d) as [v0|] eqn:G.
  - now rewrite (dict_keys_set_present _ _ _ _ G).
  - rewrite (dict_set_absent _ _ _ G). unfold dict_keys.
    rewrite map_app. simpl. intros Hnd.
    apply NoDup_app. split; [exact Hnd|]. split.
    + intros x Hx Hin. apply list_elem_of_In in Hx, Hin.
      destruct Hin as [<-|[]]. now apply dict_get_None_keys in G.
    + apply NoDup_singleton.
Qed.

Lemma dict_keys_pop k d :
  dict_keys (dict_pop k d) = List.filter (fun k' => negb (k =? k')) (dict_keys d).
Proof.
  unfold dict_keys.
  induction d as [|[k' v'] d IH]; simpl; auto.
  destruct (k =? k'); simpl; now rewrite IH.
Qed.

Lemma dict_wf_pop k d : dict_wf d -> dict_wf (dict_pop k d).
Proof.
  unfold dict_wf. rewrite dict_keys_pop. intros H.
  apply NoDup_ListNoDup. apply List.NoDup_filter. now apply NoDup_ListNoDup.
Qed.

Lemma Forall_dict_set (P : Z * V -> Prop) k v d :
  Forall P d -> P (k, v) -> Forall P (dict_set k v d).
Proof.
  intros Hd Hkv. induction d as [|[k' v'] d IH]; simpl.
  - now constructor.
  - apply Forall_cons in Hd as [H Hd].
    destruct (k =? k'); constructor; auto.
Qed.

Lemma Forall_dict_pop (P : Z * V -> Prop) k d :
  Forall P d -> Forall P (dict_pop k d).
Proof.
  intros Hd. induction d as [|[k' v'] d IH]; simpl; [constructor|].
  apply Forall_cons in Hd as [H Hd].
  destruct (k =? k'); [|constructor]; auto.
Qed.

End DictFacts.

(** ** Product and Inventory *)

(** C6.  A product is low on stock exactly when its quantity is at most
    its reorder level; in particular it is when the quantity has been
    brought to the reorder level itself. *)
Theorem is_low_stock_iff (p : Product.t) :
  (Product.is_low_stock p = true
   <-> Product.quantity p <= Product.reorder_level p)
  /\ Product.is_low_stock
       (Product.update_quantity p
          (Product.reorder_level p - Product.quantity p)) = true.
Proof.
  unfold Product.is_low_stock. split.
  - apply Z.leb_le.
  - simpl. apply Z.leb_le. lia.
Qed.

(** C9.  After [remove_product] of an id, [get_product] of that id gives
    [None], whatever the inventory held; removing an id that is absent
    returns the inventory as it was ([remove_product] has no way to
    fail). *)
Theorem get_after_remove (inv : Inventory.t) (id : Z) :
  Inventory.get_product (Inventory.remove_product inv id) id = None
  /\ (Inventory.get_product inv id = None ->
      Inventory.remove_product inv id = inv).
Proof.
  split.
  - apply dict_get_pop_eq.
  - apply dict_pop_absent.
Qed.

Lemma get_apply_call_other (inv : Inventory.t) (c : call) (id : Z) :
  call_id c <> id ->
  Inventory.get_product (apply_call inv c) id = Inventory.get_product inv id.
Proof.
  destruct c as [p|k]; simpl; intros Hne.
  - now apply dict_get_set_ne.
  - now apply dict_get_pop_ne.
Qed.

Lemma get_apply_calls_other (cs : list call) (inv : Inventory.t) (id : Z) :
  Forall (fun c => call_id c <> id) cs ->
  Inventory.get_product (apply_calls inv cs) id = Inventory.get_product inv id.
Proof.
  revert inv. induction cs as [|c cs IH]; intros inv Hcs; simpl; auto.
  apply Forall_cons in Hcs as [Hc Hcs].
  unfold apply_calls in *. simpl. rewrite IH by assumption.
  now apply get_apply_call_other.
Qed.

Lemma apply_calls_app (inv : Inventory.t) (cs cs' : list call) :
  apply_calls inv (cs ++ cs') = apply_calls (apply_calls inv cs) cs'.
Proof. apply fold_left_app. Qed.

Lemma apply_calls_cons (inv : Inventory.t) (c : call) (cs : list call) :
  apply_calls inv (c :: cs) = apply_calls (apply_call inv c) cs.
Proof. reflexivity. Qed.

(** The inventories that calls build are well formed. *)
Lemma inventory_wf_calls (cs : list call) (inv : Inventory.t) :
  inventory_wf inv -> inventory_wf (apply_calls inv cs).
Proof.
  revert inv. induction cs as [|c cs IH]; intros inv Hwf; [exact Hwf|].
  rewrite apply_calls_cons. apply IH. destruct Hwf as [Hnd Hkey].
  destruct c as [p|k]; simpl; split.
  - now apply dict_wf_set.
  - now apply Forall_dict_set.
  - now apply dict_wf_pop.
  - now apply Forall_dict_pop.
Qed.

(** C8.  In a sequence of calls [before], [add_product(p)], [later]
    where no call of [later] is about the id of [p], [get_product] of
    that id gives [p] at the end; and [add_product] at an id that is
    taken replaces the product there. *)
Theorem get_after_add (inv : Inventory.t) (before later : list call)
    (p : Product.t) :
  (Forall (fun c => call_id c <> Product.product_id p) later ->
   Inventory.get_product
     (apply_calls inv (before ++ Add p :: later)) (Product.product_id p)
   = Some p)
  /\ (forall q, Product.product_id q = Product.product_id p ->
      Inventory.get_product
        (apply_calls inv (before ++ [Add q; Add p])) (Product.product_id q)
      = Some p).
Proof.
  assert (Hadd : forall i, Inventory.get_product
            (apply_call i (Add p)) (Product.product_id p) = Some p)
    by (intros i; apply dict_get_set_eq).
  split.
  - intros Hlater. rewrite apply_calls_app, apply_calls_cons.
    rewrite get_apply_calls_other by assumption. apply Hadd.
  - intros q Hq. rewrite apply_calls_app, !apply_calls_cons.
    rewrite Hq. apply Hadd.
Qed.

Lemma startswith_nil (s : pystr) : startswith [] s = true.
Proof. now destruct s. Qed.

Lemma str_in_nil (s : pystr) : str_in [] s = true.
Proof. destruct s; reflexivity. Qed.

Lemma filter_all {A} (f : A -> bool) (l : list A) :
  (forall x, f x = true) -> List.filter f l = l.
Proof.
  intros Hf. induction l as [|x l IH]; simpl; auto.
  now rewrite Hf, IH.
Qed.

(** C10.  [search_by_name] with the empty string returns every product
    of the inventory, in its order: as many as the inventory holds. *)
Theorem search_by_name_empty (inv : Inventory.t) :
  Inventory.search_by_name inv [] = dict_values inv
  /\ length (Inventory.search_by_name inv []) = length inv.
Proof.
  assert (H : Inventory.search_by_name inv [] = dict_values inv).
  { unfold Inventory.search_by_name. apply filter_all.
    intros p. apply str_in_nil. }
  split; [exact H|]. rewrite H. unfold dict_values. apply length_map.
Qed.

Lemma pystr_eqb_eq (a b : pystr) : pystr_eqb a b = true <-> a = b.
Proof. unfold pystr_eqb. apply bool_decide_eq_true. Qed.

Lemma sublist_filter {A} (f : A -> bool) (l : list A) :
  sublist (List.filter f l) l.
Proof.
  induction l as [|x l IH]; simpl; [constructor|].
  destruct (f x); now constructor.
Qed.

(** C7.  [search_by_category] returns, in the order of the inventory,
    the products whose category is the query once both are lowered, and
    no other.  So a product of category Hardware is returned for the
    query hardware and not for the query Hard, and nothing is returned
    when no category matches. *)
Theorem search_by_category_exact (inv : Inventory.t) (query : pystr) :
  (forall p, In p (Inventory.search_by_category inv query)
             <-> In p (dict_values inv)
                 /\ lower (Product.category p) = lower query)
  /\ sublist (Inventory.search_by_category inv query) (dict_values inv)
  /\ (forall p, In p (dict_values inv) ->
                Product.category p = py "Hardware" ->
                In p (Inventory.search_by_category inv (py "hardware"))
                /\ ~ In p (Inventory.search_by_category inv (py "Hard")))
  /\ ((forall p, In p (dict_values inv) ->
                 lower (Product.category p) <> lower query) ->
      Inventory.search_by_category inv query = []).
Proof.
  assert (Hiff : forall q p, In p (Inventory.search_by_category inv q)
             <-> In p (dict_values inv)
                 /\ lower (Product.category p) = lower q).
  { intros q p. unfold Inventory.search_by_category.
    rewrite filter_In, pystr_eqb_eq. reflexivity. }
  split; [apply Hiff|]. split; [apply sublist_filter|]. split.
  - intros p Hin Hcat. rewrite !Hiff, Hcat. split.
    + split; [exact Hin | reflexivity].
    + intros [_ Heq]. vm_compute in Heq. discriminate.
  - intros Hnone.
    destruct (Inventory.search_by_category inv query) as [|p l] eqn:E; auto.
    assert (Hp : In p (Inventory.search_by_category inv query))
      by (rewrite E; left; reflexivity).
    apply Hiff in Hp as [Hin Heq]. now apply Hnone in Hin.
Qed.

Lemma get_after_remove_witness :
  Inventory.get_product (Inventory.remove_product [(1, widget)] 7) 7 = None
  /\ Inventory.remove_product [(1, widget)] 7 = [(1, widget)].
Proof.
  split.
  - apply (get_after_remove [(1, widget)] 7).
  - apply (get_after_remove [(1, widget)] 7). reflexivity.
Defined.

Lemma get_after_add_witness :
  Inventory.get_product
    (apply_calls Inventory.empty ([Add gadget] ++ Add widget :: [Remove 2]))
    (Product.product_id widget)
  = Some widget.
Proof.
  apply (get_after_add Inventory.empty [Add gadget] [Remove 2] widget).
  repeat constructor; simpl; lia.
Defined.

Lemma search_by_category_exact_witness :
  In widget (Inventory.search_by_category [(1, widget); (2, gadget)]
               (py "hardware"))
  /\ ~ In widget (Inventory.search_by_category [(1, widget); (2, gadget)]
                    (py "Hard")).
Proof.
  apply (search_by_category_exact [(1, widget); (2, gadget)] (py "hardware")).
  - simpl. auto.
  - reflexivity.
Defined.

(** ** Reports *)

Lemma turnover_of_lookup (transactions : list Transaction.t)
    (turnover : gmap Z Z) (pid : Z) :
  default 0 (StatisticalReport.turnover_of turnover transactions !! pid)
  = default 0 (turnover !! pid) + units_sold_spec transactions pid.
Proof.
  revert turnover.
  induction transactions as [|t ts IH]; intros turnover;
    cbn [StatisticalReport.turnover_of units_sold_spec]; [lia|].
  destruct (pystr_eqb (Transaction.transaction_type t) (py "OUT"));
    cbn [andb]; rewrite IH.
  - destruct (Z.eqb_spec (Transaction.product_id t) pid) as [->|Hne].
    + rewrite lookup_insert_eq.
      change (default 0 (Some ?x)) with x. lia.
    + rewrite lookup_insert_ne by assumption. lia.
  - lia.
Qed.

(** C5.  The rows of the turnover report are, for each product of the
    inventory in its order, the product with the sum of [abs(quantity)]
    over the OUT transactions of its id, which is 0 when there is none;
    no other product is reported.  What [turnover_report] prints is its
    three lines of heading and then one line for each of these rows,
    the name of the product, a colon, the sum and the words units sold.
    With OUT 5, OUT 3 and IN 10 logged for a product X, the quantities
    of the two OUT written with either sign, the report gives 8 for X,
    and 0 for a product without transactions: the lines printed are the
    heading, the name of X with 8 units sold and the name of the other
    with 0 units sold. *)
Theorem turnover_report_spec (self : StatisticalReport.t) :
  StatisticalReport.turnover_rows self = turnover_rows_spec self
  /\ map fst (StatisticalReport.turnover_rows self)
     = dict_values (StatisticalReport.inventory self)
  /\ (forall X Y i1 i2 i3 d1 d2 d3 (minus1 minus2 : bool),
        StatisticalReport.turnover_rows
          {| StatisticalReport.inventory := [(1, X); (2, Y)];
             StatisticalReport.logger :=
               [transaction i1 1 (if minus1 then -5 else 5) "OUT" d1;
                transaction i2 1 (if minus2 then -3 else 3) "OUT" d2;
                transaction i3 1 10 "IN" d3] |}
        = [(X, 8); (Y, 0)])
  /\ StatisticalReport.turnover_report self
     = [[LF] ++ py "************************************************";
        [TAB] ++ py " 📊 TURNOVER REPORT";
        py "************************************************"]
       ++ map (fun item : Z * Product.t =>
                 Product.name (snd item) ++ py ": "
                 ++ str_of_int
                      (units_sold_spec (StatisticalReport.logger self)
                         (fst item))
                 ++ py " units sold")
            (StatisticalReport.inventory self)
  /\ (forall X Y i1 i2 i3 d1 d2 d3 (minus1 minus2 : bool),
        StatisticalReport.turnover_report
          {| StatisticalReport.inventory := [(1, X); (2, Y)];
             StatisticalReport.logger :=
               [transaction i1 1 (if minus1 then -5 else 5) "OUT" d1;
                transaction i2 1 (if minus2 then -3 else 3) "OUT" d2;
                transaction i3 1 10 "IN" d3] |}
        = [[LF] ++ py "************************************************";
           [TAB] ++ py " 📊 TURNOVER REPORT";
           py "************************************************";
           Product.name X ++ py ": 8 units sold";
           Product.name Y ++ py ": 0 units sold"]).
Proof.
  assert (H : forall r, StatisticalReport.turnover_rows r
                        = turnover_rows_spec r).
  { intros r. unfold StatisticalReport.turnover_rows, turnover_rows_spec.
    apply map_ext. intros [pid p]. simpl.
    now rewrite turnover_of_lookup, lookup_empty. }
  assert (Hlines : forall X Y i1 i2 i3 d1 d2 d3 (minus1 minus2 : bool),
             turnover_rows_spec
               {| StatisticalReport.inventory := [(1, X); (2, Y)];
                  StatisticalReport.logger :=
                    [transaction i1 1 (if minus1 then -5 else 5) "OUT" d1;
                     transaction i2 1 (if minus2 then -3 else 3) "OUT" d2;
                     transaction i3 1 10 "IN" d3] |}
             = [(X, 8); (Y, 0)]).
  { intros. destruct minus1, minus2; reflexivity. }
  split; [apply H|]. split; [|split; [|split]].
  - unfold StatisticalReport.turnover_rows, dict_values.
    rewrite map_map. reflexivity.
  - intros. rewrite H. apply Hlines.
  - unfold StatisticalReport.turnover_report. rewrite H.
    unfold turnover_rows_spec. rewrite map_map. reflexivity.
  - intros. unfold StatisticalReport.turnover_report.
    rewrite H, Hlines. reflexivity.
Qed.

(** ** Running the monad *)

Lemma shown_shown (w : World) (ev ev' : list event) (r r' : list pystr) :
  shown (shown w ev r) ev' r' = shown w (ev ++ ev') r'.
Proof. unfold shown. simpl. now rewrite app_assoc. Qed.

Lemma shown_nil (w : World) : shown w [] (stdin w) = w.
Proof. destruct w. unfold shown. simpl. now rewrite app_nil_r. Qed.

Lemma emit_run (e : event) (w : World) :
  emit e w = (Ok tt, shown w [e] (stdin w)).
Proof. reflexivity. Qed.

Lemma print_lines_run (lines : list pystr) (w : World) :
  print_lines lines w = (Ok tt, shown w (map Print lines) (stdin w)).
Proof.
  revert w. induction lines as [|l lines IH]; intros w; simpl.
  - unfold ret. now rewrite shown_nil.
  - unfold bind, print. rewrite emit_run, IH. simpl.
    now rewrite shown_shown.
Qed.

Lemma printing_run {A} (r : A * list pystr) (w : World) :
  printing r w = (Ok (fst r), shown w (map Print (snd r)) (stdin w)).
Proof. unfold printing, bind. now rewrite print_lines_run. Qed.

Lemma input_run (prompt l : pystr) (rest : list pystr) (w : World) :
  stdin w = l :: rest ->
  input prompt w = (Ok l, shown w [Prompt prompt] rest).
Proof.
  intros H. unfold input, bind. rewrite emit_run. simpl. now rewrite H.
Qed.

Lemma input_int_run (prompt l : pystr) (rest : list pystr) (w : World) :
  stdin w = l :: rest ->
  Menu.input_int prompt w
  = match int_of_str l with
    | Some n => (Ok n, shown w [Prompt prompt] rest)
    | None => (Raise ValueError, shown w [Prompt prompt] rest)
    end.
Proof.
  intros H. unfold Menu.input_int, bind. rewrite (input_run _ _ _ _ H).
  now destruct (int_of_str l).
Qed.

Lemma input_eof (prompt : pystr) (w : World) :
  stdin w = [] ->
  input prompt w = (Raise EOFError, shown w [Prompt prompt] []).
Proof.
  intros H. unfold input, bind. rewrite emit_run. simpl. now rewrite H.
Qed.

Lemma input_int_eof (prompt : pystr) (w : World) :
  stdin w = [] ->
  Menu.input_int prompt w = (Raise EOFError, shown w [Prompt prompt] []).
Proof.
  intros H. unfold Menu.input_int, bind. now rewrite (input_eof _ _ H).
Qed.

(** ** Quantity updates from the menu *)

(** What choice 6 does once a product id and a quantity were typed. *)
Lemma update_quantity_run (m : Menu.t) (w : World) (pidS qtyS : pystr)
    (rest : list pystr) (pid qty : Z) :
  stdin w = pidS :: qtyS :: rest ->
  int_of_str pidS = Some pid ->
  int_of_str qtyS = Some qty ->
  Menu.update_quantity (m, w)
  = match Inventory.get_product (Menu.inventory m) pid with
    | None => (Ok tt, (m, shown w update_prompts rest))
    | Some product =>
        let product' := Product.update_quantity product qty in
        (Ok tt,
         ({| Menu.inventory := dict_set pid product' (Menu.inventory m);
             Menu.logger :=
               Menu.logger m
               ++ [{| Transaction.transaction_id :=
                        Z.of_nat (length (Menu.logger m)) + 1;
                      Transaction.product_id := pid;
                      Transaction.quantity := qty;
                      Transaction.transaction_type :=
                        if 0 <? qty then py "IN" else py "OUT";
                      Transaction.date := clock w |}] |},
          shown w
            (update_prompts ++ map Print (Inventory.check_low_stock product'))
            rest))
    end.
Proof.
  intros Hin Hpid Hqty.
  unfold Menu.update_quantity, bind, Menu.io. simpl.
  rewrite (input_int_run _ _ _ _ Hin), Hpid. simpl.
  rewrite (input_int_run _ qtyS rest) by reflexivity. rewrite Hqty. simpl.
  destruct (Inventory.get_product (Menu.inventory m) pid) as [product|].
  - simpl. unfold bind. simpl. rewrite print_lines_run. simpl.
    rewrite !shown_shown. destruct m. reflexivity.
  - unfold ret. now rewrite shown_shown.
Qed.

Lemma kind_by_sign_new (tid pid qty date : Z) :
  kind_by_sign
    {| Transaction.transaction_id := tid;
       Transaction.product_id := pid;
       Transaction.quantity := qty;
       Transaction.transaction_type := if 0 <? qty then py "IN" else py "OUT";
       Transaction.date := date |}.
Proof.
  unfold kind_by_sign. simpl. destruct (Z.ltb_spec 0 qty).
  - split; split; try lia; try reflexivity. intros H'. discriminate H'.
  - split; split; try lia; try reflexivity. intros H'. discriminate H'.
Qed.

(** C2, as the code has it.  Whatever is typed, choice 6 adds at most
    one transaction to the log, and the one it adds has type IN exactly
    when its quantity is positive, and type OUT exactly when its
    quantity is zero or negative. *)
Theorem update_quantity_kind (s : Menu.t * World) :
  exists new : list Transaction.t,
    Menu.logger (fst (snd (Menu.update_quantity s)))
    = Menu.logger (fst s) ++ new
    /\ (length new <= 1)%nat
    /\ Forall kind_by_sign new.
Proof.
  destruct s as [m w].
  assert (Hnone : forall r w',
             Menu.update_quantity (m, w) = (r, (m, w')) ->
             exists new : list Transaction.t,
               Menu.logger (fst (snd (Menu.update_quantity (m, w))))
               = Menu.logger (fst (m, w)) ++ new
               /\ (length new <= 1)%nat /\ Forall kind_by_sign new).
  { intros r w' ->. exists []. simpl. rewrite app_nil_r. auto. }
  destruct (stdin w) as [|pidS inp] eqn:Hin.
  { eapply Hnone. unfold Menu.update_quantity, bind, Menu.io. simpl.
    rewrite (input_int_eof _ _ Hin). reflexivity. }
  destruct (int_of_str pidS) as [pid|] eqn:Hpid.
  2:{ eapply Hnone. unfold Menu.update_quantity, bind, Menu.io. simpl.
      rewrite (input_int_run _ _ _ _ Hin), Hpid. reflexivity. }
  destruct inp as [|qtyS rest].
  { eapply Hnone. unfold Menu.update_quantity, bind, Menu.io. simpl.
    rewrite (input_int_run _ _ _ _ Hin), Hpid. reflexivity. }
  destruct (int_of_str qtyS) as [qty|] eqn:Hqty.
  2:{ eapply Hnone. unfold Menu.update_quantity, bind, Menu.io. simpl.
      rewrite (input_int_run _ _ _ _ Hin), Hpid. simpl.
      rewrite (input_int_run _ qtyS rest) by reflexivity. rewrite Hqty.
      reflexivity. }
  rewrite (update_quantity_run _ _ _ _ _ _ _ Hin Hpid Hqty).
  destruct (Inventory.get_product (Menu.inventory m) pid) as [product|].
  - eexists [_]. simpl. split; [reflexivity|]. split; [lia|].
    constructor; [apply kind_by_sign_new | constructor].
  - exists []. simpl. rewrite app_nil_r. auto.
Qed.

(** C2, as the specification has it, fails for the quantity 0: typed for
    the widget, it is logged with type OUT, and 0 is not negative. *)
Lemma update_quantity_zero_is_OUT :
  exists t : Transaction.t,
    Menu.logger
      (fst (snd (Menu.update_quantity
                   (widget_menu, typing [py "1"; py "0"] []))))
    = [t]
    /\ ~ (Transaction.transaction_type t = py "OUT"
          <-> Transaction.quantity t < 0).
Proof.
  eexists. split; [vm_compute; reflexivity|].
  simpl. intros [H _]. specialize (H eq_refl). lia.
Qed.

(** C3, as the code has it.  When the product id typed for choice 6 is
    not in the inventory, the choice ends normally with the menu as it
    was, its products and its log, and nothing but the two prompts
    shown: no failure is reported. *)
Theorem update_quantity_absent (m : Menu.t) (w : World) (pidS qtyS : pystr)
    (rest : list pystr) (pid qty : Z) :
  stdin w = pidS :: qtyS :: rest ->
  int_of_str pidS = Some pid ->
  int_of_str qtyS = Some qty ->
  Inventory.get_product (Menu.inventory m) pid = None ->
  Menu.update_quantity (m, w) = (Ok tt, (m, shown w update_prompts rest))
  /\ ~ reports_failure w (Menu.update_quantity (m, w)).
Proof.
  intros Hin Hpid Hqty Habsent.
  rewrite (update_quantity_run _ _ _ _ _ _ _ Hin Hpid Hqty), Habsent.
  split; [reflexivity|].
  unfold reports_failure. simpl. rewrite drop_app_length.
  intros [[e He]|[line Hline]]; [discriminate|].
  simpl in Hline. destruct Hline as [H|[H|[]]]; discriminate.
Qed.

Lemma update_quantity_absent_witness :
  Menu.update_quantity (widget_menu, typing [py "7"; py "3"] [])
  = (Ok tt,
     (widget_menu, shown (typing [py "7"; py "3"] []) update_prompts []))
  /\ ~ reports_failure (typing [py "7"; py "3"] [])
         (Menu.update_quantity (widget_menu, typing [py "7"; py "3"] [])).
Proof.
  apply (update_quantity_absent widget_menu (typing [py "7"; py "3"] [])
           (py "7") (py "3") [] 7 3); reflexivity.
Defined.

(** C3, as the specification has it, fails: with the widget alone in
    the inventory and the id 7 typed, choice 6 neither raises nor
    prints. *)
Lemma update_quantity_absent_unreported :
  ~ reports_failure (typing [py "7"; py "3"] [])
      (Menu.update_quantity (widget_menu, typing [py "7"; py "3"] [])).
Proof.
  unfold reports_failure. vm_compute.
  intros [[e He]|[line Hline]]; [discriminate|].
  destruct Hline as [H|[H|[]]]; discriminate.
Qed.

(** ** Loading a file with a malformed number *)

Section Loading.
Context {FT : FloatText}.

Lemma to_int_rejected (row : csv.row) (column : string) :
  rejected int_of_str row column ->
  FileManager.rbind (csv.getitem row (py column)) FileManager.to_int
  = Raise ValueError.
Proof. intros [s [-> Hconv]]. simpl. now rewrite Hconv. Qed.

Lemma to_float_rejected (row : csv.row) (column : string) :
  rejected float_of_str row column ->
  FileManager.rbind (csv.getitem row (py column)) FileManager.to_float
  = Raise ValueError.
Proof. intros [s [-> Hconv]]. simpl. now rewrite Hconv. Qed.

(** A row with a malformed number gives no product. *)
Lemma make_product_malformed (row : csv.row) :
  malformed_numeric row -> exists e, FileManager.make_product row = Raise e.
Proof.
  intros Hbad. unfold FileManager.make_product.
  repeat match goal with
  | |- exists e, FileManager.rbind ?r _ = Raise e =>
      let E := fresh "E" in
      destruct r eqn:E; [cbn [FileManager.rbind] | eexists; reflexivity]
  end.
  exfalso. destruct Hbad as [H|[H|[H|H]]].
  - apply to_int_rejected in H. congruence.
  - apply to_float_rejected in H. congruence.
  - apply to_int_rejected in H. congruence.
  - apply to_int_rejected in H. congruence.
Qed.

Lemma complete_column (row : csv.row) (column : pystr) :
  complete row -> In column FileManager.header ->
  exists s, csv.getitem row column = Ok (Some s).
Proof.
  unfold complete. rewrite Forall_forall. intros H Hin.
  apply H. now apply list_elem_of_In.
Qed.

(** On a row that has all its columns, only a number can go wrong. *)
Lemma make_product_complete (row : csv.row) (e : exn) :
  complete row -> FileManager.make_product row = Raise e -> e = ValueError.
Proof.
  intros Hc. unfold FileManager.make_product.
  destruct (complete_column row (py "product_id") Hc) as [s1 ->];
    [simpl; tauto|].
  destruct (complete_column row (py "name") Hc) as [s2 ->];
    [simpl; tauto|].
  destruct (complete_column row (py "category") Hc) as [s3 ->];
    [simpl; tauto|].
  destruct (complete_column row (py "price") Hc) as [s4 ->];
    [simpl; tauto|].
  destruct (complete_column row (py "quantity") Hc) as [s5 ->];
    [simpl; tauto|].
  destruct (complete_column row (py "reorder_level") Hc) as [s6 ->];
    [simpl; tauto|].
  cbn [FileManager.rbind FileManager.to_int FileManager.to_float
       FileManager.to_text].
  destruct (int_of_str s1); cbn [FileManager.rbind]; [|congruence].
  destruct (float_of_str s4); cbn [FileManager.rbind]; [|congruence].
  destruct (int_of_str s5); cbn [FileManager.rbind]; [|congruence].
  destruct (int_of_str s6); cbn [FileManager.rbind]; [|congruence].
  discriminate.
Qed.

(** The loop stops at the first row that gives no product; the alerts
    of the rows before it have been printed, nothing else has changed. *)
Lemma load_rows_raises (rows : list csv.row) (inv : Inventory.t) (w : World) :
  Exists (fun row => exists e, FileManager.make_product row = Raise e) rows ->
  exists e lines row,
    FileManager.load_rows inv rows w
    = (Raise e, shown w (map Print lines) (stdin w))
    /\ In row rows /\ FileManager.make_product row = Raise e.
Proof.
  revert inv w. induction rows as [|row rows IH]; intros inv w Hex.
  - inversion Hex.
  - cbn [FileManager.load_rows]. unfold bind, of_result.
    destruct (FileManager.make_product row) as [p|e] eqn:Hrow.
    + rewrite printing_run.
      assert (Hex' : Exists (fun row => exists e,
                         FileManager.make_product row = Raise e) rows).
      { apply Exists_cons in Hex as [[e He]|H]; [congruence | exact H]. }
      destruct (IH (fst (Inventory.add_product inv p))
                  (shown w (map Print (snd (Inventory.add_product inv p)))
                     (stdin w)) Hex')
        as (e & lines & row' & Hrun & Hin & Hraise).
      exists e, (snd (Inventory.add_product inv p) ++ lines), row'.
      rewrite Hrun, shown_shown, map_app. simpl. auto.
    + exists e, [], row. rewrite shown_nil. simpl. auto.
Qed.

Lemma load_inventory_raises (filename content : pystr) (w : World) :
  files w filename = Some content ->
  Exists malformed_numeric (file_rows content) ->
  exists (ex : exn) (lines : list pystr),
    FileManager.load_inventory filename w
    = (Raise ex, shown w (map Print lines) (stdin w))
    /\ (Forall complete (file_rows content) -> ex = ValueError).
Proof.
  intros Hfile Hbad. unfold FileManager.load_inventory, open_read_lines.
  unfold bind at 1. rewrite Hfile. unfold file_rows in *.
  destruct (csv.DictReader (readlines [] (universal_newlines false content)))
    as [rows e]. simpl in Hbad |- *.
  assert (Hex : Exists (fun row => exists e,
                    FileManager.make_product row = Raise e) rows).
  { eapply Exists_impl; [exact Hbad|]. apply make_product_malformed. }
  destruct (load_rows_raises rows Inventory.empty w Hex)
    as (ex & lines & row & Hrun & Hin & Hraise).
  exists ex, lines. unfold bind. rewrite Hrun. split; [reflexivity|].
  intros Hc. apply (make_product_complete row); [|exact Hraise].
  rewrite Forall_forall in Hc. apply Hc. now apply list_elem_of_In.
Qed.

(** C4.  When a row of the file has a numeric field that [int] or
    [float] rejects, [load_inventory] raises and returns no inventory,
    whatever the other rows hold, and choice 9 of the menu ends with
    that exception and with the menu as it was: the new inventory is
    assigned after [load_inventory] has returned.  The exception is
    [ValueError] when every row has its six columns. *)
Theorem load_malformed_fails (m : Menu.t) (w : World)
    (filename content : pystr) (rest : list pystr) :
  stdin w = filename :: rest ->
  files w filename = Some content ->
  Exists malformed_numeric (file_rows content) ->
  exists (ex : exn) (lines : list pystr),
    FileManager.load_inventory filename (shown w filename_prompt rest)
    = (Raise ex, shown w (filename_prompt ++ map Print lines) rest)
    /\ Menu.load (m, w)
       = (Raise ex, (m, shown w (filename_prompt ++ map Print lines) rest))
    /\ (Forall complete (file_rows content) -> ex = ValueError).
Proof.
  intros Hin Hfile Hbad.
  destruct (load_inventory_raises filename content
              (shown w filename_prompt rest) Hfile Hbad)
    as (ex & lines & Hrun & Hkind).
  rewrite shown_shown in Hrun. simpl in Hrun.
  exists ex, lines. split; [exact Hrun|]. split; [|exact Hkind].
  unfold Menu.load, bind, Menu.io. cbn [fst snd].
  rewrite (input_run _ _ _ _ Hin). cbn [fst snd].
  change [Prompt (py "CSV filename: ")] with filename_prompt.
  now rewrite Hrun.
Qed.

End Loading.

Lemma load_malformed_fails_witness :
  exists (ex : exn) (lines : list pystr),
    FileManager.load_inventory (FT := sample_float_text) (py "inventory.csv")
      (shown (typing [py "inventory.csv"] bad_csv) filename_prompt [])
    = (Raise ex,
       shown (typing [py "inventory.csv"] bad_csv)
         (filename_prompt ++ map Print lines) [])
    /\ Menu.load (FT := sample_float_text)
         (widget_menu, typing [py "inventory.csv"] bad_csv)
       = (Raise ex,
          (widget_menu,
           shown (typing [py "inventory.csv"] bad_csv)
             (filename_prompt ++ map Print lines) []))
    /\ (Forall complete (file_rows bad_csv) -> ex = ValueError).
Proof.
  apply (load_malformed_fails (FT := sample_float_text) widget_menu
           (typing [py "inventory.csv"] bad_csv) (py "inventory.csv")
           bad_csv []).
  - reflexivity.
  - reflexivity.
  - apply Exists_exists.
    exists (csv.make_row FileManager.header
              [py "1"; py "Widget"; py "Hardware"; py "2.5"; py "abc";
               py "10"]).
    split.
    + apply list_elem_of_In. vm_compute. right. left. reflexivity.
    + right. right. left. exists (py "abc"). split; reflexivity.
Defined.

(** ** Integers and their decimal text *)

Lemma parse_digits_acc (d : uint) (p : positive) :
  parse_digits (Z.pos p) true (uint_chars d) = Some (Z.pos (Pos.of_uint_acc d p)).
Proof.
  revert p. induction d; intros p; cbn [uint_chars parse_digits Pos.of_uint_acc];
    try reflexivity;
    match goal with
    | |- context [digit_val ?c] =>
        let v := eval vm_compute in (digit_val c) in
        change (digit_val c) with v; cbv beta iota
    end;
    match goal with
    | |- parse_digits ?a true _ = _ =>
        match goal with
        | |- _ = Some (Z.pos (Pos.of_uint_acc _ ?q)) =>
            replace a with (Z.pos q) by lia
        end
    end; apply IHd.
Qed.

Lemma parse_digits_uint (d : uint) (b : bool) :
  parse_digits 0 b (uint_chars d)
  = match d with
    | Nil => if b then Some 0 else None
    | _ => Some (Z.of_uint d)
    end.
Proof.
  revert b. unfold Z.of_uint.
  induction d; intros b; cbn [uint_chars parse_digits Pos.of_uint];
    try reflexivity;
    match goal with
    | |- context [digit_val ?c] =>
        let v := eval vm_compute in (digit_val c) in
        change (digit_val c) with v; cbv beta iota
    end;
    change (10 * 0) with 0; rewrite Z.add_0_l;
    try (rewrite parse_digits_acc; reflexivity).
  rewrite IHd. now destruct d.
Qed.

Lemma uint_chars_no_space (d : uint) :
  Forall (fun c => is_space c = false) (uint_chars d).
Proof. induction d; simpl; constructor; auto. Qed.

Lemma lstrip_no_space (s : pystr) :
  Forall (fun c => is_space c = false) s -> lstrip s = s.
Proof. destruct 1 as [|c s Hc _]; simpl; [reflexivity | now rewrite Hc]. Qed.

Lemma strip_no_space (s : pystr) :
  Forall (fun c => is_space c = false) s -> strip s = s.
Proof.
  intros H. unfold strip. rewrite (lstrip_no_space s H).
  rewrite lstrip_no_space by now apply Forall_rev.
  apply rev_involutive.
Qed.

Lemma int_of_str_uint (d : uint) :
  d <> Nil -> int_of_str (uint_chars d) = Some (Z.of_uint d).
Proof.
  intros Hd. unfold int_of_str.
  rewrite strip_no_space by apply uint_chars_no_space.
  pose proof (parse_digits_uint d false) as H.
  destruct d; try congruence; exact H.
Qed.

Lemma int_of_str_neg_uint (d : uint) :
  d <> Nil -> int_of_str ("-"%char :: uint_chars d) = Some (- Z.of_uint d).
Proof.
  intros Hd. unfold int_of_str.
  rewrite strip_no_space
    by (constructor; [reflexivity | apply uint_chars_no_space]).
  rewrite parse_digits_uint. destruct d; try congruence; reflexivity.
Qed.

(** [int(str(n)) == n] *)
Lemma int_of_str_of_int (n : Z) : int_of_str (str_of_int n) = Some n.
Proof.
  unfold str_of_int.
  destruct n as [|p|p]; cbn [Z.to_int].
  - reflexivity.
  - rewrite int_of_str_uint by apply DecimalPos.Unsigned.to_uint_nonnil.
    unfold Z.of_uint. now rewrite DecimalPos.Unsigned.of_to.
  - rewrite int_of_str_neg_uint by apply DecimalPos.Unsigned.to_uint_nonnil.
    unfold Z.of_uint. now rewrite DecimalPos.Unsigned.of_to.
Qed.

(** ** The reader on lines and on the text *)

Lemma parse_line_app (cur l : pystr) (r0 : csv.parser) :
  csv.parse_line r0 (cur ++ l)
  = match parse_chars r0 cur with
    | Ok r => csv.parse_line r l
    | Raise e => Raise e
    end.
Proof.
  revert r0. induction cur as [|c cur IH]; intros r0; simpl; [reflexivity|].
  destruct (csv.parse_process_char r0 (Some c)); [apply IH | reflexivity].
Qed.

Lemma parse_chars_snoc (cur : pystr) (c : ascii) (r0 r : csv.parser) :
  parse_chars r0 cur = Ok r ->
  parse_chars r0 (cur ++ [c]) = csv.parse_process_char r (Some c).
Proof.
  revert r0. induction cur as [|c' cur IH]; intros r0; simpl.
  - intros [= ->]. now destruct (csv.parse_process_char r (Some c)).
  - destruct (csv.parse_process_char r0 (Some c')); [apply IH | discriminate].
Qed.

Lemma lf_terminated_cons (c : ascii) (s : pystr) :
  lf_terminated (c :: s) ->
  lf_terminated s /\ (s = [] -> c = LF).
Proof.
  unfold lf_terminated. destruct s as [|c' s]; simpl.
  - auto.
  - intros H. split; [exact H | discriminate].
Qed.

Lemma with_record_inv (record : list pystr)
    (rs : list (list pystr) * option exn) (records : list (list pystr)) :
  with_record record rs = (records, None) ->
  exists records', rs = (records', None) /\ records = record :: records'.
Proof.
  destruct rs as [records' e]. unfold with_record. simpl.
  intros [= <- ->]. eauto.
Qed.

(** What [reader_chars] reads without an exception, [csv.reader] reads
    from the lines of the text. *)
Lemma reader_chars_lines (s : pystr) :
  forall (r0 : csv.parser) (cur : pystr) (r : csv.parser)
         (records : list (list pystr)),
    parse_chars r0 cur = Ok r ->
    (s = [] -> cur = []) ->
    lf_terminated s ->
    reader_chars r s = (records, None) ->
    csv.reader_from r0 (readlines cur s) = (records, None).
Proof.
  induction s as [|c s IH]; intros r0 cur r records Hcur Hnil Hlf Hread.
  - rewrite (Hnil eq_refl) in *. simpl in Hcur. injection Hcur as ->.
    exact Hread.
  - apply lf_terminated_cons in Hlf as [Hlf Hlast].
    cbn [reader_chars] in Hread. cbn [readlines].
    destruct (csv.parse_process_char r (Some c)) as [r1|e] eqn:Hstep;
      [|discriminate].
    destruct (Ascii.eqb c LF) eqn:Hc.
    + apply Ascii.eqb_eq in Hc. subst c.
      destruct (csv.parse_process_char r1 None) as [r2|e] eqn:Heol;
        [|discriminate].
      cbn [csv.reader_from]. rewrite parse_line_app, Hcur.
      cbn [csv.parse_line]. rewrite Hstep, Heol.
      destruct (csv.is_START_RECORD (csv.st r2)).
      * apply with_record_inv in Hread as (records' & Hread & ->).
        rewrite (IH csv.parse_reset [] csv.parse_reset records');
          auto.
      * apply (IH r2 [] r2); auto.
    + apply (IH r0 (cur ++ [c]) r1); auto.
      * now rewrite (parse_chars_snoc _ _ _ _ Hcur).
      * intros ->. specialize (Hlast eq_refl). subst c.
        now rewrite Ascii.eqb_refl in Hc.
Qed.

(** ** Reading what the writer wrote *)

Lemma special_false (c : ascii) :
  csv.special c = false ->
  Ascii.eqb c COMMA = false /\ Ascii.eqb c DQUOTE = false
  /\ Ascii.eqb c CR = false /\ Ascii.eqb c LF = false.
Proof.
  unfold csv.special. intros H.
  apply orb_false_elim in H as [H H4]. apply orb_false_elim in H as [H H3].
  apply orb_false_elim in H as [H1 H2]. auto.
Qed.

Lemma reader_chars_step (c : ascii) (s : pystr) (r r1 : csv.parser) :
  csv.parse_process_char r (Some c) = Ok r1 ->
  Ascii.eqb c LF = false ->
  reader_chars r (c :: s) = reader_chars r1 s.
Proof. intros H Hc. cbn [reader_chars]. now rewrite H, Hc. Qed.

Lemma reader_chars_step_lf (s : pystr) (r r1 r2 : csv.parser) :
  csv.parse_process_char r (Some LF) = Ok r1 ->
  csv.parse_process_char r1 None = Ok r2 ->
  reader_chars r (LF :: s)
  = if csv.is_START_RECORD (csv.st r2)
    then with_record (csv.fields r2) (reader_chars csv.parse_reset s)
    else reader_chars r2 s.
Proof. intros H H'. cbn [reader_chars]. now rewrite H, Ascii.eqb_refl, H'. Qed.

(** The characters of an unquoted field, once the field has begun. *)
Lemma read_plain (f rest : pystr) (field : pystr) (fields : list pystr) :
  existsb csv.special f = false ->
  reader_chars (parser_at csv.IN_FIELD field fields) (f ++ rest)
  = reader_chars (parser_at csv.IN_FIELD (field ++ f) fields) rest.
Proof.
  revert field. induction f as [|c f IH]; intros field Hf; simpl app.
  - now rewrite app_nil_r.
  - simpl in Hf. apply orb_false_elim in Hf as [Hc Hf].
    apply special_false in Hc as (Hcomma & Hquote & Hcr & Hlf).
    rewrite (reader_chars_step c _ _
               (parser_at csv.IN_FIELD (field ++ [c]) fields)).
    + rewrite IH by assumption. now rewrite <- app_assoc.
    + unfold csv.parse_process_char, csv.is_newline. cbn [csv.st parser_at].
      now rewrite Hlf, Hcr, Hcomma.
    + exact Hlf.
Qed.

(** The body of a quoted field and its closing quote. *)
Lemma read_quoted (f rest : pystr) (field : pystr) (fields : list pystr) :
  reader_chars (parser_at csv.IN_QUOTED_FIELD field fields)
    (csv.double_quotes f ++ DQUOTE :: rest)
  = reader_chars (parser_at csv.QUOTE_IN_QUOTED_FIELD (field ++ f) fields)
      rest.
Proof.
  revert field. induction f as [|c f IH]; intros field.
  - rewrite app_nil_r. reflexivity.
  - cbn [csv.double_quotes]. destruct (Ascii.eqb c DQUOTE) eqn:Hq.
    + apply Ascii.eqb_eq in Hq. subst c.
      change ((DQUOTE :: DQUOTE :: csv.double_quotes f) ++ DQUOTE :: rest)
        with (DQUOTE :: DQUOTE :: (csv.double_quotes f ++ DQUOTE :: rest)).
      rewrite (reader_chars_step DQUOTE _ _
                 (parser_at csv.QUOTE_IN_QUOTED_FIELD field fields))
        by reflexivity.
      rewrite (reader_chars_step DQUOTE _ _
                 (parser_at csv.IN_QUOTED_FIELD (field ++ [DQUOTE]) fields))
        by reflexivity.
      rewrite IH. now rewrite <- app_assoc.
    + change ((c :: csv.double_quotes f) ++ DQUOTE :: rest)
        with (c :: (csv.double_quotes f ++ DQUOTE :: rest)).
      assert (Hstep : csv.parse_process_char
                (parser_at csv.IN_QUOTED_FIELD field fields) (Some c)
              = Ok (parser_at csv.IN_QUOTED_FIELD (field ++ [c]) fields)).
      { unfold csv.parse_process_char. cbn [csv.st parser_at].
        now rewrite Hq. }
      destruct (Ascii.eqb c LF) eqn:Hlf.
      * apply Ascii.eqb_eq in Hlf. subst c.
        rewrite (reader_chars_step_lf _ _ _ _ Hstep eq_refl).
        cbn [csv.is_START_RECORD csv.st parser_at].
        rewrite IH. now rewrite <- app_assoc.
      * rewrite (reader_chars_step c _ _ _ Hstep Hlf).
        rewrite IH. now rewrite <- app_assoc.
Qed.

Lemma read_field (s0 : csv.state) (f rest : pystr) (fields : list pystr) :
  starting s0 ->
  reader_chars (parser_at s0 [] fields) (csv.write_field f ++ rest)
  = reader_chars (field_end s0 f fields) rest.
Proof.
  intros Hs0. unfold csv.write_field, field_end.
  destruct (existsb csv.special f) eqn:Hf.
  - change ((DQUOTE :: csv.double_quotes f ++ [DQUOTE]) ++ rest)
      with (DQUOTE :: ((csv.double_quotes f ++ [DQUOTE]) ++ rest)).
    rewrite <- app_assoc. simpl app.
    rewrite (reader_chars_step DQUOTE _ _
               (parser_at csv.IN_QUOTED_FIELD [] fields));
      [| destruct Hs0 as [-> | ->]; reflexivity | reflexivity].
    now rewrite read_quoted.
  - destruct f as [|c f]; [reflexivity|].
    simpl in Hf. apply orb_false_elim in Hf as [Hc Hf].
    pose proof (special_false c Hc) as (Hcomma & Hquote & Hcr & Hlf).
    simpl app.
    rewrite (reader_chars_step c _ _ (parser_at csv.IN_FIELD [c] fields)).
    + now rewrite read_plain.
    + destruct Hs0 as [-> | ->];
        unfold csv.parse_process_char, csv.start_field, csv.is_newline;
        cbn [csv.st parser_at]; now rewrite Hlf, Hcr, Hquote, Hcomma.
    + exact Hlf.
Qed.

Lemma field_end_comma (s0 : csv.state) (f rest : pystr)
    (fields : list pystr) :
  starting s0 ->
  reader_chars (field_end s0 f fields) (COMMA :: rest)
  = reader_chars (parser_at csv.START_FIELD [] (fields ++ [f])) rest.
Proof.
  intros Hs0. unfold field_end.
  destruct (existsb csv.special f); [reflexivity|].
  destruct f; [|reflexivity].
  destruct Hs0 as [-> | ->]; reflexivity.
Qed.

Lemma field_end_lf (s0 : csv.state) (f rest : pystr) (fields : list pystr) :
  s0 = csv.START_FIELD \/ (s0 = csv.START_RECORD /\ f <> []) ->
  reader_chars (field_end s0 f fields) (LF :: rest)
  = with_record (fields ++ [f]) (reader_chars csv.parse_reset rest).
Proof.
  intros Hs0. unfold field_end.
  destruct (existsb csv.special f); [reflexivity|].
  destruct f; [|reflexivity].
  destruct Hs0 as [-> | [_ H]]; [reflexivity | congruence].
Qed.

(** A row of fields, comma after comma, up to its [LF]. *)
Lemma read_fields (fs : list pystr) :
  forall (s0 : csv.state) (fields : list pystr) (rest : pystr),
    fs <> [] ->
    s0 = csv.START_FIELD \/ (s0 = csv.START_RECORD /\ fs <> [[]]) ->
    reader_chars (parser_at s0 [] fields)
      (join [COMMA] (map csv.write_field fs) ++ LF :: rest)
    = with_record (fields ++ fs) (reader_chars csv.parse_reset rest).
Proof.
  induction fs as [|f fs IH]; intros s0 fields rest Hne Hs0; [congruence|].
  assert (Hstart : starting s0) by (unfold starting; tauto).
  destruct fs as [|g fs].
  - cbn [map join]. rewrite read_field by assumption.
    apply field_end_lf. destruct Hs0 as [->|[-> H]]; [now left | right].
    split; [reflexivity | congruence].
  - change (join [COMMA] (map csv.write_field (f :: g :: fs)))
      with (csv.write_field f
            ++ [COMMA] ++ join [COMMA] (map csv.write_field (g :: fs))).
    rewrite <- !app_assoc. rewrite read_field by assumption.
    simpl app. rewrite field_end_comma by assumption.
    rewrite IH; [| discriminate | now left].
    now rewrite <- app_assoc.
Qed.

(** A row as the writer writes it, ended by [LF]. *)
Lemma read_row (fs : list pystr) (rest : pystr) :
  reader_chars csv.parse_reset (csv.writerow_with [LF] fs ++ rest)
  = with_record fs (reader_chars csv.parse_reset rest).
Proof.
  unfold csv.writerow_with, csv.join_fields.
  destruct fs as [|f fs]; [reflexivity|].
  assert (H : (f :: fs) <> [[]] ->
              reader_chars csv.parse_reset
                (join [COMMA] (map csv.write_field (f :: fs)) ++ [LF] ++ rest)
              = with_record (f :: fs) (reader_chars csv.parse_reset rest)).
  { intros Hne.
    change csv.parse_reset with (parser_at csv.START_RECORD [] []) at 1.
    change ([LF] ++ rest) with (LF :: rest).
    rewrite read_fields; [reflexivity | discriminate | now right]. }
  destruct f as [|c f]; [destruct fs as [|g fs]; [reflexivity|]|];
    rewrite <- app_assoc; apply H; discriminate.
Qed.

Lemma read_rows (records : list (list pystr)) :
  reader_chars csv.parse_reset (concat (map (csv.writerow_with [LF]) records))
  = (records, None).
Proof.
  induction records as [|fs records IH]; [reflexivity|].
  cbn [map concat]. rewrite read_row, IH. reflexivity.
Qed.

Lemma writerow_lf_terminated (records : list (list pystr)) :
  lf_terminated (concat (map (csv.writerow_with [LF]) records)).
Proof.
  unfold lf_terminated.
  induction records as [|fs records IH]; [exact I|].
  cbn [map concat]. rewrite last_app.
  destruct (last (concat (map (csv.writerow_with [LF]) records)));
    [exact IH|].
  unfold csv.writerow_with. now rewrite last_snoc.
Qed.

(** [csv.reader] gives back the rows that were written with [LF] as
    the line terminator. *)
Lemma reader_writerow_lf (records : list (list pystr)) :
  csv.reader (readlines [] (concat (map (csv.writerow_with [LF]) records)))
  = (records, None).
Proof.
  unfold csv.reader.
  apply (reader_chars_lines _ csv.parse_reset [] csv.parse_reset).
  - reflexivity.
  - reflexivity.
  - apply writerow_lf_terminated.
  - apply read_rows.
Qed.

(** ** What the text-mode read does to the text written *)

Lemma universal_newlines_app_char (x y : pystr) (c : ascii) (b : bool) :
  Ascii.eqb c CR = false -> Ascii.eqb c LF = false ->
  universal_newlines b (x ++ c :: y)
  = universal_newlines b x ++ c :: universal_newlines false y.
Proof.
  intros Hcr Hlf. revert b.
  induction x as [|a x IH]; intros b; simpl.
  - now rewrite Hcr, Hlf.
  - destruct (Ascii.eqb a CR); [now rewrite IH|].
    destruct (Ascii.eqb a LF && b); now rewrite IH.
Qed.

Lemma universal_newlines_app_crlf (x y : pystr) (b : bool) :
  universal_newlines b (x ++ CR :: LF :: y)
  = universal_newlines b x ++ LF :: universal_newlines false y.
Proof.
  revert b. induction x as [|a x IH]; intros b; simpl.
  - reflexivity.
  - destruct (Ascii.eqb a CR); [now rewrite IH|].
    destruct (Ascii.eqb a LF && b); now rewrite IH.
Qed.

Lemma universal_newlines_double_quotes (f : pystr) (b : bool) :
  universal_newlines b (csv.double_quotes f)
  = csv.double_quotes (universal_newlines b f).
Proof.
  revert b. induction f as [|c f IH]; intros b; [reflexivity|].
  cbn [csv.double_quotes universal_newlines].
  destruct (Ascii.eqb c DQUOTE) eqn:Hq.
  - apply Ascii.eqb_eq in Hq. subst c. simpl. now rewrite IH.
  - cbn [universal_newlines]. destruct (Ascii.eqb c CR) eqn:Hcr.
    + cbn [csv.double_quotes]. simpl (Ascii.eqb LF DQUOTE). cbv iota.
      now rewrite IH.
    + destruct (Ascii.eqb c LF && b).
      * apply IH.
      * cbn [csv.double_quotes]. rewrite Hq. now rewrite IH.
Qed.

Lemma special_nl (f : pystr) :
  existsb csv.special (nl f) = existsb csv.special f.
Proof.
  unfold nl. induction f as [|c f IH]; [reflexivity|].
  cbn [universal_newlines]. destruct (Ascii.eqb c CR) eqn:Hcr.
  - apply Ascii.eqb_eq in Hcr. subst c. reflexivity.
  - rewrite andb_false_r. cbn [existsb]. now rewrite IH.
Qed.

Lemma universal_newlines_plain (f : pystr) (b : bool) :
  existsb csv.special f = false -> universal_newlines b f = f.
Proof.
  revert b. induction f as [|c f IH]; intros b Hf; [reflexivity|].
  simpl in Hf. apply orb_false_elim in Hf as [Hc Hf].
  apply special_false in Hc as (_ & _ & Hcr & Hlf).
  cbn [universal_newlines]. rewrite Hcr, Hlf. cbn [andb].
  now rewrite IH.
Qed.

Lemma write_field_nl (f : pystr) :
  universal_newlines false (csv.write_field f) = csv.write_field (nl f).
Proof.
  unfold csv.write_field. rewrite special_nl.
  destruct (existsb csv.special f) eqn:Hf.
  - change (DQUOTE :: csv.double_quotes f ++ [DQUOTE])
      with ((DQUOTE :: csv.double_quotes f) ++ DQUOTE :: []).
    rewrite universal_newlines_app_char by reflexivity.
    change (universal_newlines false (DQUOTE :: csv.double_quotes f))
      with (DQUOTE :: universal_newlines false (csv.double_quotes f)).
    now rewrite universal_newlines_double_quotes.
  - unfold nl. now rewrite !universal_newlines_plain.
Qed.

Lemma join_nl (fs : list pystr) (rest : pystr) :
  universal_newlines false
    (join [COMMA] (map csv.write_field fs) ++ CR :: LF :: rest)
  = join [COMMA] (map csv.write_field (map nl fs))
    ++ LF :: universal_newlines false rest.
Proof.
  induction fs as [|f fs IH]; [reflexivity|].
  destruct fs as [|g fs].
  - cbn [map join]. rewrite universal_newlines_app_crlf.
    now rewrite write_field_nl.
  - change (join [COMMA] (map csv.write_field (f :: g :: fs)))
      with (csv.write_field f
            ++ [COMMA] ++ join [COMMA] (map csv.write_field (g :: fs))).
    change (join [COMMA] (map csv.write_field (map nl (f :: g :: fs))))
      with (csv.write_field (nl f)
            ++ [COMMA]
            ++ join [COMMA] (map csv.write_field (map nl (g :: fs)))).
    rewrite <- !app_assoc.
    change ([COMMA] ++ ?x) with (COMMA :: x).
    rewrite universal_newlines_app_char by reflexivity.
    rewrite write_field_nl, IH. reflexivity.
Qed.

Lemma nl_nil (f : pystr) : nl f = [] -> f = [].
Proof.
  unfold nl. destruct f as [|c f]; [reflexivity|]. simpl.
  destruct (Ascii.eqb c CR); [discriminate|].
  rewrite andb_false_r. discriminate.
Qed.

Lemma join_fields_two (f g : pystr) (fs : list pystr) :
  csv.join_fields (f :: g :: fs)
  = join [COMMA] (map csv.write_field (f :: g :: fs)).
Proof. now destruct f. Qed.

Lemma writerow_nl (fs : list pystr) (rest : pystr) :
  universal_newlines false (csv.writerow fs ++ rest)
  = csv.writerow_with [LF] (map nl fs) ++ universal_newlines false rest.
Proof.
  unfold csv.writerow, csv.writerow_with.
  rewrite <- !app_assoc.
  change ([CR; LF] ++ rest) with (CR :: LF :: rest).
  change ([LF] ++ ?x) with (LF :: x).
  assert (H : csv.join_fields fs = join [COMMA] (map csv.write_field fs) ->
              csv.join_fields (map nl fs)
              = join [COMMA] (map csv.write_field (map nl fs)) ->
              universal_newlines false (csv.join_fields fs ++ CR :: LF :: rest)
              = csv.join_fields (map nl fs)
                ++ LF :: universal_newlines false rest).
  { intros -> ->. apply join_nl. }
  destruct fs as [|f fs]; [apply H; reflexivity|].
  destruct fs as [|g fs].
  2:{ apply H; apply join_fields_two. }
  destruct f as [|c f]; [reflexivity|].
  apply H; [reflexivity|].
  cbn [map]. destruct (nl (c :: f)) eqn:E; [|reflexivity].
  apply nl_nil in E. discriminate.
Qed.

Lemma writerows_nl (records : list (list pystr)) :
  universal_newlines false (concat (map csv.writerow records))
  = concat (map (csv.writerow_with [LF]) (map (map nl) records)).
Proof.
  induction records as [|fs records IH]; [reflexivity|].
  cbn [map concat]. now rewrite writerow_nl, IH.
Qed.

(** Read back in text mode, the rows written come out with their
    carriage returns turned into line feeds. *)
Lemma reader_writerow (records : list (list pystr)) :
  csv.reader (readlines []
                (universal_newlines false (concat (map csv.writerow records))))
  = (map (map nl) records, None).
Proof. rewrite writerows_nl. apply reader_writerow_lf. Qed.

(** ** Saving an inventory and loading it back *)

Lemma nl_no_cr (s : pystr) : ~ In CR s -> nl s = s.
Proof.
  unfold nl. induction s as [|c s IH]; intros H; [reflexivity|].
  cbn [universal_newlines]. rewrite andb_false_r.
  destruct (Ascii.eqb c CR) eqn:Hc.
  - apply Ascii.eqb_eq in Hc. subst c. exfalso. apply H. now left.
  - rewrite IH; [reflexivity|]. intros Hin. apply H. now right.
Qed.

Lemma nl_product_no_cr (p : Product.t) : has_no_cr p -> nl_product p = p.
Proof.
  intros [Hn Hc]. destruct p. unfold nl_product. simpl in *.
  now rewrite !nl_no_cr.
Qed.

Lemma uint_chars_plain (d : uint) : existsb csv.special (uint_chars d) = false.
Proof. induction d; simpl; auto. Qed.

Lemma nl_str_of_int (n : Z) : nl (str_of_int n) = str_of_int n.
Proof.
  unfold nl. apply universal_newlines_plain. unfold str_of_int.
  destruct (Z.to_int n); simpl; apply uint_chars_plain.
Qed.

Section SaveLoad.
Context {FT : FloatText}.

Lemma make_product_row_of (p : Product.t) :
  float_text_ok (Product.price p) ->
  FileManager.make_product (row_of p) = Ok (nl_product p).
Proof.
  intros [Hfloat Hcr]. unfold row_of, FileManager.product_record.
  cbn [map]. rewrite !nl_str_of_int, (nl_no_cr _ Hcr).
  unfold FileManager.make_product, nl_product.
  remember (str_of_int (Product.product_id p)) as a eqn:Ha.
  remember (nl (Product.name p)) as b eqn:Hb.
  remember (nl (Product.category p)) as c eqn:Hc.
  remember (float_repr (Product.price p)) as d eqn:Hd.
  remember (str_of_int (Product.quantity p)) as e eqn:He.
  remember (str_of_int (Product.reorder_level p)) as f eqn:Hf.
  repeat match goal with
  | |- context [csv.getitem ?r ?k] =>
      let v := eval vm_compute in (csv.getitem r k) in
      change (csv.getitem r k) with v
  end.
  cbn [FileManager.rbind FileManager.to_int FileManager.to_float
       FileManager.to_text].
  subst a e f. rewrite !int_of_str_of_int, Hfloat. reflexivity.
Qed.

Lemma load_rows_ok (products : list Product.t) (inv : Inventory.t)
    (w : World) :
  Forall (fun p => float_text_ok (Product.price p)) products ->
  FileManager.load_rows inv (map row_of products) w
  = (Ok (add_all inv (map nl_product products)),
     shown w (map Print (alerts (map nl_product products))) (stdin w)).
Proof.
  revert inv w. induction products as [|p products IH]; intros inv w Hok.
  - simpl. unfold ret. now rewrite shown_nil.
  - apply Forall_cons in Hok as [Hp Hok].
    cbn [map FileManager.load_rows]. unfold bind, of_result.
    rewrite (make_product_row_of p Hp), printing_run, IH by assumption.
    rewrite shown_shown. unfold alerts. cbn [map concat].
    now rewrite map_app.
Qed.

Lemma add_all_fresh (items : Inventory.t) (inv : Inventory.t) :
  inventory_wf (inv ++ items) ->
  add_all inv (dict_values items) = inv ++ items.
Proof.
  revert inv. induction items as [|[k p] items IH]; intros inv Hwf.
  - now rewrite app_nil_r.
  - unfold add_all, dict_values in *. cbn [map fold_left snd].
    unfold Inventory.add_product. cbn [fst].
    destruct Hwf as [Hnd Hkey].
    assert (Hk : Product.product_id p = k).
    { rewrite Forall_app in Hkey. destruct Hkey as [_ Hkey].
      apply Forall_cons in Hkey as [Hk _]. exact Hk. }
    rewrite Hk, dict_set_absent.
    + rewrite IH; [now rewrite <- app_assoc|].
      rewrite <- app_assoc. split; assumption.
    + apply dict_get_None_keys. unfold dict_wf, dict_keys in Hnd.
      rewrite map_app in Hnd. apply NoDup_app in Hnd as (_ & Hdis & _).
      intros Hin. apply (Hdis k); [now apply list_elem_of_In|].
      simpl. left.
Qed.

Lemma nl_inventory_wf (inv : Inventory.t) :
  inventory_wf inv -> inventory_wf (nl_inventory inv).
Proof.
  intros [Hnd Hkey]. unfold nl_inventory. split.
  - unfold dict_wf, dict_keys in *. rewrite map_map. simpl.
    exact Hnd.
  - rewrite Forall_map. eapply Forall_impl; [exact Hkey|].
    intros [k p] H. exact H.
Qed.

Lemma dict_values_nl (inv : Inventory.t) :
  dict_values (nl_inventory inv) = map nl_product (dict_values inv).
Proof. unfold dict_values, nl_inventory. now rewrite !map_map. Qed.

Lemma inventory_text_rows (inv : Inventory.t) :
  FileManager.inventory_text inv
  = concat (map csv.writerow
              (FileManager.header
               :: map FileManager.product_record (dict_values inv))).
Proof.
  unfold FileManager.inventory_text. cbn [map concat].
  now rewrite map_map.
Qed.

Lemma records_nonblank (l : list Product.t) :
  List.filter csv.nonblank (map (map nl) (map FileManager.product_record l))
  = map (map nl) (map FileManager.product_record l).
Proof.
  induction l as [|p l IH]; [reflexivity|].
  cbn [map]. unfold FileManager.product_record at 1.
  cbn [map List.filter csv.nonblank]. now rewrite IH.
Qed.

(** The rows [load_inventory] gets from the text of an inventory. *)
Lemma DictReader_inventory_text (inv : Inventory.t) :
  csv.DictReader
    (readlines [] (universal_newlines false (FileManager.inventory_text inv)))
  = (map row_of (dict_values inv), None).
Proof.
  unfold csv.DictReader.
  rewrite inventory_text_rows, reader_writerow. cbn [map].
  change (map nl FileManager.header) with FileManager.header.
  rewrite records_nonblank, !map_map. reflexivity.
Qed.

(** Saved and loaded back, an inventory returns with the carriage
    returns of its names and categories turned into line feeds; the
    load prints the alerts of its products. *)
Theorem load_after_save (inv : Inventory.t) (filename : pystr) (w : World) :
  inventory_wf inv ->
  Forall (fun p => float_text_ok (Product.price p)) (dict_values inv) ->
  FileManager.load_inventory filename
    (snd (FileManager.save_inventory inv filename w))
  = (Ok (nl_inventory inv),
     shown (snd (FileManager.save_inventory inv filename w))
       (map Print (alerts (dict_values (nl_inventory inv)))) (stdin w)).
Proof.
  intros Hwf Hok.
  unfold FileManager.load_inventory, FileManager.save_inventory,
    open_read_lines, open_write.
  cbn [snd]. unfold bind at 1. cbn [files].
  unfold pystr_eqb at 1. rewrite bool_decide_eq_true_2 by reflexivity.
  rewrite DictReader_inventory_text. unfold bind.
  rewrite load_rows_ok by assumption. unfold ret.
  rewrite <- dict_values_nl.
  rewrite (add_all_fresh (nl_inventory inv) Inventory.empty)
    by (apply nl_inventory_wf; exact Hwf).
  reflexivity.
Qed.

(** With no carriage return in a name or a category, the inventory
    loaded is the inventory saved. *)
Corollary load_after_save_no_cr (inv : Inventory.t) (filename : pystr)
    (w : World) :
  inventory_wf inv ->
  Forall (fun p => float_text_ok (Product.price p)) (dict_values inv) ->
  Forall has_no_cr (dict_values inv) ->
  fst (FileManager.load_inventory filename
         (snd (FileManager.save_inventory inv filename w)))
  = Ok inv.
Proof.
  intros Hwf Hok Hcr. rewrite load_after_save by assumption. cbn [fst].
  f_equal. unfold nl_inventory, dict_values in *.
  induction inv as [|[k p] inv IH]; [reflexivity|].
  cbn [map fst snd] in *.
  apply Forall_cons in Hcr as [Hp Hcr]. apply Forall_cons in Hok as [_ Hok].
  rewrite (nl_product_no_cr p Hp), IH; auto.
  destruct Hwf as [Hnd Hkey]. split.
  - unfold dict_wf, dict_keys in *. cbn [map] in Hnd.
    now apply NoDup_cons in Hnd as [_ Hnd].
  - now apply Forall_cons in Hkey as [_ Hkey].
Qed.

End SaveLoad.

(** ** A name with a carriage return *)

(** C1 at an inventory it fails for.  The product named Wid, carriage
    return, get is saved and loaded back: the load succeeds and returns
    a product named Wid, line feed, get.  [save_inventory] opens its
    file with [newline=""]; [load_inventory] does not, and the text-mode
    read translates the carriage return inside the quoted field. *)
Theorem load_after_save_carriage_return {FT : FloatText} (filename : pystr)
    (w : World) :
  float_text_ok two_and_a_half ->
  fst (FileManager.load_inventory filename
         (snd (FileManager.save_inventory [(1, cr_widget)] filename w)))
  = Ok [(1, lf_widget)]
  /\ Product.name lf_widget <> Product.name cr_widget.
Proof.
  intros Hfloat. split.
  - rewrite load_after_save.
    + reflexivity.
    + split; [repeat constructor; intros H; inversion H|].
      repeat constructor.
    + repeat constructor; apply Hfloat.
  - discriminate.
Qed.

Lemma load_after_save_carriage_return_witness :
  fst (FileManager.load_inventory (FT := sample_float_text)
         (py "inventory.csv")
         (snd (FileManager.save_inventory (FT := sample_float_text)
                 [(1, cr_widget)] (py "inventory.csv") (typing [] []))))
  = Ok [(1, lf_widget)]
  /\ Product.name lf_widget <> Product.name cr_widget.
Proof.
  apply (load_after_save_carriage_return (FT := sample_float_text)
           (py "inventory.csv") (typing [] [])).
  split; [reflexivity|]. vm_compute. intuition discriminate.
Defined.

(** An inventory that comes back as it was. *)
Example load_after_save_widget :
  fst (FileManager.load_inventory (FT := sample_float_text)
         (py "inventory.csv")
         (snd (FileManager.save_inventory (FT := sample_float_text)
                 [(1, widget); (2, gadget)] (py "inventory.csv")
                 (typing [] []))))
  = Ok [(1, widget); (2, gadget)].
Proof. vm_compute. reflexivity. Qed.

(** ** The loop of the menu comes to an end *)

Create HintDb keeps.

Lemma keeps_ret {S A} (len : S -> nat) (a : A) : keeps_input len (ret a).
Proof. intros s. simpl. lia. Qed.

Lemma keeps_raise {S A} (len : S -> nat) (e : exn) :
  keeps_input len (raise (A := A) e).
Proof. intros s. simpl. lia. Qed.

Lemma keeps_of_result {S A} (len : S -> nat) (r : result A) :
  keeps_input len (of_result r).
Proof. intros s. simpl. lia. Qed.

Lemma keeps_bind {S A B} (len : S -> nat) (m : ST S A) (k : A -> ST S B) :
  keeps_input len m -> (forall a, keeps_input len (k a)) ->
  keeps_input len (bind m k).
Proof.
  intros Hm Hk s. unfold bind. specialize (Hm s).
  destruct (m s) as [[a|e] s']; simpl in *; [|exact Hm].
  specialize (Hk a s'). lia.
Qed.

Lemma keeps_io {A} (m : IO A) :
  keeps_input pending_lines m -> keeps_input pending (Menu.io m).
Proof.
  intros Hm [self w]. unfold Menu.io, pending. simpl. specialize (Hm w).
  now destruct (m w).
Qed.

Lemma keeps_emit (e : event) : keeps_input pending_lines (emit e).
Proof. intros w. unfold pending_lines. simpl. lia. Qed.

Lemma keeps_print (line : pystr) : keeps_input pending_lines (print line).
Proof. apply keeps_emit. Qed.

#[local] Hint Resolve keeps_ret keeps_raise keeps_of_result keeps_emit
  keeps_print : keeps.

Ltac keeps :=
  repeat first
    [ solve [auto with keeps]
    | apply keeps_io
    | apply keeps_bind; [|intros ?]
    | match goal with
      | |- keeps_input _ (match ?x with _ => _ end) => destruct x
      end ].

Lemma keeps_print_lines (lines : list pystr) :
  keeps_input pending_lines (print_lines lines).
Proof. induction lines; simpl; keeps. Qed.

#[local] Hint Resolve keeps_print_lines : keeps.

Lemma keeps_printing {A} (r : A * list pystr) :
  keeps_input pending_lines (printing r).
Proof. unfold printing. keeps. Qed.

Lemma keeps_input_line (prompt : pystr) :
  keeps_input pending_lines (input prompt).
Proof.
  unfold input. apply keeps_bind; [auto with keeps|]. intros _ w.
  unfold pending_lines. destruct (stdin w) eqn:E; simpl; rewrite ?E; simpl; lia.
Qed.

Lemma keeps_datetime_now : keeps_input pending_lines datetime_now.
Proof. intros w. simpl. lia. Qed.

Lemma keeps_open_read_lines (name : pystr) :
  keeps_input pending_lines (open_read_lines name).
Proof. intros w. unfold open_read_lines. destruct (files w name); simpl; lia. Qed.

Lemma keeps_open_write (name content : pystr) :
  keeps_input pending_lines (open_write name content).
Proof. intros w. unfold pending_lines. simpl. lia. Qed.

#[local] Hint Resolve keeps_printing keeps_input_line keeps_datetime_now
  keeps_open_read_lines keeps_open_write : keeps.

Lemma keeps_input_int (prompt : pystr) :
  keeps_input pending_lines (Menu.input_int prompt).
Proof. unfold Menu.input_int. keeps. Qed.

Lemma keeps_self_inventory : keeps_input pending Menu.self_inventory.
Proof. intros s. simpl. lia. Qed.

Lemma keeps_self_logger : keeps_input pending Menu.self_logger.
Proof. intros s. simpl. lia. Qed.

Lemma keeps_set_inventory (inv : Inventory.t) :
  keeps_input pending (Menu.set_inventory inv).
Proof. intros s. unfold pending. simpl. lia. Qed.

Lemma keeps_set_logger (log : TransactionLogger.t) :
  keeps_input pending (Menu.set_logger log).
Proof. intros s. unfold pending. simpl. lia. Qed.

Lemma keeps_new_transaction (tid pid qty : Z) (ttype : pystr) :
  keeps_input pending_lines (Transaction.new tid pid qty ttype).
Proof. unfold Transaction.new. keeps. Qed.

Lemma keeps_plot_inventory (inv : Inventory.t) :
  keeps_input pending_lines (Visualizer.plot_inventory inv).
Proof. unfold Visualizer.plot_inventory. keeps. Qed.

#[local] Hint Resolve keeps_input_int keeps_self_inventory keeps_self_logger
  keeps_set_inventory keeps_set_logger keeps_new_transaction
  keeps_plot_inventory : keeps.

Section Turns.
Context {FT : FloatText}.

Lemma keeps_input_float (prompt : pystr) :
  keeps_input pending_lines (Menu.input_float prompt).
Proof. unfold Menu.input_float. keeps. Qed.

Lemma keeps_load_rows (rows : list csv.row) (inv : Inventory.t) :
  keeps_input pending_lines (FileManager.load_rows inv rows).
Proof.
  revert inv. induction rows as [|row rows IH]; intros inv; simpl; keeps.
Qed.

#[local] Hint Resolve keeps_load_rows : keeps.

Lemma keeps_load_inventory (name : pystr) :
  keeps_input pending_lines (FileManager.load_inventory name).
Proof.
  unfold FileManager.load_inventory. keeps.
Qed.

Lemma keeps_save_inventory (inv : Inventory.t) (name : pystr) :
  keeps_input pending_lines (FileManager.save_inventory inv name).
Proof. unfold FileManager.save_inventory. keeps. Qed.

Lemma keeps_total_inventory_value (self : StatisticalReport.t) :
  keeps_input pending_lines (StatisticalReport.total_inventory_value self).
Proof. unfold StatisticalReport.total_inventory_value. keeps. Qed.

#[local] Hint Resolve keeps_input_float keeps_load_inventory keeps_save_inventory
  keeps_total_inventory_value : keeps.

Lemma keeps_choice (choice : pystr) :
  keeps_input pending
    (if pystr_eqb choice (py "1") then bind Menu.add_product (fun _ => ret false)
     else if pystr_eqb choice (py "2") then
       bind Menu.remove_product (fun _ => ret false)
     else if pystr_eqb choice (py "3") then
       bind Menu.list_products (fun _ => ret false)
     else if pystr_eqb choice (py "4") then
       bind Menu.search_by_name (fun _ => ret false)
     else if pystr_eqb choice (py "5") then
       bind Menu.search_by_category (fun _ => ret false)
     else if pystr_eqb choice (py "6") then
       bind Menu.update_quantity (fun _ => ret false)
     else if pystr_eqb choice (py "7") then
       bind Menu.show_chart (fun _ => ret false)
     else if pystr_eqb choice (py "8") then bind Menu.save (fun _ => ret false)
     else if pystr_eqb choice (py "9") then bind Menu.load (fun _ => ret false)
     else if pystr_eqb choice (py "10") then
       bind Menu.reports (fun _ => ret false)
     else if pystr_eqb choice (py "0") then
       bind (Menu.io (print (py "Exiting system."))) (fun _ => ret true)
     else bind (Menu.io (print (py "Invalid choice."))) (fun _ => ret false)).
Proof.
  unfold Menu.add_product, Menu.remove_product, Menu.list_products,
    Menu.search_by_name, Menu.search_by_category, Menu.update_quantity,
    Menu.show_chart, Menu.save, Menu.load, Menu.reports.
  keeps.
Qed.

Lemma input_takes_a_line {B} (prompt : pystr) (k : pystr -> Menu.M B)
    (s : Menu.t * World) :
  (forall choice, keeps_input pending (k choice)) ->
  match fst (bind (Menu.io (input prompt)) k s) with
  | Ok _ =>
      (pending (snd (bind (Menu.io (input prompt)) k s)) < pending s)%nat
  | Raise _ => True
  end.
Proof.
  intros Hk. destruct s as [self w]. unfold bind, Menu.io. cbn [snd fst].
  destruct (stdin w) as [|choice rest] eqn:Hin.
  - rewrite (input_eof _ _ Hin). exact I.
  - rewrite (input_run _ _ _ _ Hin).
    specialize (Hk choice (self, shown w [Prompt prompt] rest)).
    destruct (k choice (self, shown w [Prompt prompt] rest))
      as [[b|e] s']; cbn [fst snd] in *; [|exact I].
    unfold pending, pending_lines in *. cbn [snd stdin shown] in *.
    rewrite Hin. simpl. lia.
Qed.

(** A turn that does not raise has taken a line of the input. *)
Lemma turn_takes_a_line (s : Menu.t * World) :
  match fst (Menu.turn s) with
  | Ok _ => (pending (snd (Menu.turn s)) < pending s)%nat
  | Raise _ => True
  end.
Proof.
  destruct s as [self w].
  pose proof (input_takes_a_line (py "Choice: ") _
                (self, shown w [Print Menu.menu_text] (stdin w))
                keeps_choice) as H.
  exact H.
Qed.

Lemma run_turns_enough (fuel : nat) (s : Menu.t * World) :
  (pending s < fuel)%nat -> fst (Menu.run_turns fuel s) <> Ok None.
Proof.
  revert s. induction fuel as [|fuel IH]; intros s Hfuel; [lia|].
  cbn [Menu.run_turns]. unfold bind.
  pose proof (turn_takes_a_line s) as Hturn.
  destruct (Menu.turn s) as [[left|e] s']; cbn [fst snd] in *.
  - destruct left; [discriminate|]. apply IH. lia.
  - discriminate.
Qed.

(** [run] never stops for lack of turns: it leaves the loop on choice 0
    or it raises, which it does at the latest when the input is used
    up. *)
Theorem run_ends (s : Menu.t * World) : fst (Menu.run s) <> Ok None.
Proof.
  unfold Menu.run. apply run_turns_enough.
  unfold pending, pending_lines. lia.
Qed.

End Turns.

(** * Further properties of the code *)

(** ** The dictionary of products *)

Lemma dict_set_set {V} (k : Z) (v v' : V) (d : pydict V) :
  dict_set k v' (dict_set k v d) = dict_set k v' d.
Proof.
  induction d as [|[k0 v0] d IH]; simpl.
  - now rewrite Z.eqb_refl.
  - destruct (k =? k0) eqn:E; simpl.
    + now rewrite Z.eqb_refl.
    + now rewrite E, IH.
Qed.

Lemma dict_pop_set {V} (k : Z) (v : V) (d : pydict V) :
  dict_pop k (dict_set k v d) = dict_pop k d.
Proof.
  induction d as [|[k0 v0] d IH]; simpl.
  - now rewrite Z.eqb_refl.
  - destruct (k =? k0) eqn:E; simpl.
    + now rewrite Z.eqb_refl.
    + now rewrite E, IH.
Qed.

Lemma dict_pop_pop {V} (k : Z) (d : pydict V) :
  dict_pop k (dict_pop k d) = dict_pop k d.
Proof.
  induction d as [|[k0 v0] d IH]; simpl; [reflexivity|].
  destruct (k =? k0) eqn:E; simpl; rewrite ?E; [exact IH|].
  now rewrite IH.
Qed.

Lemma dict_set_present_split {V} (k : Z) (v old : V) (d : pydict V) :
  dict_get k d = Some old ->
  exists before after,
    d = before ++ (k, old) :: after
    /\ dict_set k v d = before ++ (k, v) :: after
    /\ dict_get k before = None.
Proof.
  induction d as [|[k0 v0] d IH]; simpl; [discriminate|].
  destruct (k =? k0) eqn:E.
  - apply Z.eqb_eq in E. subst k0. intros [= ->].
    exists [], d. auto.
  - intros H. destruct (IH H) as (before & after & -> & -> & Hb).
    exists ((k0, v0) :: before), after. simpl. now rewrite E.
Qed.

(** X1.  Where [add_product] puts a product.  At an id the inventory
    does not hold, the product goes to the end; at an id it holds, the
    product takes the place of the one there, the entries before and
    after it staying as they are.  Adding the same product twice is
    adding it once, and removing an id after an add at that id leaves
    what removing it without the add leaves. *)
Theorem add_product_position (inv : Inventory.t) (p : Product.t) :
  (Inventory.get_product inv (Product.product_id p) = None ->
   fst (Inventory.add_product inv p) = inv ++ [(Product.product_id p, p)])
  /\ (forall old,
        Inventory.get_product inv (Product.product_id p) = Some old ->
        exists before after,
          inv = before ++ (Product.product_id p, old) :: after
          /\ fst (Inventory.add_product inv p)
             = before ++ (Product.product_id p, p) :: after)
  /\ fst (Inventory.add_product (fst (Inventory.add_product inv p)) p)
     = fst (Inventory.add_product inv p)
  /\ Inventory.remove_product (fst (Inventory.add_product inv p))
       (Product.product_id p)
     = Inventory.remove_product inv (Product.product_id p).
Proof.
  unfold Inventory.add_product, Inventory.get_product,
    Inventory.remove_product. cbn [fst]. repeat split.
  - apply dict_set_absent.
  - intros old Hold.
    destruct (dict_set_present_split _ p old inv Hold)
      as (before & after & H1 & H2 & _).
    eauto.
  - apply dict_set_set.
  - apply dict_pop_set.
Qed.

Lemma add_product_position_witness :
  fst (Inventory.add_product [(1, widget)] gadget)
  = [(1, widget)] ++ [(Product.product_id gadget, gadget)].
Proof.
  apply (proj1 (add_product_position [(1, widget)] gadget)). reflexivity.
Defined.

(** X2.  What [remove_product] leaves.  The entries of the other ids
    stay, in their order; the id removed is no key any more; removing
    twice is removing once; and an inventory that is well formed stays
    so. *)
Theorem remove_product_rest (inv : Inventory.t) (id : Z) :
  Inventory.remove_product inv id
  = List.filter (fun item => negb (id =? fst item)) inv
  /\ ~ In id (dict_keys (Inventory.remove_product inv id))
  /\ (forall other, other <> id ->
        Inventory.get_product (Inventory.remove_product inv id) other
        = Inventory.get_product inv other)
  /\ Inventory.remove_product (Inventory.remove_product inv id) id
     = Inventory.remove_product inv id.
Proof.
  unfold Inventory.remove_product, Inventory.get_product. repeat split.
  - induction inv as [|[k v] inv IH]; simpl; [reflexivity|].
    destruct (id =? k); simpl; now rewrite IH.
  - apply dict_get_None_keys, dict_get_pop_eq.
  - intros other Hne. apply dict_get_pop_ne. congruence.
  - apply dict_pop_pop.
Qed.

(** ** Searching *)

Lemma startswith_spec (pre s : pystr) :
  startswith pre s = true <-> exists post, s = pre ++ post.
Proof.
  revert s. induction pre as [|a pre IH]; intros s; simpl.
  - split; [eauto | now destruct s].
  - destruct s as [|b s].
    + split; [discriminate | intros [post H]; discriminate].
    + rewrite andb_true_iff, IH. split.
      * intros [Hab [post ->]]. apply Ascii.eqb_eq in Hab. subst. eauto.
      * intros [post [= -> ->]]. rewrite Ascii.eqb_refl. eauto.
Qed.

Lemma str_in_spec (needle hay : pystr) :
  str_in needle hay = true <-> exists pre post, hay = pre ++ needle ++ post.
Proof.
  induction hay as [|c hay IH]; simpl.
  - rewrite orb_false_r, startswith_spec. split.
    + intros [post H]. exists [], post. exact H.
    + intros (pre & post & H). destruct pre; [eauto|discriminate].
  - rewrite orb_true_iff, startswith_spec, IH. split.
    + intros [[post H]|(pre & post & H)].
      * exists [], post. exact H.
      * exists (c :: pre), post. simpl. now rewrite H.
    + intros (pre & post & H). destruct pre as [|a pre].
      * left. eauto.
      * right. injection H as -> ->. eauto.
Qed.

Lemma lower_char_idem (c : ascii) : lower_char (lower_char c) = lower_char c.
Proof. destruct c as [[] [] [] [] [] [] [] []]; reflexivity. Qed.

Lemma lower_idem (s : pystr) : lower (lower s) = lower s.
Proof.
  unfold lower. rewrite map_map. apply map_ext. apply lower_char_idem.
Qed.

Lemma lower_app (s t : pystr) : lower (s ++ t) = lower s ++ lower t.
Proof. apply map_app. Qed.

(** X3.  [search_by_name] returns, in the order of the inventory, the
    products whose name, lowered, has the lowered query somewhere inside
    it, and no other.  So for a name and a query of ASCII characters,
    where lowering goes letter by letter, a product whose name is some
    text, the query, some text is found whatever the case of the
    letters of either. *)
Theorem search_by_name_substring (inv : Inventory.t) (query : pystr) :
  (forall p, In p (Inventory.search_by_name inv query)
             <-> In p (dict_values inv)
                 /\ exists pre post,
                      lower (Product.name p) = pre ++ lower query ++ post)
  /\ sublist (Inventory.search_by_name inv query) (dict_values inv)
  /\ (forall p pre post q,
        In p (dict_values inv) ->
        ascii_text (Product.name p) ->
        ascii_text query ->
        Product.name p = pre ++ q ++ post ->
        lower q = lower query ->
        In p (Inventory.search_by_name inv query)).
Proof.
  assert (Hiff : forall p, In p (Inventory.search_by_name inv query)
             <-> In p (dict_values inv)
                 /\ exists pre post,
                      lower (Product.name p) = pre ++ lower query ++ post).
  { intros p. unfold Inventory.search_by_name.
    now rewrite filter_In, str_in_spec. }
  split; [exact Hiff|]. split; [apply sublist_filter|].
  intros p pre post q Hin _ _ Hname Hq. apply Hiff. split; [exact Hin|].
  exists (lower pre), (lower post).
  now rewrite Hname, !lower_app, Hq.
Qed.

Lemma search_by_name_substring_witness :
  In widget (Inventory.search_by_name [(1, widget); (2, gadget)] (py "wID")).
Proof.
  apply (proj2 (proj2 (search_by_name_substring [(1, widget); (2, gadget)]
                         (py "wID")))
           widget [] (py "get") (py "Wid")).
  - left. reflexivity.
  - repeat constructor.
  - repeat constructor.
  - reflexivity.
  - reflexivity.
Defined.

(** X4.  The case of the letters of a query does not count: both
    searches return for a query what they return for the query
    lowered, hence the same for two queries that differ in case
    only. *)
Theorem search_ignores_case (inv : Inventory.t) (query query' : pystr) :
  Inventory.search_by_name inv (lower query)
  = Inventory.search_by_name inv query
  /\ Inventory.search_by_category inv (lower query)
     = Inventory.search_by_category inv query
  /\ (lower query = lower query' ->
      Inventory.search_by_name inv query
      = Inventory.search_by_name inv query'
      /\ Inventory.search_by_category inv query
         = Inventory.search_by_category inv query').
Proof.
  unfold Inventory.search_by_name, Inventory.search_by_category.
  rewrite lower_idem. repeat split; intros; now rewrite ?H.
Qed.

Lemma search_ignores_case_witness :
  Inventory.search_by_name [(1, widget); (2, gadget)] (py "GET")
  = Inventory.search_by_name [(1, widget); (2, gadget)] (py "get")
  /\ Inventory.search_by_category [(1, widget); (2, gadget)] (py "GET")
     = Inventory.search_by_category [(1, widget); (2, gadget)] (py "get").
Proof.
  apply (proj2 (proj2 (search_ignores_case [(1, widget); (2, gadget)]
                         (py "GET") (py "get")))).
  reflexivity.
Defined.

(** ** Quantities *)



(** X6.  Whatever [add_product] and [remove_product] calls are made on
    a new inventory, in whatever order, each key of the dictionary
    occurs once and is the id of the product it leads to. *)
Theorem inventory_wf_from_empty (cs : list call) :
  inventory_wf (apply_calls Inventory.empty cs).
Proof.
  apply inventory_wf_calls. split; [constructor | constructor].
Qed.

(** ** What a turn of the menu changes *)

Lemma menu_eta (m : Menu.t) :
  {| Menu.inventory := Menu.inventory m; Menu.logger := Menu.logger m |} = m.
Proof. now destruct m. Qed.

Lemma changes_ret {A} (m0 : Menu.t) (a : A) : changes_from m0 (ret a).
Proof. intros w. simpl. constructor. Qed.

Lemma changes_io {A} (m0 : Menu.t) (m : IO A) : changes_from m0 (Menu.io m).
Proof.
  intros w. unfold Menu.io. cbn [snd fst].
  destruct (m w) as [[a|e] w']; cbn [fst]; [constructor | reflexivity].
Qed.

Lemma changes_io_bind {A B} (m0 : Menu.t) (m : IO A) (k : A -> Menu.M B) :
  (forall a, changes_from m0 (k a)) -> changes_from m0 (bind (Menu.io m) k).
Proof.
  intros Hk w. unfold bind, Menu.io. cbn [snd fst].
  destruct (m w) as [[a|e] w']; [apply Hk | reflexivity].
Qed.

Lemma changes_printing_bind {A B} (m0 : Menu.t) (r : A * list pystr)
    (k : A -> Menu.M B) :
  changes_from m0 (k (fst r)) ->
  changes_from m0 (bind (Menu.io (printing r)) k).
Proof.
  intros Hk w. unfold bind, Menu.io. cbn [snd fst].
  rewrite printing_run. apply Hk.
Qed.

Lemma changes_self_inventory {B} (m0 : Menu.t)
    (k : Inventory.t -> Menu.M B) :
  changes_from m0 (k (Menu.inventory m0)) ->
  changes_from m0 (bind Menu.self_inventory k).
Proof. intros Hk w. unfold bind, Menu.self_inventory. cbn [fst]. apply Hk. Qed.

Lemma changes_self_logger {B} (m0 : Menu.t)
    (k : TransactionLogger.t -> Menu.M B) :
  changes_from m0 (k (Menu.logger m0)) ->
  changes_from m0 (bind Menu.self_logger k).
Proof. intros Hk w. unfold bind, Menu.self_logger. cbn [fst]. apply Hk. Qed.

Lemma changes_set_inventory (m0 : Menu.t) (inv : Inventory.t) :
  menu_change m0 {| Menu.inventory := inv; Menu.logger := Menu.logger m0 |} ->
  changes_from m0 (Menu.set_inventory inv).
Proof. intros H w. exact H. Qed.

Lemma changes_set_inventory_print (m0 : Menu.t) (inv : Inventory.t)
    (line : pystr) :
  menu_change m0 {| Menu.inventory := inv; Menu.logger := Menu.logger m0 |} ->
  changes_from m0
    (bind (Menu.set_inventory inv) (fun _ => Menu.io (print line))).
Proof. intros H w. exact H. Qed.

Lemma changes_set_inventory_lines (m0 : Menu.t) (inv : Inventory.t)
    (lines : list pystr) :
  menu_change m0 {| Menu.inventory := inv; Menu.logger := Menu.logger m0 |} ->
  changes_from m0
    (bind (Menu.set_inventory inv) (fun _ => Menu.io (print_lines lines))).
Proof.
  intros H w. unfold bind, Menu.set_inventory, Menu.io. cbn [fst snd].
  rewrite print_lines_run. exact H.
Qed.

Lemma changes_then_ret {A B} (m0 : Menu.t) (h : Menu.M A) (b : B) :
  changes_from m0 h -> changes_from m0 (bind h (fun _ => ret b)).
Proof.
  intros Hh w. unfold bind. specialize (Hh w).
  destruct (h (m0, w)) as [[a|e] s']; exact Hh.
Qed.

Section Changes.
Context {FT : FloatText}.

Lemma load_rows_add_all (rows : list csv.row) (inv inv' : Inventory.t)
    (w w' : World) :
  FileManager.load_rows inv rows w = (Ok inv', w') ->
  exists products, inv' = add_all inv products.
Proof.
  revert inv w. induction rows as [|row rows IH]; intros inv w.
  - simpl. intros [= <- _]. now exists [].
  - cbn [FileManager.load_rows]. unfold bind, of_result.
    destruct (FileManager.make_product row) as [p|e]; [|discriminate].
    rewrite printing_run. intros H.
    destruct (IH _ _ H) as [products ->]. now exists (p :: products).
Qed.

Lemma load_inventory_add_all (name : pystr) (inv : Inventory.t)
    (w w' : World) :
  FileManager.load_inventory name w = (Ok inv, w') ->
  exists products, inv = add_all Inventory.empty products.
Proof.
  unfold FileManager.load_inventory, open_read_lines. unfold bind at 1.
  destruct (files w name) as [content|]; [|discriminate].
  destruct (csv.DictReader _) as [rows e]. unfold bind.
  destruct (FileManager.load_rows Inventory.empty rows w)
    as [[inv0|e0] w0] eqn:Hrows; [|discriminate].
  destruct e as [e|]; [discriminate|]. intros [= <- _].
  exact (load_rows_add_all _ _ _ _ _ Hrows).
Qed.

Lemma changes_load_bind {B} (m0 : Menu.t) (name : pystr)
    (k : Inventory.t -> Menu.M B) :
  (forall products, changes_from m0 (k (add_all Inventory.empty products))) ->
  changes_from m0 (bind (Menu.io (FileManager.load_inventory name)) k).
Proof.
  intros Hk w. unfold bind, Menu.io. cbn [snd fst].
  destruct (FileManager.load_inventory name w) as [[inv|e] w'] eqn:Hload;
    [|reflexivity].
  destruct (load_inventory_add_all _ _ _ _ Hload) as [products ->].
  apply Hk.
Qed.

Ltac changes :=
  repeat first
    [ apply changes_ret
    | apply changes_io
    | apply changes_then_ret
    | apply changes_self_inventory
    | apply changes_self_logger
    | apply changes_printing_bind
    | apply changes_load_bind; intros ?
    | apply changes_io_bind; intros ? ].

Lemma changes_add_product (m0 : Menu.t) : changes_from m0 Menu.add_product.
Proof.
  unfold Menu.add_product. changes. cbv zeta.
  apply changes_set_inventory_lines. constructor.
Qed.

Lemma changes_remove_product (m0 : Menu.t) :
  changes_from m0 Menu.remove_product.
Proof.
  unfold Menu.remove_product. changes.
  apply changes_set_inventory. constructor.
Qed.

Lemma changes_update_quantity (m0 : Menu.t) :
  changes_from m0 Menu.update_quantity.
Proof.
  unfold Menu.update_quantity.
  apply changes_io_bind. intros a. apply changes_io_bind. intros a0.
  apply changes_self_inventory.
  destruct (Inventory.get_product (Menu.inventory m0) a) as [product|] eqn:G;
    [|apply changes_ret].
  intros w. unfold Transaction.new, datetime_now.
  unfold bind, Menu.set_inventory, Menu.self_logger, Menu.io,
    Menu.set_logger, ret.
  cbn [fst snd Menu.logger Menu.inventory]. rewrite print_lines_run.
  cbn [fst]. apply (change_update m0 a a0 (clock w) product G).
Qed.

Lemma changes_load (m0 : Menu.t) : changes_from m0 Menu.load.
Proof.
  unfold Menu.load. changes.
  apply changes_set_inventory_print. constructor.
Qed.

Lemma changes_turn (m0 : Menu.t) : changes_from m0 Menu.turn.
Proof.
  unfold Menu.turn, Menu.display. apply changes_io_bind. intros _.
  apply changes_io_bind. intros choice.
  repeat match goal with
  | |- changes_from _ (if ?c then _ else _) => destruct c
  end;
  first
    [ apply changes_then_ret;
      first [ apply changes_add_product | apply changes_remove_product
            | apply changes_update_quantity | apply changes_load
            | unfold Menu.list_products, Menu.search_by_name,
                Menu.search_by_category, Menu.show_chart, Menu.save,
                Menu.reports; changes ]
    | changes ].
Qed.



Lemma run_turns_changes (fuel : nat) (s : Menu.t * World) :
  rtc menu_change (fst s) (fst (snd (Menu.run_turns fuel s))).
Proof.
  revert s. induction fuel as [|fuel IH]; intros [m0 w]; [constructor|].
  cbn [Menu.run_turns]. unfold bind.
  pose proof (changes_turn m0 w) as H.
  destruct (Menu.turn (m0, w)) as [[left|e] s']; cbn [fst snd] in *.
  - destruct left.
    + now apply rtc_once.
    + eapply rtc_l; [exact H | apply IH].
  - rewrite H. constructor.
Qed.

End Changes.

Lemma keyed_get (inv : Inventory.t) (k : Z) (p : Product.t) :
  Forall (fun item => Product.product_id (snd item) = fst item) inv ->
  dict_get k inv = Some p -> Product.product_id p = k.
Proof.
  induction inv as [|[k0 p0] inv IH]; simpl; [discriminate|].
  intros H. apply Forall_cons in H as [H0 H].
  destruct (k =? k0) eqn:E.
  - apply Z.eqb_eq in E. intros [= <-]. now subst.
  - now apply IH.
Qed.

Lemma inventory_wf_add (inv : Inventory.t) (p : Product.t) :
  inventory_wf inv -> inventory_wf (fst (Inventory.add_product inv p)).
Proof.
  intros [Hnd Hkey]. split; [now apply dict_wf_set|].
  now apply Forall_dict_set.
Qed.

Lemma inventory_wf_add_all (products : list Product.t) (inv : Inventory.t) :
  inventory_wf inv -> inventory_wf (add_all inv products).
Proof.
  revert inv. induction products as [|p ps IH]; intros inv H; [exact H|].
  unfold add_all in *. cbn [fold_left]. apply IH.
  now apply inventory_wf_add.
Qed.

Lemma menu_change_wf (m m' : Menu.t) :
  menu_change m m' ->
  inventory_wf (Menu.inventory m) -> inventory_wf (Menu.inventory m').
Proof.
  intros [|p|id|pid qty date product Hget|products] Hwf; cbn [Menu.inventory].
  - exact Hwf.
  - now apply inventory_wf_add.
  - destruct Hwf. split; [now apply dict_wf_pop | now apply Forall_dict_pop].
  - destruct Hwf as [Hnd Hkey]. split; [now apply dict_wf_set|].
    apply Forall_dict_set; [exact Hkey|]. cbn [fst snd].
    apply (keyed_get _ _ _ Hkey Hget).
  - apply inventory_wf_add_all. split; constructor.
Qed.

Lemma menu_change_log (m m' : Menu.t) :
  menu_change m m' ->
  exists new,
    Menu.logger m' = Menu.logger m ++ new
    /\ Forall kind_by_sign new
    /\ (numbered (Menu.logger m) -> numbered (Menu.logger m')).
Proof.
  intros [|p|id|pid qty date product Hget|products]; cbn [Menu.logger];
    try solve [exists []; rewrite app_nil_r; repeat split; auto].
  exists [new_transaction (Menu.logger m) pid qty date].
  split; [reflexivity|]. split.
  - constructor; [apply kind_by_sign_new | constructor].
  - intros Hnum i t. unfold TransactionLogger.log.
    destruct (decide (i < length (Menu.logger m))%nat) as [Hlt|Hge].
    + rewrite lookup_app_l by exact Hlt. apply Hnum.
    + rewrite lookup_app_r by lia.
      destruct (i - length (Menu.logger m))%nat as [|j] eqn:E;
        [|destruct j; discriminate].
      intros [= <-]. cbn [new_transaction Transaction.transaction_id].
      f_equal. lia.
Qed.

Lemma rtc_menu_change_wf (m m' : Menu.t) :
  rtc menu_change m m' ->
  inventory_wf (Menu.inventory m) -> inventory_wf (Menu.inventory m').
Proof.
  induction 1 as [|m m1 m2 H _ IH]; [auto|].
  intros Hwf. apply IH. exact (menu_change_wf _ _ H Hwf).
Qed.

Lemma rtc_menu_change_log (m m' : Menu.t) :
  rtc menu_change m m' ->
  exists new,
    Menu.logger m' = Menu.logger m ++ new
    /\ Forall kind_by_sign new
    /\ (numbered (Menu.logger m) -> numbered (Menu.logger m')).
Proof.
  induction 1 as [m|m m1 m2 H _ IH].
  - exists []. rewrite app_nil_r. repeat split; auto.
  - destruct (menu_change_log _ _ H) as (new1 & E1 & K1 & N1).
    destruct IH as (new2 & E2 & K2 & N2).
    exists (new1 ++ new2).
    split; [now rewrite E2, E1, <- app_assoc|]. split.
    + apply Forall_app. split; assumption.
    + intros Hn. apply N2, N1, Hn.
Qed.

(** X8.  From a menu whose inventory is well formed (each key once, and
    the id of its product), [run] ends with an inventory that is, however
    it ends and whatever was typed: adds, removes, quantity updates and
    loads keep it so. *)
Theorem run_keeps_inventory_wf {FT : FloatText} (s : Menu.t * World) :
  inventory_wf (Menu.inventory (fst s)) ->
  inventory_wf (Menu.inventory (fst (snd (Menu.run s)))).
Proof.
  intros Hwf. eapply rtc_menu_change_wf; [|exact Hwf].
  unfold Menu.run. apply run_turns_changes.
Qed.

Lemma run_keeps_inventory_wf_witness :
  inventory_wf
    (Menu.inventory
       (fst (snd (Menu.run (FT := sample_float_text)
                    (widget_menu,
                     typing [py "6"; py "1"; py "-3"; py "2"; py "1"] []))))).
Proof.
  apply (run_keeps_inventory_wf (FT := sample_float_text)
           (widget_menu, typing [py "6"; py "1"; py "-3"; py "2"; py "1"] [])).
  split; repeat constructor. intros H. inversion H.
Defined.

(** X9.  The log only grows, at its end: what [run] leaves is the log it
    began with followed by the transactions of its quantity updates.
    Each of these has type IN for a positive quantity and OUT
    otherwise, and if the log was numbered 1, 2, 3, ... it still is. *)
Theorem run_appends_to_log {FT : FloatText} (s : Menu.t * World) :
  exists new,
    Menu.logger (fst (snd (Menu.run s))) = Menu.logger (fst s) ++ new
    /\ Forall kind_by_sign new
    /\ (numbered (Menu.logger (fst s)) ->
        numbered (Menu.logger (fst (snd (Menu.run s))))).
Proof.
  apply rtc_menu_change_log. unfold Menu.run. apply run_turns_changes.
Qed.

(** ** The loop and its turns *)

Section Loop.
Context {FT : FloatText}.



Lemma turn_choice (m : Menu.t) (w : World) (choice : pystr)
    (rest : list pystr) :
  stdin w = choice :: rest ->
  Menu.turn (m, w)
  = (if pystr_eqb choice (py "1") then bind Menu.add_product (fun _ => ret false)
     else if pystr_eqb choice (py "2") then
       bind Menu.remove_product (fun _ => ret false)
     else if pystr_eqb choice (py "3") then
       bind Menu.list_products (fun _ => ret false)
     else if pystr_eqb choice (py "4") then
       bind Menu.search_by_name (fun _ => ret false)
     else if pystr_eqb choice (py "5") then
       bind Menu.search_by_category (fun _ => ret false)
     else if pystr_eqb choice (py "6") then
       bind Menu.update_quantity (fun _ => ret false)
     else if pystr_eqb choice (py "7") then
       bind Menu.show_chart (fun _ => ret false)
     else if pystr_eqb choice (py "8") then bind Menu.save (fun _ => ret false)
     else if pystr_eqb choice (py "9") then bind Menu.load (fun _ => ret false)
     else if pystr_eqb choice (py "10") then
       bind Menu.reports (fun _ => ret false)
     else if pystr_eqb choice (py "0") then
       bind (Menu.io (print (py "Exiting system."))) (fun _ => ret true)
     else bind (Menu.io (print (py "Invalid choice."))) (fun _ => ret false))
      (m, shown w turn_prompts rest).
Proof.
  intros Hin. unfold Menu.turn, Menu.display.
  unfold bind at 1. unfold Menu.io at 1. cbn [fst snd].
  unfold print at 1. rewrite emit_run.
  unfold bind at 1. unfold Menu.io at 1. cbn [fst snd].
  rewrite (input_run _ choice rest) by exact Hin.
  rewrite shown_shown. reflexivity.
Qed.

Lemma pystr_eqb_neq (a b : pystr) : a <> b -> pystr_eqb a b = false.
Proof. intros H. unfold pystr_eqb. now apply bool_decide_eq_false_2. Qed.

(** X11.  A choice that is none of the eleven the menu knows, compared
    as it was typed (a space around it or a zero before it makes it
    another), prints Invalid choice, changes nothing and lets the loop
    go on; choice 0 prints Exiting system, changes nothing and ends the
    loop, the lines after it left unread. *)
Theorem turn_unknown_or_exit (m : Menu.t) (w : World) (choice : pystr)
    (rest : list pystr) :
  stdin w = choice :: rest ->
  (~ In choice choices ->
   Menu.turn (m, w)
   = (Ok false,
      (m, shown w (turn_prompts ++ [Print (py "Invalid choice.")]) rest)))
  /\ (choice = py "0" ->
      Menu.turn (m, w)
      = (Ok true,
         (m, shown w (turn_prompts ++ [Print (py "Exiting system.")]) rest))
      /\ Menu.run (m, w)
         = (Ok (Some tt),
            (m, shown w (turn_prompts ++ [Print (py "Exiting system.")])
                  rest))).
Proof.
  intros Hin. split.
  - intros Hno. rewrite (turn_choice m w choice rest Hin).
    unfold choices in Hno. cbn [In] in Hno.
    rewrite !pystr_eqb_neq by (intros ->; tauto).
    unfold bind, Menu.io, print. cbn [fst snd]. rewrite emit_run.
    cbn [ret stdin shown]. now rewrite shown_shown.
  - intros ->.
    assert (Hturn : Menu.turn (m, w)
              = (Ok true,
                 (m, shown w (turn_prompts ++ [Print (py "Exiting system.")])
                       rest))).
    { rewrite (turn_choice m w (py "0") rest Hin).
      change (pystr_eqb (py "0") (py "1")) with false.
      change (pystr_eqb (py "0") (py "2")) with false.
      change (pystr_eqb (py "0") (py "3")) with false.
      change (pystr_eqb (py "0") (py "4")) with false.
      change (pystr_eqb (py "0") (py "5")) with false.
      change (pystr_eqb (py "0") (py "6")) with false.
      change (pystr_eqb (py "0") (py "7")) with false.
      change (pystr_eqb (py "0") (py "8")) with false.
      change (pystr_eqb (py "0") (py "9")) with false.
      change (pystr_eqb (py "0") (py "10")) with false.
      change (pystr_eqb (py "0") (py "0")) with true. cbv iota.
      unfold bind, Menu.io, print. cbn [fst snd]. rewrite emit_run.
      cbn [ret stdin shown]. now rewrite shown_shown. }
    split; [exact Hturn|].
    unfold Menu.run. cbn [Menu.run_turns]. unfold bind. now rewrite Hturn.
Qed.

End Loop.


Lemma turn_unknown_or_exit_witness :
  Menu.turn (FT := sample_float_text)
    (widget_menu, typing [py " 1"; py "0"] [])
  = (Ok false,
     (widget_menu,
      shown (typing [py " 1"; py "0"] [])
        (turn_prompts ++ [Print (py "Invalid choice.")]) [py "0"])).
Proof.
  apply (proj1 (turn_unknown_or_exit (FT := sample_float_text) widget_menu
                  (typing [py " 1"; py "0"] []) (py " 1") [py "0"]
                  eq_refl)).
  vm_compute. intuition discriminate.
Defined.

(** ** Single commands of the menu *)

(** X12.  Choice 6 on a product that is there, the two lines typed
    being integers of at most 4300 characters and the new quantity
    within the digits [str] writes.  The product's quantity becomes the
    old one plus what was typed, below zero if it comes to that, and
    nothing else of the product changes; it keeps its place in the
    inventory and the other products are as they were; one transaction
    goes to the end of the log, numbered one more than the log was long
    and stamped with the clock; after the two prompts the alert, with
    the name and the new quantity, is printed if the new quantity is at
    most the reorder level, and nothing is printed if it is above. *)
Theorem update_quantity_present (m : Menu.t) (w : World) (pidS qtyS : pystr)
    (rest : list pystr) (pid qty : Z) (product : Product.t) :
  stdin w = pidS :: qtyS :: rest ->
  typed_within pidS ->
  typed_within qtyS ->
  int_of_str pidS = Some pid ->
  int_of_str qtyS = Some qty ->
  Inventory.get_product (Menu.inventory m) pid = Some product ->
  within_digits (Product.quantity product + qty) ->
  fst (Menu.update_quantity (m, w)) = Ok tt
  /\ Inventory.get_product
       (Menu.inventory (fst (snd (Menu.update_quantity (m, w))))) pid
     = Some {| Product.product_id := Product.product_id product;
               Product.name := Product.name product;
               Product.category := Product.category product;
               Product.price := Product.price product;
               Product.quantity := Product.quantity product + qty;
               Product.reorder_level := Product.reorder_level product |}
  /\ dict_keys (Menu.inventory (fst (snd (Menu.update_quantity (m, w)))))
     = dict_keys (Menu.inventory m)
  /\ (forall other, other <> pid ->
        Inventory.get_product
          (Menu.inventory (fst (snd (Menu.update_quantity (m, w))))) other
        = Inventory.get_product (Menu.inventory m) other)
  /\ Menu.logger (fst (snd (Menu.update_quantity (m, w))))
     = Menu.logger m ++ [new_transaction (Menu.logger m) pid qty (clock w)]
  /\ snd (snd (Menu.update_quantity (m, w)))
     = shown w
         (update_prompts
          ++ (if Product.quantity product + qty
                 <=? Product.reorder_level product
              then [Print (alert_line (Product.name product)
                             (Product.quantity product + qty))]
              else []))
         rest.
Proof.
  intros Hin _ _ Hpid Hqty Hget _.
  rewrite (update_quantity_run _ _ _ _ _ _ _ Hin Hpid Hqty), Hget.
  cbn [fst snd Menu.inventory Menu.logger]. repeat split.
  - apply dict_get_set_eq.
  - eapply dict_keys_set_present, Hget.
  - intros other Hne. apply dict_get_set_ne. congruence.
  - unfold Inventory.check_low_stock, Product.is_low_stock, alert_line.
    cbn [Product.update_quantity Product.quantity Product.reorder_level
         Product.name].
    now destruct (Product.quantity product + qty
                  <=? Product.reorder_level product).
Qed.

Lemma update_quantity_present_witness :
  Inventory.get_product
    (Menu.inventory
       (fst (snd (Menu.update_quantity
                    (widget_menu, typing [py "1"; py "-250"] [])))))
    1
  = Some {| Product.product_id := 1;
            Product.name := py "Widget";
            Product.category := py "Hardware";
            Product.price := two_and_a_half;
            Product.quantity := -150;
            Product.reorder_level := 10 |}
  /\ snd (snd (Menu.update_quantity
                 (widget_menu, typing [py "1"; py "-250"] [])))
     = shown (typing [py "1"; py "-250"] [])
         (update_prompts
          ++ [Print (py "⚠️ LOW STOCK ALERT: Widget (-150 left)")])
         [].
Proof.
  assert (Hlen : typed_within (py "1") /\ typed_within (py "-250")).
  { unfold typed_within. cbn. lia. }
  assert (Hdigits : within_digits (Product.quantity widget + -250)).
  { unfold within_digits. apply Z.ltb_lt. vm_compute. reflexivity. }
  pose proof (update_quantity_present widget_menu
                (typing [py "1"; py "-250"] []) (py "1") (py "-250") []
                1 (-250) widget eq_refl (proj1 Hlen) (proj2 Hlen)
                eq_refl eq_refl eq_refl Hdigits)
    as (_ & H2 & _ & _ & _ & H6).
  split; [exact H2 | exact H6].
Defined.

Lemma input_float_run {FT : FloatText} (prompt l : pystr)
    (rest : list pystr) (w : World) :
  stdin w = l :: rest ->
  Menu.input_float prompt w
  = match float_of_str l with
    | Some x => (Ok x, shown w [Prompt prompt] rest)
    | None => (Raise ValueError, shown w [Prompt prompt] rest)
    end.
Proof.
  intros H. unfold Menu.input_float, bind. rewrite (input_run _ _ _ _ H).
  now destruct (float_of_str l).
Qed.

Section Commands.
Context {FT : FloatText}.

(** What choice 1 does with the texts typed for the id, the price, the
    quantity and the reorder level, as far as they are numbers. *)
Lemma add_product_run (m : Menu.t) (w : World)
    (idS name category priceS qtyS levelS : pystr) (rest : list pystr) :
  stdin w = idS :: name :: category :: priceS :: qtyS :: levelS :: rest ->
  Menu.add_product (m, w)
  = match int_of_str idS with
    | None =>
        (Raise ValueError,
         (m, shown w (take 1 add_prompts)
               (name :: category :: priceS :: qtyS :: levelS :: rest)))
    | Some id =>
        match float_of_str priceS with
        | None =>
            (Raise ValueError,
             (m, shown w (take 4 add_prompts) (qtyS :: levelS :: rest)))
        | Some price =>
            match int_of_str qtyS with
            | None =>
                (Raise ValueError,
                 (m, shown w (take 5 add_prompts) (levelS :: rest)))
            | Some qty =>
                match int_of_str levelS with
                | None => (Raise ValueError, (m, shown w add_prompts rest))
                | Some level =>
                    let p := {| Product.product_id := id;
                                Product.name := name;
                                Product.category := category;
                                Product.price := price;
                                Product.quantity := qty;
                                Product.reorder_level := level |} in
                    (Ok tt,
                     ({| Menu.inventory :=
                           fst (Inventory.add_product (Menu.inventory m) p);
                         Menu.logger := Menu.logger m |},
                      shown w
                        (add_prompts
                         ++ map Print (Inventory.check_low_stock p))
                        rest))
                end
            end
        end
    end.
Proof.
  intros Hin. unfold Menu.add_product.
  unfold bind at 1. unfold Menu.io at 1. cbn [fst snd].
  rewrite (input_int_run _ _ _ _ Hin).
  destruct (int_of_str idS) as [id|]; [|reflexivity].
  unfold bind at 1. unfold Menu.io at 1. cbn [fst snd].
  rewrite (input_run _ name (category :: priceS :: qtyS :: levelS :: rest))
    by reflexivity.
  unfold bind at 1. unfold Menu.io at 1. cbn [fst snd].
  rewrite (input_run _ category (priceS :: qtyS :: levelS :: rest))
    by reflexivity.
  unfold bind at 1. unfold Menu.io at 1. cbn [fst snd].
  rewrite (input_float_run _ priceS (qtyS :: levelS :: rest)) by reflexivity.
  rewrite !shown_shown.
  destruct (float_of_str priceS) as [price|]; [|reflexivity].
  unfold bind at 1. unfold Menu.io at 1. cbn [fst snd].
  rewrite (input_int_run _ qtyS (levelS :: rest)) by reflexivity.
  rewrite !shown_shown.
  destruct (int_of_str qtyS) as [qty|]; [|reflexivity].
  unfold bind at 1. unfold Menu.io at 1. cbn [fst snd].
  rewrite (input_int_run _ levelS rest) by reflexivity.
  rewrite !shown_shown.
  destruct (int_of_str levelS) as [level|]; [|reflexivity].
  unfold bind, Menu.self_inventory, Menu.io, Menu.set_inventory.
  cbn [fst snd Menu.logger Inventory.add_product]. rewrite print_lines_run.
  now rewrite shown_shown.
Qed.

(** X13.  Choice 1 with four numbers typed where numbers are asked.
    The product typed is in the inventory afterwards, at its id, whether
    the id was free or taken: a product that was there is replaced and
    nothing says so, the only line printed being the alert of the new
    product if it is low on stock.  The other ids are untouched and the
    log is as it was. *)
Theorem add_product_typed (m : Menu.t) (w : World)
    (idS name category priceS qtyS levelS : pystr) (rest : list pystr)
    (id qty level : Z) (price : pyfloat) :
  stdin w = idS :: name :: category :: priceS :: qtyS :: levelS :: rest ->
  int_of_str idS = Some id ->
  float_of_str priceS = Some price ->
  int_of_str qtyS = Some qty ->
  int_of_str levelS = Some level ->
  exists m',
    Menu.add_product (m, w)
    = (Ok tt,
       (m',
        shown w
          (add_prompts
           ++ map Print
                (Inventory.check_low_stock
                   {| Product.product_id := id;
                      Product.name := name;
                      Product.category := category;
                      Product.price := price;
                      Product.quantity := qty;
                      Product.reorder_level := level |}))
          rest))
    /\ Inventory.get_product (Menu.inventory m') id
       = Some {| Product.product_id := id;
                 Product.name := name;
                 Product.category := category;
                 Product.price := price;
                 Product.quantity := qty;
                 Product.reorder_level := level |}
    /\ (forall other, other <> id ->
          Inventory.get_product (Menu.inventory m') other
          = Inventory.get_product (Menu.inventory m) other)
    /\ Menu.logger m' = Menu.logger m.
Proof.
  intros Hin Hid Hprice Hqty Hlevel.
  rewrite (add_product_run m w _ _ _ _ _ _ _ Hin), Hid, Hprice, Hqty, Hlevel.
  eexists. split; [reflexivity|]. cbn [Menu.inventory Menu.logger].
  unfold Inventory.add_product, Inventory.get_product. cbn [fst].
  repeat split.
  - apply dict_get_set_eq.
  - intros other Hne. apply dict_get_set_ne. cbn. congruence.
Qed.

(** X14.  Choice 1 turns each number as soon as it is typed.  A text
    that is no number where the id, the price, the quantity or the
    reorder level is asked raises [ValueError] at that prompt: the
    prompts after it are not shown, the lines after it are not read,
    and the menu is as it was. *)
Theorem add_product_bad_number (m : Menu.t) (w : World)
    (idS name category priceS qtyS levelS : pystr) (rest : list pystr) :
  stdin w = idS :: name :: category :: priceS :: qtyS :: levelS :: rest ->
  (int_of_str idS = None ->
   Menu.add_product (m, w)
   = (Raise ValueError,
      (m, shown w (take 1 add_prompts)
            (name :: category :: priceS :: qtyS :: levelS :: rest))))
  /\ (forall id, int_of_str idS = Some id -> float_of_str priceS = None ->
      Menu.add_product (m, w)
      = (Raise ValueError,
         (m, shown w (take 4 add_prompts) (qtyS :: levelS :: rest))))
  /\ (forall id price,
        int_of_str idS = Some id -> float_of_str priceS = Some price ->
        int_of_str qtyS = None ->
        Menu.add_product (m, w)
        = (Raise ValueError,
           (m, shown w (take 5 add_prompts) (levelS :: rest))))
  /\ (forall id price qty,
        int_of_str idS = Some id -> float_of_str priceS = Some price ->
        int_of_str qtyS = Some qty -> int_of_str levelS = None ->
        Menu.add_product (m, w)
        = (Raise ValueError, (m, shown w add_prompts rest))).
Proof.
  intros Hin. rewrite (add_product_run m w _ _ _ _ _ _ _ Hin).
  repeat split; intros; repeat match goal with H : _ = _ |- _ => rewrite H end;
    reflexivity.
Qed.

End Commands.

Lemma add_product_typed_witness :
  exists m',
    Menu.add_product (FT := sample_float_text)
      (widget_menu,
       typing [py "1"; py "Gizmo"; py "Toys"; py "10.0"; py "3"; py "5"] [])
    = (Ok tt,
       (m',
        shown
          (typing [py "1"; py "Gizmo"; py "Toys"; py "10.0"; py "3"; py "5"]
             [])
          (add_prompts
           ++ map Print
                (Inventory.check_low_stock
                   {| Product.product_id := 1;
                      Product.name := py "Gizmo";
                      Product.category := py "Toys";
                      Product.price := ten;
                      Product.quantity := 3;
                      Product.reorder_level := 5 |}))
          []))
    /\ Inventory.get_product (Menu.inventory m') 1
       = Some {| Product.product_id := 1;
                 Product.name := py "Gizmo";
                 Product.category := py "Toys";
                 Product.price := ten;
                 Product.quantity := 3;
                 Product.reorder_level := 5 |}
    /\ (forall other, other <> 1 ->
          Inventory.get_product (Menu.inventory m') other
          = Inventory.get_product (Menu.inventory widget_menu) other)
    /\ Menu.logger m' = Menu.logger widget_menu.
Proof.
  apply (add_product_typed (FT := sample_float_text) widget_menu
           (typing [py "1"; py "Gizmo"; py "Toys"; py "10.0"; py "3"; py "5"]
              [])
           (py "1") (py "Gizmo") (py "Toys") (py "10.0") (py "3") (py "5")
           [] 1 3 5 ten); reflexivity.
Defined.

Lemma add_product_bad_number_witness :
  Menu.add_product (FT := sample_float_text)
    (widget_menu,
     typing [py "7"; py "Gizmo"; py "Toys"; py "ten"; py "3"; py "5"] [])
  = (Raise ValueError,
     (widget_menu,
      shown
        (typing [py "7"; py "Gizmo"; py "Toys"; py "ten"; py "3"; py "5"] [])
        (take 4 add_prompts) [py "3"; py "5"])).
Proof.
  apply (proj1 (proj2 (add_product_bad_number (FT := sample_float_text)
                         widget_menu
                         (typing [py "7"; py "Gizmo"; py "Toys"; py "ten";
                                  py "3"; py "5"] [])
                         (py "7") (py "Gizmo") (py "Toys") (py "ten")
                         (py "3") (py "5") [] eq_refl)) 7);
    reflexivity.
Defined.

(** ** Files *)

Lemma nl_inventory_no_cr (inv : Inventory.t) :
  Forall has_no_cr (dict_values inv) -> nl_inventory inv = inv.
Proof.
  unfold nl_inventory, dict_values.
  induction inv as [|[k p] inv IH]; intros H; [reflexivity|].
  cbn [map fst snd] in *. apply Forall_cons in H as [Hp H].
  now rewrite (nl_product_no_cr p Hp), IH.
Qed.

Lemma alerts_alert_lines (products : list Product.t) :
  alerts products = alert_lines products.
Proof.
  unfold alerts, alert_lines.
  induction products as [|p products IH]; [reflexivity|].
  cbn [map concat List.filter]. rewrite IH.
  unfold Inventory.check_low_stock, Product.is_low_stock, alert_line.
  now destruct (Product.quantity p <=? Product.reorder_level p).
Qed.

Lemma dict_get_nl_inventory (inv : Inventory.t) (id : Z) :
  dict_get id (nl_inventory inv) = nl_product <$> dict_get id inv.
Proof.
  unfold nl_inventory. induction inv as [|[k p] inv IH]; [reflexivity|].
  cbn [map fst snd dict_get]. destruct (id =? k); [reflexivity | exact IH].
Qed.

Section Files.
Context {FT : FloatText}.

(** X15.  A file that is not there: [load_inventory] raises
    [FileNotFoundError] with nothing printed and nothing changed, and
    choice 9 ends with that exception after its prompt, the menu as it
    was. *)
Theorem load_missing_file (m : Menu.t) (w : World) (filename : pystr)
    (rest : list pystr) :
  files w filename = None ->
  FileManager.load_inventory filename w = (Raise FileNotFoundError, w)
  /\ (stdin w = filename :: rest ->
      Menu.load (m, w)
      = (Raise FileNotFoundError, (m, shown w filename_prompt rest))).
Proof.
  intros Hfile. split.
  - unfold FileManager.load_inventory, open_read_lines. unfold bind.
    now rewrite Hfile.
  - intros Hin. unfold Menu.load.
    unfold bind at 1. unfold Menu.io at 1. cbn [fst snd].
    rewrite (input_run _ _ _ _ Hin).
    unfold bind at 1. unfold Menu.io at 1. cbn [fst snd].
    unfold FileManager.load_inventory, open_read_lines. unfold bind at 1.
    cbn [files shown]. now rewrite Hfile.
Qed.

(** X16.  The round trip that holds.  Take an inventory that is well
    formed, whose prices the float conversions give back, whose names
    and categories hold no carriage return (commas, quotes and line
    feeds are fine), and whose products fit a file: integers within the
    digits [str] writes, texts within the field size of the csv reader.
    If [save_inventory] wrote the file, [load_inventory] of that file
    returns the inventory itself, the products in their order, and
    prints the alert of each of its products whose quantity is at most
    its reorder level, in that order, and nothing else. *)
Theorem save_load_round_trip (inv : Inventory.t) (filename : pystr)
    (w : World) :
  fst (FileManager.save_inventory inv filename w) = Ok tt ->
  inventory_wf inv ->
  Forall (fun p => float_text_ok (Product.price p)) (dict_values inv) ->
  Forall has_no_cr (dict_values inv) ->
  Forall fits_a_file (dict_values inv) ->
  FileManager.load_inventory filename
    (snd (FileManager.save_inventory inv filename w))
  = (Ok inv,
     shown (snd (FileManager.save_inventory inv filename w))
       (map Print (alert_lines (dict_values inv))) (stdin w)).
Proof.
  intros _ Hwf Hok Hcr _. rewrite load_after_save by assumption.
  now rewrite (nl_inventory_no_cr inv Hcr), alerts_alert_lines.
Qed.

(** X17.  What comes back in general.  Take an inventory that is well
    formed, whose prices the float conversions give back and whose
    products fit a file.  If [save_inventory] wrote the file, the
    inventory loaded from it has the same ids in the same order; under
    each id is the product that was saved, with every carriage return
    of its name and category, alone or before a line feed, turned into
    one line feed.  A product without a carriage return comes back as
    it was, whatever the others hold. *)
Theorem load_after_save_lookup (inv : Inventory.t) (filename : pystr)
    (w : World) :
  fst (FileManager.save_inventory inv filename w) = Ok tt ->
  inventory_wf inv ->
  Forall (fun p => float_text_ok (Product.price p)) (dict_values inv) ->
  Forall fits_a_file (dict_values inv) ->
  exists loaded w',
    FileManager.load_inventory filename
      (snd (FileManager.save_inventory inv filename w))
    = (Ok loaded, w')
    /\ dict_keys loaded = dict_keys inv
    /\ (forall id, Inventory.get_product loaded id
                   = nl_product <$> Inventory.get_product inv id)
    /\ (forall id p, Inventory.get_product inv id = Some p -> has_no_cr p ->
                     Inventory.get_product loaded id = Some p).
Proof.
  intros _ Hwf Hok _. eexists _, _. split; [now apply load_after_save|].
  split; [|split].
  - unfold nl_inventory, dict_keys. rewrite map_map. reflexivity.
  - intros id. apply dict_get_nl_inventory.
  - intros id p Hget Hcr. unfold Inventory.get_product in *.
    rewrite dict_get_nl_inventory, Hget. cbn.
    now rewrite (nl_product_no_cr p Hcr).
Qed.

(** X18.  A file without data rows.  An empty file, and a file that
    holds one row and no more, load as the empty inventory with nothing
    printed: the row is taken for the header and its column names are
    not looked at. *)
Theorem load_no_data_rows (filename content : pystr) (w : World)
    (fields : list pystr) :
  files w filename = Some content ->
  content = [] \/ content = csv.writerow fields ->
  FileManager.load_inventory filename w = (Ok Inventory.empty, w).
Proof.
  intros Hfile Hcontent.
  unfold FileManager.load_inventory, open_read_lines; unfold bind at 1.
  rewrite Hfile. destruct Hcontent as [->| ->]; [reflexivity|].
  unfold csv.DictReader.
  replace (csv.writerow fields)
    with (concat (map csv.writerow [fields]))
    by (simpl; apply app_nil_r).
  rewrite reader_writerow. reflexivity.
Qed.

Lemma lookup_last_absent (key : pystr) (d : list (pystr * option pystr)) :
  ~ In key (map fst d) -> csv.lookup_last key d = None.
Proof.
  induction d as [|[k v] d IH]; [reflexivity|]. cbn [map fst In].
  intros H. cbn [csv.lookup_last]. rewrite IH by tauto.
  rewrite pystr_eqb_neq; [reflexivity|]. intros ->. tauto.
Qed.

Lemma zip_row_keys (fieldnames record : list pystr) :
  map fst (csv.zip_row fieldnames record) = fieldnames.
Proof.
  revert record. induction fieldnames as [|k ks IH]; intros record;
    [reflexivity|].
  destruct record as [|v vs]; cbn [csv.zip_row map fst]; now rewrite IH.
Qed.

Lemma getitem_missing (fieldnames record : list pystr) (column : pystr) :
  ~ In column fieldnames ->
  csv.getitem (csv.make_row fieldnames record) column = Raise KeyError.
Proof.
  intros H. unfold csv.getitem, csv.make_row. cbn [csv.named].
  rewrite lookup_last_absent; [reflexivity|]. now rewrite zip_row_keys.
Qed.

Lemma make_product_missing (row : csv.row) (column : pystr) :
  In column FileManager.header ->
  csv.getitem row column = Raise KeyError ->
  exists ex,
    FileManager.make_product row = Raise ex
    /\ (column = py "product_id" -> ex = KeyError).
Proof.
  intros Hcol Hmiss. unfold FileManager.make_product.
  destruct (csv.getitem row (py "product_id")) as [v1|e1] eqn:E1.
  2:{ exists e1. split; [reflexivity|]. intros ->. congruence. }
  assert (Hne : column = py "product_id" -> False) by (intros ->; congruence).
  cbn [FileManager.rbind].
  repeat match goal with
  | |- exists ex, FileManager.rbind ?r _ = Raise ex /\ _ =>
      let E := fresh "E" in
      destruct r eqn:E;
        [cbn [FileManager.rbind]
        | eexists; split; [reflexivity | intros ?; tauto]]
  end.
  exfalso. unfold FileManager.header in Hcol. cbn [In] in Hcol.
  destruct Hcol as [<-|[<-|[<-|[<-|[<-|[<-|[]]]]]]];
    rewrite Hmiss in *; discriminate.
Qed.

(** X19.  A file that lacks one of the six columns and has a data row.
    [load_inventory] raises at the first data row, before any product is
    added or any alert printed, whatever the rows hold: it is
    [KeyError] when the column missing is [product_id], which is looked
    up first. *)
Theorem load_missing_column (filename content : pystr) (w : World)
    (fieldnames : list pystr) (records : list (list pystr))
    (e : option exn) (column : pystr) :
  files w filename = Some content ->
  csv.reader (readlines [] (universal_newlines false content))
  = (fieldnames :: records, e) ->
  Exists (fun record => record <> []) records ->
  In column FileManager.header ->
  ~ In column fieldnames ->
  exists ex,
    FileManager.load_inventory filename w = (Raise ex, w)
    /\ (column = py "product_id" -> ex = KeyError).
Proof.
  intros Hfile Hread Hdata Hcol Hmiss.
  unfold FileManager.load_inventory, open_read_lines. unfold bind at 1.
  rewrite Hfile. unfold csv.DictReader. rewrite Hread.
  assert (Hrows : exists record rest,
             List.filter csv.nonblank records = record :: rest).
  { clear Hread. induction records as [|r records IH]; [inversion Hdata|].
    cbn [List.filter]. destruct r as [|f r]; cbn [csv.nonblank]; [|eauto].
    apply IH. apply Exists_cons in Hdata as [H|H]; [congruence | exact H]. }
  destruct Hrows as (record & rest & ->). cbn [map FileManager.load_rows].
  destruct (make_product_missing (csv.make_row fieldnames record) column
              Hcol (getitem_missing _ _ _ Hmiss)) as (ex & Hex & Hkey).
  exists ex. unfold bind, of_result. rewrite Hex. auto.
Qed.

Lemma run_turns_step (fuel : nat) (s : Menu.t * World) :
  Menu.run_turns (S fuel) s
  = match Menu.turn s with
    | (Ok true, s') => (Ok (Some tt), s')
    | (Ok false, s') => Menu.run_turns fuel s'
    | (Raise e, s') => (Raise e, s')
    end.
Proof.
  cbn [Menu.run_turns]. unfold bind.
  destruct (Menu.turn s) as [[[|]|e] s']; reflexivity.
Qed.

Lemma save_run (m : Menu.t) (w : World) :
  Menu.save (m, w)
  = match stdin w with
    | [] => (Raise EOFError, (m, shown w filename_prompt []))
    | filename :: rest =>
        (Ok tt,
         (m,
          shown (snd (FileManager.save_inventory (Menu.inventory m) filename w))
            (filename_prompt ++ [Print (py "Saved successfully.")]) rest))
    end.
Proof.
  unfold Menu.save. unfold bind at 1. unfold Menu.io at 1. cbn [fst snd].
  destruct (stdin w) as [|filename rest] eqn:Hin.
  - now rewrite (input_eof _ _ Hin).
  - rewrite (input_run _ _ _ _ Hin).
    unfold bind, Menu.self_inventory, Menu.io, FileManager.save_inventory,
      open_write, print. cbn [fst snd]. rewrite emit_run.
    unfold shown, filename_prompt. cbn [stdin stdout files clock].
    now rewrite <- app_assoc.
Qed.

Lemma load_run (m : Menu.t) (w w' : World) (filename : pystr)
    (rest : list pystr) (inv : Inventory.t) :
  stdin w = filename :: rest ->
  FileManager.load_inventory filename (shown w filename_prompt rest)
  = (Ok inv, w') ->
  Menu.load (m, w)
  = (Ok tt,
     ({| Menu.inventory := inv; Menu.logger := Menu.logger m |},
      shown w' [Print (py "Loaded successfully.")] (stdin w'))).
Proof.
  intros Hin Hload. unfold Menu.load.
  unfold bind at 1. unfold Menu.io at 1. cbn [fst snd].
  rewrite (input_run _ _ _ _ Hin).
  unfold bind at 1. unfold Menu.io at 1. cbn [fst snd].
  unfold filename_prompt in Hload. rewrite Hload.
  unfold bind, Menu.set_inventory, Menu.io, print. cbn [fst snd].
  now rewrite emit_run.
Qed.

(** X20.  A run that saves, loads the file back and leaves: the lines
    typed are 8, a file name, 9, the same name and 0.  For an inventory
    as in the round trip above and a file that choice 8 could write,
    [run] returns with the menu as it was, inventory and log.  It has
    shown, in this order, the menu and its prompt, the prompt of the
    file name, Saved successfully, the menu and its prompt, the prompt
    of the file name, the alert of each product low on stock, Loaded
    successfully, the menu and its prompt and Exiting system; the lines
    after the 0 are not read. *)
Theorem save_then_load (m : Menu.t) (w : World) (filename : pystr)
    (rest : list pystr) :
  stdin w = py "8" :: filename :: py "9" :: filename :: py "0" :: rest ->
  fst (FileManager.save_inventory (Menu.inventory m) filename w) = Ok tt ->
  inventory_wf (Menu.inventory m) ->
  Forall (fun p => float_text_ok (Product.price p))
    (dict_values (Menu.inventory m)) ->
  Forall has_no_cr (dict_values (Menu.inventory m)) ->
  Forall fits_a_file (dict_values (Menu.inventory m)) ->
  Menu.run (m, w)
  = (Ok (Some tt),
     (m,
      shown (snd (FileManager.save_inventory (Menu.inventory m) filename w))
        (turn_prompts ++ filename_prompt
         ++ [Print (py "Saved successfully.")]
         ++ turn_prompts ++ filename_prompt
         ++ map Print (alert_lines (dict_values (Menu.inventory m)))
         ++ [Print (py "Loaded successfully.")]
         ++ turn_prompts ++ [Print (py "Exiting system.")])
        rest)).
Proof.
  intros Hin _ Hwf Hok Hcr _.
  set (inv := Menu.inventory m) in *.
  set (saved := fun n => if pystr_eqb n filename
                         then Some (FileManager.inventory_text inv)
                         else files w n).
  set (seen1 := stdout w ++ turn_prompts ++ filename_prompt
                ++ [Print (py "Saved successfully.")]).
  set (seen2 := seen1 ++ turn_prompts ++ filename_prompt
                ++ map Print (alert_lines (dict_values inv))
                ++ [Print (py "Loaded successfully.")]).
  assert (E1 : Menu.turn (m, w)
               = (Ok false,
                  (m, {| stdin := py "9" :: filename :: py "0" :: rest;
                         stdout := seen1; files := saved;
                         clock := clock w |}))).
  { rewrite (turn_choice m w _ _ Hin).
    match goal with
    | |- ?choice _ = _ =>
        change choice with (bind Menu.save (fun _ => ret false))
    end.
    unfold bind. rewrite save_run. cbn [stdin shown].
    unfold ret, shown, FileManager.save_inventory, open_write.
    cbn [snd stdin stdout files clock]. subst seen1.
    now rewrite <- !app_assoc. }
  assert (E2 : Menu.turn
                 (m, {| stdin := py "9" :: filename :: py "0" :: rest;
                        stdout := seen1; files := saved; clock := clock w |})
               = (Ok false,
                  (m, {| stdin := py "0" :: rest; stdout := seen2;
                         files := saved; clock := clock w |}))).
  { rewrite (turn_choice m _ (py "9") (filename :: py "0" :: rest))
      by reflexivity.
    match goal with
    | |- ?choice _ = _ =>
        change choice with (bind Menu.load (fun _ => ret false))
    end.
    unfold bind.
    pose proof (load_after_save inv filename
                  {| stdin := py "0" :: rest;
                     stdout := (seen1 ++ turn_prompts) ++ filename_prompt;
                     files := files w; clock := clock w |} Hwf Hok) as Hrt.
    rewrite (nl_inventory_no_cr _ Hcr), alerts_alert_lines in Hrt.
    unfold FileManager.save_inventory, open_write in Hrt.
    cbn [snd stdin stdout files clock] in Hrt. fold saved in Hrt.
    rewrite (load_run m
               (shown {| stdin := py "9" :: filename :: py "0" :: rest;
                         stdout := seen1; files := saved; clock := clock w |}
                  turn_prompts (filename :: py "0" :: rest))
               _ filename (py "0" :: rest) inv eq_refl Hrt).
    unfold ret, shown. cbn [stdin stdout files clock]. subst seen2 inv.
    rewrite menu_eta. now rewrite <- !app_assoc. }
  assert (E3 : Menu.turn
                 (m, {| stdin := py "0" :: rest; stdout := seen2;
                        files := saved; clock := clock w |})
               = (Ok true,
                  (m, {| stdin := rest;
                         stdout := seen2 ++ turn_prompts
                                   ++ [Print (py "Exiting system.")];
                         files := saved; clock := clock w |}))).
  { rewrite (turn_choice m _ (py "0") rest) by reflexivity.
    match goal with
    | |- ?choice _ = _ =>
        change choice
          with (bind (Menu.io (print (py "Exiting system.")))
                  (fun _ => ret true))
    end.
    unfold bind, Menu.io, print. cbn [fst snd]. rewrite emit_run.
    unfold ret, shown. cbn [stdin stdout files clock].
    now rewrite <- app_assoc. }
  unfold Menu.run. cbn [snd]. rewrite Hin. cbn [length].
  rewrite run_turns_step, E1, run_turns_step, E2, run_turns_step, E3.
  unfold shown, FileManager.save_inventory, open_write.
  cbn [snd stdin stdout files clock]. subst seen2 seen1.
  now rewrite <- !app_assoc.
Qed.

End Files.

Lemma sample_inventory_ok :
  inventory_wf [(1, widget); (2, gadget)]
  /\ Forall (fun p => float_text_ok (FT := sample_float_text) (Product.price p))
       (dict_values [(1, widget); (2, gadget)])
  /\ Forall has_no_cr (dict_values [(1, widget); (2, gadget)]).
Proof.
  split; [|split].
  - split; [|repeat constructor].
    unfold dict_wf. cbn. apply NoDup_cons. split; [|apply NoDup_singleton].
    rewrite list_elem_of_singleton. lia.
  - repeat constructor; vm_compute; intuition discriminate.
  - repeat constructor; vm_compute; intuition discriminate.
Qed.

Lemma sample_products_fit :
  Forall (fits_a_file (FT := sample_float_text)) [widget; gadget; cr_widget].
Proof.
  repeat constructor;
    first [ apply Z.ltb_lt; vm_compute; reflexivity
          | apply Z.leb_le; vm_compute; reflexivity ].
Qed.

Lemma load_missing_file_witness :
  FileManager.load_inventory (FT := sample_float_text) (py "stock.csv")
    (typing [py "stock.csv"] [])
  = (Raise FileNotFoundError, typing [py "stock.csv"] [])
  /\ (stdin (typing [py "stock.csv"] []) = [py "stock.csv"] ->
      Menu.load (FT := sample_float_text)
        (widget_menu, typing [py "stock.csv"] [])
      = (Raise FileNotFoundError,
         (widget_menu, shown (typing [py "stock.csv"] []) filename_prompt []))).
Proof.
  apply (load_missing_file (FT := sample_float_text) widget_menu
           (typing [py "stock.csv"] []) (py "stock.csv") []).
  reflexivity.
Defined.

Lemma save_load_round_trip_witness :
  FileManager.load_inventory (FT := sample_float_text) (py "inventory.csv")
    (snd (FileManager.save_inventory (FT := sample_float_text)
            [(1, widget); (2, gadget)] (py "inventory.csv") (typing [] [])))
  = (Ok [(1, widget); (2, gadget)],
     shown (snd (FileManager.save_inventory (FT := sample_float_text)
                   [(1, widget); (2, gadget)] (py "inventory.csv")
                   (typing [] [])))
       [Print (py "⚠️ LOW STOCK ALERT: Gadget (5 left)")] []).
Proof.
  apply (save_load_round_trip (FT := sample_float_text)
           [(1, widget); (2, gadget)] (py "inventory.csv") (typing [] [])).
  - reflexivity.
  - apply sample_inventory_ok.
  - apply sample_inventory_ok.
  - apply sample_inventory_ok.
  - pose proof sample_products_fit as H.
    apply Forall_cons in H as [H1 H]. apply Forall_cons in H as [H2 _].
    cbn [dict_values map snd].
    constructor; [exact H1|]. constructor; [exact H2|]. constructor.
Defined.

Lemma load_after_save_lookup_witness :
  exists loaded w',
    FileManager.load_inventory (FT := sample_float_text) (py "inventory.csv")
      (snd (FileManager.save_inventory (FT := sample_float_text)
              [(1, cr_widget); (2, gadget)] (py "inventory.csv")
              (typing [] [])))
    = (Ok loaded, w')
    /\ dict_keys loaded = dict_keys [(1, cr_widget); (2, gadget)]
    /\ (forall id, Inventory.get_product loaded id
                   = nl_product
                     <$> Inventory.get_product [(1, cr_widget); (2, gadget)] id)
    /\ (forall id p,
          Inventory.get_product [(1, cr_widget); (2, gadget)] id = Some p ->
          has_no_cr p -> Inventory.get_product loaded id = Some p).
Proof.
  apply (load_after_save_lookup (FT := sample_float_text)
           [(1, cr_widget); (2, gadget)] (py "inventory.csv") (typing [] [])).
  - reflexivity.
  - split; [|repeat constructor].
    unfold dict_wf. cbn. apply NoDup_cons. split; [|apply NoDup_singleton].
    rewrite list_elem_of_singleton. lia.
  - repeat constructor; vm_compute; intuition discriminate.
  - pose proof sample_products_fit as H.
    apply Forall_cons in H as [_ H]. apply Forall_cons in H as [H2 H].
    apply Forall_cons in H as [H3 _].
    cbn [dict_values map snd].
    constructor; [exact H3|]. constructor; [exact H2|]. constructor.
Defined.

Lemma load_no_data_rows_witness :
  FileManager.load_inventory (FT := sample_float_text) (py "inventory.csv")
    (typing [] (csv.writerow [py "name"; py "price"]))
  = (Ok Inventory.empty, typing [] (csv.writerow [py "name"; py "price"])).
Proof.
  apply (load_no_data_rows (FT := sample_float_text) (py "inventory.csv")
           (csv.writerow [py "name"; py "price"])
           (typing [] (csv.writerow [py "name"; py "price"]))
           [py "name"; py "price"]).
  - reflexivity.
  - right. reflexivity.
Defined.

Lemma load_missing_column_witness :
  exists ex,
    FileManager.load_inventory (FT := sample_float_text) (py "inventory.csv")
      (typing [] no_id_csv)
    = (Raise ex, typing [] no_id_csv)
    /\ (py "product_id" = py "product_id" -> ex = KeyError).
Proof.
  apply (load_missing_column (FT := sample_float_text) (py "inventory.csv")
           no_id_csv (typing [] no_id_csv)
           [py "name"; py "category"; py "price"; py "quantity";
            py "reorder_level"]
           [[py "Widget"; py "Hardware"; py "2.5"; py "100"; py "10"]]
           None (py "product_id")).
  - reflexivity.
  - vm_compute. reflexivity.
  - apply Exists_cons_hd. discriminate.
  - left. reflexivity.
  - vm_compute. intuition discriminate.
Defined.

Lemma save_then_load_witness :
  Menu.run (FT := sample_float_text)
    ({| Menu.inventory := [(1, widget); (2, gadget)]; Menu.logger := [] |},
     typing [py "8"; py "stock.csv"; py "9"; py "stock.csv"; py "0"] [])
  = (Ok (Some tt),
     ({| Menu.inventory := [(1, widget); (2, gadget)]; Menu.logger := [] |},
      shown (snd (FileManager.save_inventory (FT := sample_float_text)
                    [(1, widget); (2, gadget)] (py "stock.csv")
                    (typing [py "8"; py "stock.csv"; py "9"; py "stock.csv";
                             py "0"] [])))
        (turn_prompts ++ filename_prompt
         ++ [Print (py "Saved successfully.")]
         ++ turn_prompts ++ filename_prompt
         ++ [Print (py "⚠️ LOW STOCK ALERT: Gadget (5 left)")]
         ++ [Print (py "Loaded successfully.")]
         ++ turn_prompts ++ [Print (py "Exiting system.")])
        [])).
Proof.
  apply (save_then_load (FT := sample_float_text)
           {| Menu.inventory := [(1, widget); (2, gadget)];
              Menu.logger := [] |}
           (typing [py "8"; py "stock.csv"; py "9"; py "stock.csv"; py "0"] [])
           (py "stock.csv") []).
  - reflexivity.
  - reflexivity.
  - apply sample_inventory_ok.
  - apply sample_inventory_ok.
  - apply sample_inventory_ok.
  - pose proof sample_products_fit as H.
    apply Forall_cons in H as [H1 H]. apply Forall_cons in H as [H2 _].
    cbn [dict_values map snd Menu.inventory].
    constructor; [exact H1|]. constructor; [exact H2|]. constructor.
Defined.

(** ** Reports *)

Lemma units_sold_app (l1 l2 : list Transaction.t) (pid : Z) :
  units_sold_spec (l1 ++ l2) pid
  = units_sold_spec l1 pid + units_sold_spec l2 pid.
Proof.
  induction l1 as [|t l1 IH]; cbn [app units_sold_spec]; [lia|].
  rewrite IH. lia.
Qed.

Lemma units_sold_nonneg (l : list Transaction.t) (pid : Z) :
  0 <= units_sold_spec l pid.
Proof.
  induction l as [|t l IH]; cbn [units_sold_spec]; [lia|].
  destruct (_ && _); lia.
Qed.

(** X21.  What choice 6 does to the turnover report.  The transaction
    it logs for a quantity that is zero or negative adds the quantity
    taken out to the units sold of its product and to no other; the
    transaction for a positive quantity changes no number of the
    report.  The units sold are never negative. *)
Theorem turnover_after_update (log : TransactionLogger.t)
    (pid qty date id : Z) :
  default 0 (StatisticalReport.turnover_of ∅
               (TransactionLogger.log log (new_transaction log pid qty date))
             !! id)
  = default 0 (StatisticalReport.turnover_of ∅ log !! id)
    + (if (id =? pid) && (qty <=? 0) then - qty else 0)
  /\ 0 <= default 0 (StatisticalReport.turnover_of ∅ log !! id).
Proof.
  rewrite !turnover_of_lookup, lookup_empty. cbn [default].
  split; [|pose proof (units_sold_nonneg log id); lia].
  unfold TransactionLogger.log. rewrite units_sold_app.
  cbn [units_sold_spec new_transaction Transaction.transaction_type
       Transaction.product_id Transaction.quantity].
  rewrite (Z.eqb_sym id pid).
  destruct (Z.ltb_spec 0 qty) as [Hpos|Hneg].
  - replace (qty <=? 0) with false by (symmetry; apply Z.leb_gt; lia).
    rewrite andb_false_r.
    replace (pystr_eqb (py "IN") (py "OUT")) with false by reflexivity.
    cbn [andb]. lia.
  - replace (qty <=? 0) with true by (symmetry; apply Z.leb_le; lia).
    rewrite andb_true_r.
    replace (pystr_eqb (py "OUT") (py "OUT")) with true by reflexivity.
    cbn [andb]. destruct (pid =? id); lia.
Qed.

Lemma float_of_int_raise (n : Z) (e : exn) :
  float_of_int n = Raise e -> e = OverflowError.
Proof.
  unfold float_of_int. destruct (binary_normalize 53 1024 n 0 false);
    congruence.
Qed.

Lemma sum_values_float (products : list Product.t) (y : pyfloat) :
  Forall (fun p => exists q, float_of_int (Product.quantity p) = Ok q)
    products ->
  exists x,
    StatisticalReport.sum_values (StatisticalReport.Float y) products
    = Ok (StatisticalReport.Float x).
Proof.
  revert y. induction products as [|p products IH]; intros y H.
  - eexists. reflexivity.
  - apply Forall_cons in H as [[q Hq] H].
    cbn [StatisticalReport.sum_values]. unfold StatisticalReport.value.
    rewrite Hq. cbn [StatisticalReport.add_float]. now apply IH.
Qed.

Lemma sum_values_overflow (products : list Product.t) (y : pyfloat) :
  Exists (fun p => float_of_int (Product.quantity p) = Raise OverflowError)
    products ->
  StatisticalReport.sum_values (StatisticalReport.Float y) products
  = Raise OverflowError.
Proof.
  revert y. induction products as [|p products IH]; intros y H;
    [inversion H|].
  cbn [StatisticalReport.sum_values]. unfold StatisticalReport.value.
  destruct (float_of_int (Product.quantity p)) as [q|e] eqn:Hq.
  - cbn [StatisticalReport.add_float]. apply IH.
    apply Exists_cons in H as [H|H]; [congruence | exact H].
  - now rewrite (float_of_int_raise _ _ Hq).
Qed.

Lemma sum_values_start (products : list Product.t) :
  StatisticalReport.sum_values (StatisticalReport.Int 0) products
  = match products with
    | [] => Ok (StatisticalReport.Int 0)
    | _ => StatisticalReport.sum_values
             (StatisticalReport.Float (binary_normalize 53 1024 0 0 false))
             products
    end.
Proof.
  destruct products as [|p products]; [reflexivity|].
  cbn [StatisticalReport.sum_values].
  destruct (StatisticalReport.value p); reflexivity.
Qed.

Section Reports.
Context {FT : FloatText}.

(** X22.  Choice 10 when every quantity of the inventory is an integer
    that [float] takes.  The total is computed, and the menu shows the
    banner, the total, the banner and then the turnover report, the
    menu as it was.  The total is the integer 0, shown without a
    decimal point, for the empty inventory, and a float for any
    other. *)
Theorem reports_shown (m : Menu.t) (w : World) :
  Forall (fun p => exists q, float_of_int (Product.quantity p) = Ok q)
    (dict_values (Menu.inventory m)) ->
  let report := {| StatisticalReport.inventory := Menu.inventory m;
                   StatisticalReport.logger := Menu.logger m |} in
  exists total,
    StatisticalReport.total_inventory_value report w
    = (Ok total, shown w (total_lines total) (stdin w))
    /\ Menu.reports (m, w)
       = (Ok tt,
          (m, shown w (total_lines total
                       ++ map Print (StatisticalReport.turnover_report report))
                (stdin w)))
    /\ (Menu.inventory m = [] -> total = StatisticalReport.Int 0)
    /\ (Menu.inventory m <> [] -> exists x, total = StatisticalReport.Float x).
Proof.
  intros Hq report.
  assert (Hsum : exists total,
             StatisticalReport.sum_values (StatisticalReport.Int 0)
               (dict_values (Menu.inventory m)) = Ok total
             /\ (Menu.inventory m = [] -> total = StatisticalReport.Int 0)
             /\ (Menu.inventory m <> [] ->
                 exists x, total = StatisticalReport.Float x)).
  { rewrite sum_values_start.
    destruct (Menu.inventory m) as [|item inv] eqn:E.
    - eexists. split; [reflexivity|]. split; [reflexivity | congruence].
    - destruct (sum_values_float (dict_values (item :: inv))
                  (binary_normalize 53 1024 0 0 false) Hq) as [x Hx].
      exists (StatisticalReport.Float x). cbn [dict_values map] in *.
      split; [exact Hx|]. split; [discriminate | eauto]. }
  destruct Hsum as (total & Hsum & Hempty & Hfloat). exists total.
  assert (Htotal : StatisticalReport.total_inventory_value report w
                   = (Ok total, shown w (total_lines total) (stdin w))).
  { unfold StatisticalReport.total_inventory_value, report.
    cbn [StatisticalReport.inventory]. unfold bind at 1, print at 1.
    rewrite emit_run. unfold bind at 1, of_result. rewrite Hsum.
    unfold bind at 1, print at 1. rewrite emit_run.
    unfold bind at 1, print at 1. rewrite emit_run.
    unfold ret, shown, total_lines. cbn [stdin stdout files clock].
    rewrite <- !app_assoc. reflexivity. }
  split; [exact Htotal|]. split; [|auto].
  unfold Menu.reports. unfold bind at 1, Menu.self_inventory at 1.
  unfold bind at 1, Menu.self_logger at 1. cbn [fst snd].
  unfold bind at 1, Menu.io at 1. cbn [fst snd].
  fold report. rewrite Htotal.
  unfold Menu.io. cbn [fst snd]. rewrite print_lines_run.
  unfold shown. cbn [stdin stdout files clock]. rewrite <- app_assoc.
  reflexivity.
Qed.

(** X23.  Choice 10 when a quantity is an integer too large for a
    float.  The product of price and quantity raises [OverflowError]:
    the first banner is the only line shown, no total and no turnover
    report, and the menu is as it was. *)
Theorem reports_overflow (m : Menu.t) (w : World) :
  Exists (fun p => float_of_int (Product.quantity p) = Raise OverflowError)
    (dict_values (Menu.inventory m)) ->
  let report := {| StatisticalReport.inventory := Menu.inventory m;
                   StatisticalReport.logger := Menu.logger m |} in
  StatisticalReport.total_inventory_value report w
  = (Raise OverflowError, shown w [Print banner] (stdin w))
  /\ Menu.reports (m, w)
     = (Raise OverflowError, (m, shown w [Print banner] (stdin w))).
Proof.
  intros Hq report.
  assert (Htotal : StatisticalReport.total_inventory_value report w
                   = (Raise OverflowError, shown w [Print banner] (stdin w))).
  { unfold StatisticalReport.total_inventory_value, report.
    cbn [StatisticalReport.inventory]. unfold bind at 1, print at 1.
    rewrite emit_run. unfold bind at 1, of_result.
    rewrite sum_values_start.
    destruct (dict_values (Menu.inventory m)) as [|p ps] eqn:E;
      [inversion Hq|].
    now rewrite (sum_values_overflow _ _ Hq). }
  split; [exact Htotal|].
  unfold Menu.reports. unfold bind at 1, Menu.self_inventory at 1.
  unfold bind at 1, Menu.self_logger at 1. cbn [fst snd].
  unfold bind at 1, Menu.io at 1. cbn [fst snd].
  fold report. now rewrite Htotal.
Qed.

End Reports.

Lemma reports_shown_witness :
  let report := {| StatisticalReport.inventory := [(1, widget); (2, gadget)];
                   StatisticalReport.logger := [] |} in
  exists total,
    StatisticalReport.total_inventory_value (FT := sample_float_text) report
      (typing [] [])
    = (Ok total,
       shown (typing [] []) (total_lines (FT := sample_float_text) total) [])
    /\ Menu.reports (FT := sample_float_text)
         ({| Menu.inventory := [(1, widget); (2, gadget)];
             Menu.logger := [] |}, typing [] [])
       = (Ok tt,
          ({| Menu.inventory := [(1, widget); (2, gadget)];
              Menu.logger := [] |},
           shown (typing [] [])
             (total_lines (FT := sample_float_text) total
              ++ map Print (StatisticalReport.turnover_report report))
             []))
    /\ ([(1, widget); (2, gadget)] = [] -> total = StatisticalReport.Int 0)
    /\ ([(1, widget); (2, gadget)] <> [] ->
        exists x, total = StatisticalReport.Float x).
Proof.
  apply (reports_shown (FT := sample_float_text)
           {| Menu.inventory := [(1, widget); (2, gadget)];
              Menu.logger := [] |} (typing [] [])).
  repeat constructor; eexists; vm_compute; reflexivity.
Defined.

Lemma reports_overflow_witness :
  let m := {| Menu.inventory :=
                [(2, gadget); (1, Product.update_quantity widget (2 ^ 1024))];
              Menu.logger := [] |} in
  let report := {| StatisticalReport.inventory := Menu.inventory m;
                   StatisticalReport.logger := Menu.logger m |} in
  StatisticalReport.total_inventory_value (FT := sample_float_text) report
    (typing [] [])
  = (Raise OverflowError, shown (typing [] []) [Print banner] [])
  /\ Menu.reports (FT := sample_float_text) (m, typing [] [])
     = (Raise OverflowError, (m, shown (typing [] []) [Print banner] [])).
Proof.
  apply (reports_overflow (FT := sample_float_text)
           {| Menu.inventory :=
                [(2, gadget); (1, Product.update_quantity widget (2 ^ 1024))];
              Menu.logger := [] |} (typing [] [])).
  apply Exists_cons_tl, Exists_cons_hd. vm_compute. reflexivity.
Defined.

(** ** What a run leaves alone *)

(** X24.  Choice 2.  A line that [int] takes removes the product of
    that id and says nothing, whether there was one or not: for an id
    that is absent the inventory is the one before.  A line that is no
    integer raises [ValueError]; the menu is as it was. *)
Theorem remove_product_typed (m : Menu.t) (w : World) (line : pystr)
    (rest : list pystr) :
  stdin w = line :: rest ->
  match int_of_str line with
  | Some id =>
      Menu.remove_product (m, w)
      = (Ok tt,
         ({| Menu.inventory := Inventory.remove_product (Menu.inventory m) id;
             Menu.logger := Menu.logger m |},
          shown w [Prompt (py "Product ID: ")] rest))
      /\ (Inventory.get_product (Menu.inventory m) id = None ->
          Inventory.remove_product (Menu.inventory m) id = Menu.inventory m)
      /\ (forall other, other <> id ->
            Inventory.get_product
              (Inventory.remove_product (Menu.inventory m) id) other
            = Inventory.get_product (Menu.inventory m) other)
  | None =>
      Menu.remove_product (m, w)
      = (Raise ValueError, (m, shown w [Prompt (py "Product ID: ")] rest))
  end.
Proof.
  intros Hin.
  assert (Hrun : Menu.remove_product (m, w)
                 = match int_of_str line with
                   | Some id =>
                       (Ok tt,
                        ({| Menu.inventory :=
                              Inventory.remove_product (Menu.inventory m) id;
                            Menu.logger := Menu.logger m |},
                         shown w [Prompt (py "Product ID: ")] rest))
                   | None =>
                       (Raise ValueError,
                        (m, shown w [Prompt (py "Product ID: ")] rest))
                   end).
  { unfold Menu.remove_product.
    unfold bind at 1. unfold Menu.io at 1. cbn [fst snd].
    rewrite (input_int_run _ _ _ _ Hin).
    destruct (int_of_str line); reflexivity. }
  rewrite Hrun. destruct (int_of_str line) as [id|]; [|reflexivity].
  split; [reflexivity|]. split.
  - apply dict_pop_absent.
  - intros other Hne. unfold Inventory.get_product, Inventory.remove_product.
    now apply dict_get_pop_ne.
Qed.

Lemma remove_product_typed_witness :
  Menu.remove_product (widget_menu, typing [py "7"; py "0"] [])
  = (Ok tt,
     ({| Menu.inventory := Inventory.remove_product [(1, widget)] 7;
         Menu.logger := [] |},
      shown (typing [py "7"; py "0"] []) [Prompt (py "Product ID: ")]
        [py "0"]))
  /\ (Inventory.get_product [(1, widget)] 7 = None ->
      Inventory.remove_product [(1, widget)] 7 = [(1, widget)])
  /\ (forall other, other <> 7 ->
        Inventory.get_product (Inventory.remove_product [(1, widget)] 7) other
        = Inventory.get_product [(1, widget)] other).
Proof.
  apply (remove_product_typed widget_menu (typing [py "7"; py "0"] [])
           (py "7") [py "0"]).
  reflexivity.
Defined.

#[local] Instance reads_only_preorder : PreOrder reads_only.
Proof.
  split.
  - intros w. split; reflexivity.
  - intros w1 w2 w3 [F1 S1] [F2 S2]. split; [congruence | etrans; eassumption].
Qed.

Lemma suffix_In (l1 l2 : list pystr) (x : pystr) :
  l1 `suffix_of` l2 -> In x l1 -> In x l2.
Proof. intros [k ->] H. apply in_or_app. now right. Qed.

#[local] Instance writes_on_save_preorder : PreOrder writes_on_save.
Proof.
  split.
  - intros w. split; [reflexivity | auto].
  - intros w1 w2 w3 [S1 F1] [S2 F2]. split; [etrans; eassumption|].
    intros H. rewrite F2, F1; [reflexivity | exact H |].
    intros Hin. apply H. eapply suffix_In; eauto.
Qed.

#[local] Instance in_world_preorder (R : relation World) `{!PreOrder R} :
  PreOrder (in_world R).
Proof.
  split.
  - intros s. unfold in_world. reflexivity.
  - intros s1 s2 s3. unfold in_world. apply transitivity.
Qed.

Lemma reads_only_writes_on_save (w w' : World) :
  reads_only w w' -> writes_on_save w w'.
Proof. intros [F S]. split; [exact S|]. now intros _. Qed.

Lemma preserves_ret {S A} (R : relation S) `{!Reflexive R} (a : A) :
  preserves R (ret a).
Proof. intros s. cbn. reflexivity. Qed.

Lemma preserves_raise {S A} (R : relation S) `{!Reflexive R} (e : exn) :
  preserves R (raise (A := A) e).
Proof. intros s. cbn. reflexivity. Qed.

Lemma preserves_of_result {S A} (R : relation S) `{!Reflexive R}
    (r : result A) :
  preserves R (of_result r).
Proof. intros s. cbn. reflexivity. Qed.

Lemma preserves_bind {S A B} (R : relation S) `{!Transitive R}
    (h : ST S A) (k : A -> ST S B) :
  preserves R h -> (forall a, preserves R (k a)) -> preserves R (bind h k).
Proof.
  intros Hh Hk s. unfold bind. specialize (Hh s).
  destruct (h s) as [[a|e] s']; cbn [snd] in *; [|exact Hh].
  etrans; [exact Hh | apply Hk].
Qed.

Lemma preserves_io {A} (R : relation World) (h : IO A) :
  preserves R h -> preserves (in_world R) (Menu.io h).
Proof.
  intros Hh [m w]. unfold Menu.io, in_world. cbn [fst snd].
  specialize (Hh w). now destruct (h w).
Qed.

Lemma preserves_weaken {A} (h : Menu.M A) :
  preserves (in_world reads_only) h -> preserves (in_world writes_on_save) h.
Proof. intros H s. apply reads_only_writes_on_save, H. Qed.

Create HintDb frame.

Lemma reads_emit (e : event) : preserves reads_only (emit e).
Proof. intros w. split; reflexivity. Qed.

Lemma reads_print (line : pystr) : preserves reads_only (print line).
Proof. apply reads_emit. Qed.

Lemma reads_input (prompt : pystr) : preserves reads_only (input prompt).
Proof.
  intros w. destruct (stdin w) as [|l rest] eqn:Hin.
  - rewrite (input_eof _ _ Hin). split; [reflexivity|]. cbn. now rewrite Hin.
  - rewrite (input_run _ _ _ _ Hin). split; [reflexivity|]. cbn.
    rewrite Hin. now apply suffix_cons_r.
Qed.

Lemma reads_datetime_now : preserves reads_only datetime_now.
Proof. intros w. split; reflexivity. Qed.

Lemma reads_open_read_lines (name : pystr) :
  preserves reads_only (open_read_lines name).
Proof.
  intros w. unfold open_read_lines. destruct (files w name); split; reflexivity.
Qed.

Lemma reads_self_inventory : preserves (in_world reads_only) Menu.self_inventory.
Proof. intros s. split; reflexivity. Qed.

Lemma reads_self_logger : preserves (in_world reads_only) Menu.self_logger.
Proof. intros s. split; reflexivity. Qed.

Lemma reads_set_inventory (inv : Inventory.t) :
  preserves (in_world reads_only) (Menu.set_inventory inv).
Proof. intros s. split; reflexivity. Qed.

Lemma reads_set_logger (log : TransactionLogger.t) :
  preserves (in_world reads_only) (Menu.set_logger log).
Proof. intros s. split; reflexivity. Qed.

#[local] Hint Resolve reads_emit reads_print reads_input reads_datetime_now
  reads_open_read_lines reads_self_inventory reads_self_logger
  reads_set_inventory reads_set_logger : frame.
#[local] Hint Extern 1 (preserves _ (ret _)) =>
  apply preserves_ret; apply _ : frame.
#[local] Hint Extern 1 (preserves _ (raise _)) =>
  apply preserves_raise; apply _ : frame.
#[local] Hint Extern 1 (preserves _ (of_result _)) =>
  apply preserves_of_result; apply _ : frame.

Ltac frame :=
  repeat first
    [ solve [auto with frame]
    | apply preserves_io
    | apply preserves_bind; [apply _ | | intros ?]
    | match goal with
      | |- preserves _ (match ?x with _ => _ end) => destruct x
      | |- preserves _ (if ?x then _ else _) => destruct x
      end ].

Lemma reads_print_lines (lines : list pystr) :
  preserves reads_only (print_lines lines).
Proof. induction lines; cbn [print_lines]; frame. Qed.

#[local] Hint Resolve reads_print_lines : frame.

Section Frame.
Context {FT : FloatText}.

Lemma reads_load_rows (rows : list csv.row) (inv : Inventory.t) :
  preserves reads_only (FileManager.load_rows inv rows).
Proof.
  revert inv. induction rows as [|row rows IH]; intros inv;
    cbn [FileManager.load_rows]; unfold printing; frame.
Qed.

#[local] Hint Resolve reads_load_rows : frame.

Lemma reads_choice (choice : pystr) :
  choice <> py "8" ->
  preserves (in_world reads_only)
    (if pystr_eqb choice (py "1") then bind Menu.add_product (fun _ => ret false)
     else if pystr_eqb choice (py "2") then
       bind Menu.remove_product (fun _ => ret false)
     else if pystr_eqb choice (py "3") then
       bind Menu.list_products (fun _ => ret false)
     else if pystr_eqb choice (py "4") then
       bind Menu.search_by_name (fun _ => ret false)
     else if pystr_eqb choice (py "5") then
       bind Menu.search_by_category (fun _ => ret false)
     else if pystr_eqb choice (py "6") then
       bind Menu.update_quantity (fun _ => ret false)
     else if pystr_eqb choice (py "7") then
       bind Menu.show_chart (fun _ => ret false)
     else if pystr_eqb choice (py "8") then bind Menu.save (fun _ => ret false)
     else if pystr_eqb choice (py "9") then bind Menu.load (fun _ => ret false)
     else if pystr_eqb choice (py "10") then
       bind Menu.reports (fun _ => ret false)
     else if pystr_eqb choice (py "0") then
       bind (Menu.io (print (py "Exiting system."))) (fun _ => ret true)
     else bind (Menu.io (print (py "Invalid choice."))) (fun _ => ret false)).
Proof.
  intros Hne. rewrite (pystr_eqb_neq choice (py "8") Hne).
  unfold Menu.add_product, Menu.remove_product, Menu.list_products,
    Menu.search_by_name, Menu.search_by_category, Menu.update_quantity,
    Menu.show_chart, Menu.load, Menu.reports,
    Menu.input_int, Menu.input_float, Transaction.new,
    Visualizer.plot_inventory, FileManager.load_inventory,
    StatisticalReport.total_inventory_value, printing.
  frame.
Qed.

(** One turn writes no file unless its choice is 8. *)
Lemma writes_turn : preserves (in_world writes_on_save) Menu.turn.
Proof.
  intros [m w]. unfold in_world. cbn [snd].
  destruct (stdin w) as [|choice rest] eqn:Hin.
  - apply reads_only_writes_on_save.
    assert (H : preserves (in_world reads_only)
                  (bind Menu.display
                     (fun _ => Menu.io (input (py "Choice: "))))).
    { unfold Menu.display. frame. }
    specialize (H (m, w)). unfold in_world in H. cbn [snd] in H.
    unfold Menu.turn. unfold Menu.display in *. unfold bind at 1.
    unfold bind at 1 in H. unfold Menu.io at 1. unfold Menu.io at 1 in H.
    cbn [fst snd] in *. unfold print at 1. unfold print at 1 in H.
    rewrite emit_run in *. unfold bind at 1. unfold Menu.io at 1.
    unfold Menu.io at 1 in H. cbn [fst snd] in *.
    rewrite (input_eof _ (shown w [Print Menu.menu_text] (stdin w))) in *
      by exact Hin.
    exact H.
  - rewrite (turn_choice m w choice rest Hin).
    destruct (decide (choice = py "8")) as [->|Hne].
    + match goal with
      | |- writes_on_save w (snd (snd (?choice _))) =>
          change choice with (bind Menu.save (fun _ => ret false))
      end.
      unfold bind. rewrite save_run. cbn [stdin shown].
      destruct rest as [|filename rest']; cbn [snd stdin shown];
        (split;
         [ rewrite Hin; repeat apply suffix_cons_r; reflexivity
         | intros H; exfalso; apply H; rewrite Hin; now left ]).
    + apply reads_only_writes_on_save.
      pose proof (reads_choice choice Hne (m, shown w turn_prompts rest))
        as [Hf Hs].
      cbn [snd stdin files shown] in *. split; [exact Hf|].
      rewrite Hin. now apply suffix_cons_r.
Qed.

Lemma writes_run_turns (fuel : nat) :
  preserves (in_world writes_on_save) (Menu.run_turns fuel).
Proof.
  induction fuel as [|fuel IH]; cbn [Menu.run_turns].
  - apply preserves_ret. apply _.
  - apply preserves_bind; [apply _ | apply writes_turn|].
    intros [|]; [apply preserves_ret; apply _ | exact IH].
Qed.

(** X25.  The files a run leaves alone.  Choice 8 is the only one that
    writes a file, and a choice is 8 only when the line typed is: in a
    run where no line typed is 8, every file is at the end, however the
    run ends, what it was at the start. *)
Theorem run_without_save_keeps_files (m : Menu.t) (w : World) :
  ~ In (py "8") (stdin w) ->
  files (snd (snd (Menu.run (m, w)))) = files w.
Proof.
  intros H. unfold Menu.run.
  destruct (writes_run_turns (S (length (stdin w))) (m, w)) as [_ Hf].
  cbn [snd] in *. now apply Hf.
Qed.

End Frame.

Lemma run_without_save_keeps_files_witness :
  files
    (snd (snd (Menu.run (FT := sample_float_text)
                 (widget_menu,
                  typing [py "2"; py "1"; py "9"; py "inventory.csv"; py "0"]
                    bad_csv))))
  = files (typing [py "2"; py "1"; py "9"; py "inventory.csv"; py "0"]
             bad_csv).
Proof.
  apply (run_without_save_keeps_files (FT := sample_float_text) widget_menu
           (typing [py "2"; py "1"; py "9"; py "inventory.csv"; py "0"]
              bad_csv)).
  cbn. intuition discriminate.
Defined.
